(** * ProfitRider backend: session derivation engine and dashboard

    A shallow embedding of [api/models.py] ([WorkSession.save]),
    [api/serializers.py] ([WorkSessionSerializer.create] / [update]) and
    [api/views.py] ([WorkSessionViewSet.perform_create],
    [DashboardMetricsView.get]), with the properties of the financial
    computation engine stated over it.

    Layout.  Numbers: [Dec] is Python's [decimal.Decimal] at the default
    context, [Flt] the two binary64 divisions behind [duration_hours].
    [Cal]: times, dates and the calendar.  Exceptions and the [result]
    of a computation that may raise.  [Models]: profiles, sessions, the
    database and [WorkSession.save].  [Serializers] and [Views].  Then
    the vocabulary of the properties with the sessions used as examples,
    and the properties themselves. *)

From Stdlib Require Import ZArith QArith Qabs Lia List String Ascii Bool.
From stdpp Require Import gmap sorting.

Local Open Scope Z_scope.

(* ===================================================================== *)
(** * Decimal arithmetic *)
(* ===================================================================== *)

(** Python's [decimal.Decimal] restricted to finite numbers: a signed
    coefficient and an exponent, the value being [coeff * 10 ^ expo].
    Arithmetic follows [decimal.py] at the default context (precision 28,
    ROUND_HALF_EVEN).  The exponent limits (Emax, Emin) of the context and
    the sign of a zero are left out: no operation of the program
    distinguishes [-0] from [0], and the exponents the program produces
    stay far inside the limits. *)
Module Dec.

Record Decimal : Set := mkDecimal { coeff : Z; expo : Z }.

(** [getcontext().prec] *)
Definition prec : Z := 28.

(** [Decimal('0.00')], [Decimal('7.0')], [Decimal('100.0')],
    [Decimal('100')], [Decimal(0)]: the literals of the program. *)
Definition d_0_00 : Decimal := mkDecimal 0 (-2).
Definition d_7_0 : Decimal := mkDecimal 70 (-1).
Definition d_100_0 : Decimal := mkDecimal 1000 (-1).
Definition d_100 : Decimal := mkDecimal 100 0.
Definition d_0 : Decimal := mkDecimal 0 0.

(** [Decimal(n)] for a Python [int]. *)
Definition of_int (n : Z) : Decimal := mkDecimal n 0.

(** The value as a rational number. *)
Definition to_Q (d : Decimal) : Q :=
  if 0 <=? expo d
  then inject_Z (coeff d * 10 ^ expo d)
  else Qmake (coeff d) (Z.to_pos (10 ^ (- expo d))).

(** Python's [==] on decimals compares values, not representations. *)
Definition eqb (a b : Decimal) : bool :=
  let m := Z.min (expo a) (expo b) in
  coeff a * 10 ^ (expo a - m) =? coeff b * 10 ^ (expo b - m).

(** [d > 0] and the truth value of [d] (non-zero). *)
Definition is_pos (d : Decimal) : bool := 0 <? coeff d.
Definition truthy (d : Decimal) : bool := negb (coeff d =? 0).

(** [len(self._int)]: the number of decimal digits of a coefficient;
    zero has the one digit ['0']. *)
Fixpoint ndigits_aux (fuel : nat) (n : Z) : Z :=
  match fuel with
  | O => 1
  | S f => if n <? 10 then 1 else 1 + ndigits_aux f (n / 10)
  end.

Definition ndigits (n : Z) : Z :=
  ndigits_aux (Z.to_nat (Z.log2 (Z.abs n))) (Z.abs n).

(** Round [num / den] to an integer, ties to even ([den > 0]). *)
Definition round_half_even (num den : Z) : Z :=
  let q := num / den in
  let r := num mod den in
  if 2 * r <? den then q
  else if den <? 2 * r then q + 1
  else if Z.even q then q else q + 1.

(** [Decimal._fix]: round to the context precision.  A coefficient of
    more than [prec] digits is rescaled to [prec] digits; when rounding
    carries into a further digit the trailing zero is dropped. *)
Definition fix_ (d : Decimal) : Decimal :=
  let c := coeff d in
  if Z.abs c <? 10 ^ prec then d
  else
    let shift := ndigits c - prec in
    let c' := round_half_even c (10 ^ shift) in
    if Z.abs c' <? 10 ^ prec
    then mkDecimal c' (expo d + shift)
    else mkDecimal (c' / 10) (expo d + shift + 1).

(** [Decimal.__add__]: align on the smaller exponent, add, round. *)
Definition add (a b : Decimal) : Decimal :=
  let e := Z.min (expo a) (expo b) in
  fix_ (mkDecimal (coeff a * 10 ^ (expo a - e) + coeff b * 10 ^ (expo b - e)) e).

Definition neg (a : Decimal) : Decimal := mkDecimal (- coeff a) (expo a).

(** [Decimal.__sub__] is [self + (-other)]. *)
Definition sub (a b : Decimal) : Decimal := add a (neg b).

(** [Decimal.__mul__] *)
Definition mul (a b : Decimal) : Decimal :=
  fix_ (mkDecimal (coeff a * coeff b) (expo a + expo b)).

(** The loop of [__truediv__] for an exact quotient: drop trailing zeros
    while the exponent is below the ideal one; [n] is the distance
    [ideal_exp - exp]. *)
Fixpoint strip_zeros (n : nat) (c e : Z) : Z * Z :=
  match n with
  | O => (c, e)
  | S n' => if c mod 10 =? 0 then strip_zeros n' (c / 10) (e + 1) else (c, e)
  end.

(** [Decimal.__truediv__]; [None] is the [DivisionByZero] (or
    [InvalidOperation] for 0/0) that Python raises. *)
Definition div (a b : Decimal) : option Decimal :=
  if coeff b =? 0 then None
  else if coeff a =? 0 then Some (mkDecimal 0 (expo a - expo b))
  else
    let sgn := Z.sgn (coeff a) * Z.sgn (coeff b) in
    let shift := ndigits (coeff b) - ndigits (coeff a) + prec + 1 in
    let e := expo a - expo b - shift in
    let num := if 0 <=? shift then Z.abs (coeff a) * 10 ^ shift else Z.abs (coeff a) in
    let den := if 0 <=? shift then Z.abs (coeff b) else Z.abs (coeff b) * 10 ^ (- shift) in
    let q := num / den in
    let r := num mod den in
    if r =? 0
    then
      let '(q', e') := strip_zeros (Z.to_nat (expo a - expo b - e)) q e in
      Some (fix_ (mkDecimal (sgn * q') e'))
    else
      let q' := if q mod 5 =? 0 then q + 1 else q in
      Some (fix_ (mkDecimal (sgn * q') e)).

(** [Decimal.quantize(Decimal('0.01'))] with ROUND_HALF_EVEN: what a
    [DecimalField(decimal_places=2)] column keeps of a value
    ([django.db.backends.utils.format_number]). *)
Definition quantize2 (d : Decimal) : Decimal :=
  if expo d <=? -2
  then mkDecimal (round_half_even (coeff d) (10 ^ (-2 - expo d))) (-2)
  else mkDecimal (coeff d * 10 ^ (expo d + 2)) (-2).

End Dec.

Import Dec.

(* ===================================================================== *)
(** * Binary floating point behind [duration_hours] *)
(* ===================================================================== *)

(** [diff.total_seconds() / 3600] is computed in binary64.  Both
    operations involved are divisions whose operands are exact, so each
    returns the rational quotient rounded to 53 significant bits, ties to
    even.  Only non-negative, normal-range results occur (a duration lies
    between one microsecond and a day), so subnormals, infinities and NaN
    are left out. *)
Module Flt.

(** A non-negative finite binary64 number: [mant * 2 ^ fexp]. *)
Record float : Set := mkFloat { mant : Z; fexp : Z }.

(** The quotient [p / q] of two integers ([0 <= p], [0 < q]) rounded to
    nearest, ties to even, with a 53-bit significand. *)
Definition rn_div (p q : Z) : float :=
  if p =? 0 then mkFloat 0 0
  else
    let e0 := Z.log2 p - Z.log2 q - 53 in
    let num := if 0 <=? e0 then p else p * 2 ^ (- e0) in
    let den := if 0 <=? e0 then q * 2 ^ e0 else q in
    if num / den <? 2 ^ 53
    then mkFloat (round_half_even num den) e0
    else mkFloat (round_half_even num (2 * den)) (e0 + 1).

(** [f / n] for a float [f] and a Python [int] [n] that converts to a
    float exactly ([0 < n < 2 ^ 53]). *)
Definition div_int (f : float) (n : Z) : float :=
  if 0 <=? fexp f
  then rn_div (mant f * 2 ^ fexp f) n
  else rn_div (mant f) (n * 2 ^ (- fexp f)).

(** The loop of [float.as_integer_ratio]: while the exponent is negative
    and the significand even, halve the one and raise the other; [n] is
    the distance of the exponent to zero. *)
Fixpoint strip_twos (n : nat) (m e : Z) : Z * Z :=
  match n with
  | O => (m, e)
  | S n' => if Z.even m then strip_twos n' (m / 2) (e + 1) else (m, e)
  end.

(** [float.as_integer_ratio]: the value as a fraction in lowest terms;
    the denominator is a power of two. *)
Definition as_integer_ratio (f : float) : Z * Z :=
  if 0 <=? fexp f then (mant f * 2 ^ fexp f, 1)
  else
    let '(m, e) := strip_twos (Z.to_nat (- fexp f)) (mant f) (fexp f) in
    (m, 2 ^ (- e)).

(** [Decimal(f)] ([Decimal.from_float]): the exact value of the float,
    [n / 2 ^ k] written as [n * 5 ^ k] with exponent [- k]. *)
Definition to_decimal (f : float) : Decimal :=
  let '(n, d) := as_integer_ratio f in
  let k := Z.log2 d in
  mkDecimal (n * 5 ^ k) (- k).

End Flt.

(* ===================================================================== *)
(** * Calendar: [datetime.time], [datetime.date], [calendar.monthrange] *)
(* ===================================================================== *)

Module Cal.

(** [datetime.time] (naive). *)
Record time : Set := mkTime { hour : Z; minute : Z; second : Z; microsecond : Z }.

Definition valid_time (t : time) : Prop :=
  0 <= hour t < 24 /\ 0 <= minute t < 60 /\ 0 <= second t < 60 /\
  0 <= microsecond t < 1000000.

(** Microseconds since midnight: the position of
    [datetime.combine(dummy_date, t)] on the dummy day. *)
Definition time_us (t : time) : Z :=
  ((hour t * 60 + minute t) * 60 + second t) * 1000000 + microsecond t.

Definition day_us : Z := 86400 * 1000000.

(** [datetime.date] *)
Record date : Set := mkDate { year : Z; month : Z; day : Z }.

(** [calendar.isleap] *)
Definition isleap (y : Z) : bool :=
  (y mod 4 =? 0) && (negb (y mod 100 =? 0) || (y mod 400 =? 0)).

(** [calendar.mdays] *)
Definition mdays : list Z := [0; 31; 28; 31; 30; 31; 30; 31; 31; 30; 31; 30; 31].

(** [calendar.monthrange(year, month)[1]]; [None] is the
    [IllegalMonthError] raised for a month outside 1..12. *)
Definition days_in_month (y m : Z) : option Z :=
  if (1 <=? m) && (m <=? 12)
  then Some (nth (Z.to_nat m) mdays 0 + (if (m =? 2) && isleap y then 1 else 0))
  else None.

(** [datetime._days_before_year], [_days_before_month], [_ymd2ord]:
    the proleptic Gregorian ordinal of a date ([date.toordinal]). *)
Definition days_before_year (y : Z) : Z :=
  let y' := y - 1 in y' * 365 + y' / 4 - y' / 100 + y' / 400.

Definition DAYS_BEFORE_MONTH : list Z :=
  [0; 0; 31; 59; 90; 120; 151; 181; 212; 243; 273; 304; 334].

Definition days_before_month (y m : Z) : Z :=
  nth (Z.to_nat m) DAYS_BEFORE_MONTH 0 + (if (2 <? m) && isleap y then 1 else 0).

Definition toordinal (d : date) : Z :=
  days_before_year (year d) + days_before_month (year d) (month d) + day d.

(** [date.weekday]: Monday is 0. *)
Definition weekday (d : date) : Z := (toordinal d + 6) mod 7.

(** [date.max.toordinal()], the ordinal of 9999-12-31. *)
Definition MAXORDINAL : Z := 3652059.

End Cal.

Import Cal.

(* ===================================================================== *)
(** * Exceptions *)
(* ===================================================================== *)

(** The exceptions the modelled code can raise, and computations that
    either return a value or raise one of them. *)
Inductive exn : Set :=
  | RelatedObjectDoesNotExist   (* [user.profile] on a user without profile *)
  | IllegalMonthError           (* [calendar.monthrange] *)
  | DivisionByZero              (* [Decimal.__truediv__] *)
  | TypeError                   (* [Decimal + float] *)
  | InvalidOperation            (* [Decimal.quantize]: more digits than the column *)
  | IntegrityError              (* NOT NULL column left unset *)
  | OverflowError               (* [date + timedelta] past [date.max];
                                   an [int] beyond 64 bits handed to SQLite *)
  | CreditsExhausted.           (* [views.CreditsExhausted], HTTP 402 *)

Inductive result (A : Type) : Type :=
  | Ok (a : A)
  | Raise (e : exn).

Arguments Ok {A} a.
Arguments Raise {A} e.

Definition bind {A B : Type} (m : result A) (k : A -> result B) : result B :=
  match m with
  | Ok a => k a
  | Raise e => Raise e
  end.

Notation "x <- m ;; k" := (bind m (fun x => k))
  (at level 100, m at next level, right associativity).

(** An operation that signals failure by [None] raises [e]. *)
Definition or_raise {A : Type} (e : exn) (o : option A) : result A :=
  match o with
  | Some a => Ok a
  | None => Raise e
  end.

(** [try: v = body  except Exception: v = fallback] *)
Definition try_except {A : Type} (body : result A) (fallback : A) : A :=
  match body with
  | Ok a => a
  | Raise _ => fallback
  end.

#[global] Instance date_eq_dec : EqDecision date.
Proof. solve_decision. Defined.


(* ===================================================================== *)
(** * Models ([api/models.py]) *)
(* ===================================================================== *)

Module Models.

Record Country : Set := mkCountry {
  tax_rate_percentage : Decimal
}.

Record UserProfile : Set := mkUserProfile {
  country : option Country;
  transport_type : string;
  courier_type : string;
  fee_percent : Decimal;
  credits : Z;
  rent_frequency : string;
  rent_amount : Decimal;
  is_pro : bool
}.

(** The row [UserProfile.objects.create(user=user)] inserts: every
    field at its declared default. *)
Definition default_profile : UserProfile :=
  {| country := None;
     transport_type := "car";
     courier_type := "FLEET_COMPANY";
     fee_percent := d_0_00;
     credits := 300;
     rent_frequency := "daily";
     rent_amount := d_0_00;
     is_pro := false |}.

(** A [User] object as a request carries it.  [profile_created] says
    that [user.profile] is cached as the instance
    [UserProfile.objects.create] has just returned (the one-to-one
    assignment caches it on the user): that instance was not read from
    the database. *)
Record User : Set := mkUser {
  uid : nat;
  profile_created : bool
}.

(** What the attribute [vehicle_rent] of an instance can hold.  It is the
    one amount that [save] does not pass through [Decimal(str(...))]: a
    caller (the serializer, the database) supplies a decimal, while an
    instance built without a value carries the float of the declaration
    [default=0.0]. *)
Inductive number : Set :=
  | Dec (d : Decimal)
  | Float (f : Flt.float).

(** The float [0.0] of a declaration [default=0.0]. *)
Definition float_0_0 : number := Float (Flt.mkFloat 0 0).

(** What [user.profile] evaluates to: a profile read from its row, whose
    decimal fields are decimals, or the instance just created, whose
    fields are the declared defaults, the decimal ones being the floats
    [0.0] of their declaration. *)
Inductive profile_object : Set :=
  | Loaded (p : UserProfile)
  | Created.

Definition profile_row (o : profile_object) : UserProfile :=
  match o with
  | Loaded p => p
  | Created => default_profile
  end.

(** [profile.rent_amount] and [profile.fee_percent] *)
Definition rent_amount_of (o : profile_object) : number :=
  match o with
  | Loaded p => Dec (rent_amount p)
  | Created => float_0_0
  end.

Definition fee_percent_of (o : profile_object) : number :=
  match o with
  | Loaded p => Dec (fee_percent p)
  | Created => float_0_0
  end.

(** A [WorkSession] instance.  [pk] is [None] until the row is inserted;
    [start_time], [end_time], [duration_hours] and [total_orders] may be
    [None] on an instance, which [save] tests for.  The other raw amounts
    are taken after their conversion [Decimal(str(x))]. *)
Record WorkSession : Set := mkWorkSession {
  pk : option positive;
  user : User;
  date : Cal.date;
  start_time : option time;
  end_time : option time;
  duration_hours : option Decimal;
  total_orders : option Z;
  total_distance_km : Decimal;
  gross_earnings : Decimal;
  tips : Decimal;
  fuel_cost : Decimal;
  vehicle_rent : number;
  depreciation_cost : Decimal;
  other_expenses : Decimal;
  application_fee : Decimal;
  total_earnings : Decimal;
  platform_fees : Decimal;
  tax_estimate : Decimal;
  net_profit : Decimal;
  profit_per_hour : Decimal;
  profit_per_km : Decimal;
  profit_per_order : Decimal
}.

(** The database: one profile per user id at most (a one-to-one field),
    and the session table keyed by primary key. *)
Record DB : Type := mkDB {
  profiles : gmap nat UserProfile;
  sessions : gmap positive WorkSession
}.

(** [user.profile]: the cached instance when there is one, the row of
    the user otherwise; raises when the user has no profile. *)
Definition get_profile (db : DB) (u : User) : result profile_object :=
  if profile_created u then Ok Created
  else
    p <- or_raise RelatedObjectDoesNotExist (profiles db !! uid u) ;;
    Ok (Loaded p).

(** The existence query of [save]:
    [WorkSession.objects.filter(user=self.user, date=self.date)],
    without the row of [self] when [self.pk] is set. *)
Definition is_other_session (s : WorkSession) (k : positive) (row : WorkSession) : Prop :=
  uid (user row) = uid (user s) /\ date row = date s /\ pk s <> Some k.

Definition existing_sessions_exist (db : DB) (s : WorkSession) : bool :=
  bool_decide (map_Exists (is_other_session s) (sessions db)).

(** Lines 120-130: the duration, through [float].  (A [time] is true
    whatever its value; only [None] is false.) *)
Definition compute_duration (s : WorkSession) : option Decimal :=
  match start_time s, end_time s with
  | Some st, Some en =>
      let start := time_us st in
      let end0 := time_us en in
      let end1 := if end0 <? start then end0 + day_us else end0 in
      let diff := end1 - start in
      (* diff.total_seconds() / 3600 *)
      Some (Flt.to_decimal (Flt.div_int (Flt.rn_div diff 1000000) 3600))
  | _, _ => duration_hours s
  end.

(** [n / d] for a decimal [d]: a float and a decimal do not divide. *)
Definition div_number (n : number) (d : Decimal) : result Decimal :=
  match n with
  | Dec a => or_raise DivisionByZero (div a d)
  | Float _ => Raise TypeError
  end.

(** Lines 147-161: the daily cost of the rent. *)
Definition daily_cost (profile : profile_object) (d : Cal.date) : result number :=
  let amount := rent_amount_of profile in
  let freq := rent_frequency (profile_row profile) in
  if (freq =? "daily")%string then Ok amount
  else if (freq =? "weekly")%string then
    q <- div_number amount d_7_0 ;;
    Ok (Dec q)
  else if (freq =? "monthly")%string then
    days_in_month <- or_raise IllegalMonthError (days_in_month (year d) (month d)) ;;
    q <- div_number amount (of_int days_in_month) ;;
    Ok (Dec q)
  else Ok (Dec d_0_00).

(** Lines 144-172: the body of the first [try]. *)
Definition rent_block (db : DB) (s : WorkSession) : result number :=
  profile <- get_profile db (user s) ;;
  daily_cost <- daily_cost profile (date s) ;;
  if negb (existing_sessions_exist db s)
  then Ok daily_cost
  else Ok (Dec d_0_00).

(** Lines 178-188: the body of the second [try]. *)
Definition fee_block (db : DB) (s : WorkSession) : result Decimal :=
  profile <- get_profile db (user s) ;;
  if (courier_type (profile_row profile) =? "SOLOPRENEUR")%string then Ok d_0_00
  else
    fee_pct <- div_number (fee_percent_of profile) d_100_0 ;;
    Ok (mul (gross_earnings s) fee_pct).

(** Lines 199-206: the tax rate; [None] when the [if] does not fire. *)
Definition tax_block (db : DB) (s : WorkSession) : result (option Decimal) :=
  profile <- get_profile db (user s) ;;
  match country (profile_row profile) with
  | Some c =>
      r <- or_raise DivisionByZero (div (tax_rate_percentage c) d_100) ;;
      Ok (Some r)
  | None => Ok None
  end.

(** [x + self.vehicle_rent]: a decimal and a float do not add. *)
Definition add_number (x : Decimal) (n : number) : result Decimal :=
  match n with
  | Dec d => Ok (add x d)
  | Float _ => Raise TypeError
  end.

(** [net_profit / d if d and d > 0 else Decimal('0.00')] *)
Definition kpi (net_profit : Decimal) (divisor : option Decimal) : result Decimal :=
  match divisor with
  | Some d =>
      if truthy d && is_pos d
      then or_raise DivisionByZero (div net_profit d)
      else Ok d_0_00
  | None => Ok d_0_00
  end.

(** [WorkSession.save] up to the call of [super().save]: every derived
    field of the instance. *)
Definition derive (db : DB) (s : WorkSession) : result WorkSession :=
  let duration_hours' := compute_duration s in
  (* except Exception: pass  -- the rent keeps the value it had *)
  let vehicle_rent' := try_except (rent_block db s) (vehicle_rent s) in
  let application_fee' := try_except (fee_block db s) d_0_00 in
  let total_earnings' := add (gross_earnings s) (tips s) in
  costs1 <- add_number (fuel_cost s) vehicle_rent' ;;
  let total_costs :=
    add (add (add (add costs1 (depreciation_cost s))
                  (other_expenses s)) (platform_fees s)) application_fee' in
  let tax_rate :=
    match try_except (tax_block db s) None with
    | Some r => r
    | None => d_0_00
    end in
  let pre_tax_profit := sub total_earnings' total_costs in
  let tax_estimate' :=
    if is_pos pre_tax_profit then mul pre_tax_profit tax_rate else d_0_00 in
  let net_profit' := sub pre_tax_profit tax_estimate' in
  profit_per_hour' <- kpi net_profit' duration_hours' ;;
  profit_per_km' <- kpi net_profit' (Some (total_distance_km s)) ;;
  profit_per_order' <- kpi net_profit' (of_int <$> total_orders s) ;;
  Ok {| pk := pk s;
        user := user s;
        date := date s;
        start_time := start_time s;
        end_time := end_time s;
        duration_hours := duration_hours';
        total_orders := total_orders s;
        total_distance_km := total_distance_km s;
        gross_earnings := gross_earnings s;
        tips := tips s;
        fuel_cost := fuel_cost s;
        vehicle_rent := vehicle_rent';
        depreciation_cost := depreciation_cost s;
        other_expenses := other_expenses s;
        application_fee := application_fee';
        total_earnings := total_earnings';
        platform_fees := platform_fees s;
        tax_estimate := tax_estimate';
        net_profit := net_profit';
        profit_per_hour := profit_per_hour';
        profit_per_km := profit_per_km';
        profit_per_order := profit_per_order' |}.

Definition set_pk (k : positive) (s : WorkSession) : WorkSession :=
  {| pk := Some k;
     user := user s;
     date := date s;
     start_time := start_time s;
     end_time := end_time s;
     duration_hours := duration_hours s;
     total_orders := total_orders s;
     total_distance_km := total_distance_km s;
     gross_earnings := gross_earnings s;
     tips := tips s;
     fuel_cost := fuel_cost s;
     vehicle_rent := vehicle_rent s;
     depreciation_cost := depreciation_cost s;
     other_expenses := other_expenses s;
     application_fee := application_fee s;
     total_earnings := total_earnings s;
     platform_fees := platform_fees s;
     tax_estimate := tax_estimate s;
     net_profit := net_profit s;
     profit_per_hour := profit_per_hour s;
     profit_per_km := profit_per_km s;
     profit_per_order := profit_per_order s |}.

Definition quantize_number (n : number) : number :=
  match n with
  | Dec d => Dec (quantize2 d)
  | Float f => Dec (quantize2 (Flt.to_decimal f))
  end.

(** The row the table keeps of an instance: the user by its id, and every
    amount as a
    [DecimalField(decimal_places=2)], written with two decimal places
    (ROUND_HALF_EVEN, as Django formats decimals for the default SQLite
    backend; PostgreSQL rounds ties away from zero). *)
Definition to_row (s : WorkSession) : WorkSession :=
  {| pk := pk s;
     user := mkUser (uid (user s)) false;
     date := date s;
     start_time := start_time s;
     end_time := end_time s;
     duration_hours := quantize2 <$> duration_hours s;
     total_orders := total_orders s;
     total_distance_km := quantize2 (total_distance_km s);
     gross_earnings := quantize2 (gross_earnings s);
     tips := quantize2 (tips s);
     fuel_cost := quantize2 (fuel_cost s);
     vehicle_rent := quantize_number (vehicle_rent s);
     depreciation_cost := quantize2 (depreciation_cost s);
     other_expenses := quantize2 (other_expenses s);
     application_fee := quantize2 (application_fee s);
     total_earnings := quantize2 (total_earnings s);
     platform_fees := quantize2 (platform_fees s);
     tax_estimate := quantize2 (tax_estimate s);
     net_profit := quantize2 (net_profit s);
     profit_per_hour := quantize2 (profit_per_hour s);
     profit_per_km := quantize2 (profit_per_km s);
     profit_per_order := quantize2 (profit_per_order s) |}.

(** A value on its way into a column
    [DecimalField(max_digits, decimal_places=2)]
    ([django.db.backends.utils.format_number]): it is quantized to two
    places in a context of precision [max_digits], and [quantize] raises
    [InvalidOperation] when the result has more than [max_digits] digits
    (its check before rounding and its check after rounding together
    refuse exactly these values).  PostgreSQL, which is sent the value
    as it is, refuses the same values with a [DataError]. *)
Definition fits (max_digits : Z) (d : Decimal) : bool :=
  Z.abs (coeff (quantize2 d)) <? 10 ^ max_digits.

Definition fits_number (max_digits : Z) (n : number) : bool :=
  match n with
  | Dec d => fits max_digits d
  | Float f => fits max_digits (Flt.to_decimal f)
  end.

(** Every amount of the instance fits its column: [duration_hours] has
    [max_digits=5], the other amounts [max_digits=10]. *)
Definition decimals_fit (s : WorkSession) : bool :=
  from_option (fits 5) true (duration_hours s) &&
  fits 10 (total_distance_km s) &&
  fits 10 (gross_earnings s) &&
  fits 10 (tips s) &&
  fits 10 (fuel_cost s) &&
  fits_number 10 (vehicle_rent s) &&
  fits 10 (depreciation_cost s) &&
  fits 10 (other_expenses s) &&
  fits 10 (application_fee s) &&
  fits 10 (total_earnings s) &&
  fits 10 (platform_fees s) &&
  fits 10 (tax_estimate s) &&
  fits 10 (net_profit s) &&
  fits 10 (profit_per_hour s) &&
  fits 10 (profit_per_km s) &&
  fits 10 (profit_per_order s).

(** An integer SQLite takes: 64 bits, signed. *)
Definition int64 (n : Z) : bool := (- 2 ^ 63 <=? n) && (n <? 2 ^ 63).

(** The columns declared without [null=True] that an instance can leave
    unset. *)
Definition required_set (s : WorkSession) : bool :=
  bool_decide (is_Some (start_time s)) &&
  bool_decide (is_Some (end_time s)) &&
  bool_decide (is_Some (duration_hours s)) &&
  bool_decide (is_Some (total_orders s)).

(** The row is inserted under a primary key the table does not use yet,
    or replaces the row of [self.pk]. *)
Definition insert_row (db : DB) (s : WorkSession) : DB * WorkSession :=
  let k := match pk s with
           | Some k => k
           | None => fresh (dom (sessions db))
           end in
  let inst := set_pk k s in
  (mkDB (profiles db) (<[k := to_row inst]> (sessions db)), inst).

(** [super().save()] on the default SQLite backend.  The values are
    prepared first: an amount with too many digits for its column raises
    [InvalidOperation].  The statement is then handed to SQLite: an
    integer beyond 64 bits raises [OverflowError] when it is bound, and a
    NOT NULL column left unset raises [IntegrityError] when the statement
    runs.  Otherwise the row is written. *)
Definition persist (db : DB) (s : WorkSession) : result (DB * WorkSession) :=
  if negb (decimals_fit s) then Raise InvalidOperation
  else if negb (from_option int64 true (total_orders s)) then Raise OverflowError
  else if negb (required_set s) then Raise IntegrityError
  else Ok (insert_row db s).

(** [WorkSession.save]: the new database and the instance as the caller
    sees it afterwards. *)
Definition save (db : DB) (s : WorkSession) : result (DB * WorkSession) :=
  s' <- derive db s ;;
  persist db s'.

(** [session.delete()] *)
Definition delete (db : DB) (k : positive) : DB :=
  mkDB (profiles db) (delete k (sessions db)).

(** [profile.save()] for the profile of user [u]. *)
Definition save_profile (db : DB) (u : nat) (p : UserProfile) : DB :=
  mkDB (<[u := p]> (profiles db)) (sessions db).

End Models.

(* ===================================================================== *)
(** * Serializers ([api/serializers.py]) *)
(* ===================================================================== *)

Module Serializers.

Import Models.

(** The [validated_data] of a [WorkSessionSerializer]: a value for each
    writable field the request carried.  ([platform] and [webhook_event]
    are writable too and play no part in the derivation.) *)
Record validated_data : Set := mkValidated {
  vd_date : option Cal.date;
  vd_start_time : option time;
  vd_end_time : option time;
  vd_total_orders : option Z;
  vd_total_distance_km : option Decimal;
  vd_gross_earnings : option Decimal;
  vd_tips : option Decimal;
  vd_fuel_cost : option Decimal;
  vd_vehicle_rent : option Decimal;
  vd_depreciation_cost : option Decimal;
  vd_other_expenses : option Decimal;
  vd_platform_fees : option Decimal
}.

(** [str.lower] on ASCII letters. *)
Definition lower_ascii (c : ascii) : ascii :=
  let n := nat_of_ascii c in
  if ((65 <=? n) && (n <=? 90))%nat then ascii_of_nat (n + 32) else c.

Fixpoint lower (s : string) : string :=
  match s with
  | EmptyString => EmptyString
  | String c r => String (lower_ascii c) (lower r)
  end.

(** [hasattr(user, 'profile') and user.profile] and
    [transport_type in ['bicycle', 'scooter']], the type lower-cased. *)
Definition is_non_fuel (db : DB) (u : User) : bool :=
  match get_profile db u with
  | Ok profile =>
      let transport_type := lower (transport_type (profile_row profile)) in
      ((transport_type =? "bicycle") || (transport_type =? "scooter"))%string
  | Raise _ => false
  end.

(** [validated_data['fuel_cost'] = 0]; [save] reads the integer as
    [Decimal('0')]. *)
Definition set_fuel_cost_0 (vd : validated_data) : validated_data :=
  {| vd_date := vd_date vd;
     vd_start_time := vd_start_time vd;
     vd_end_time := vd_end_time vd;
     vd_total_orders := vd_total_orders vd;
     vd_total_distance_km := vd_total_distance_km vd;
     vd_gross_earnings := vd_gross_earnings vd;
     vd_tips := vd_tips vd;
     vd_fuel_cost := Some d_0;
     vd_vehicle_rent := vd_vehicle_rent vd;
     vd_depreciation_cost := vd_depreciation_cost vd;
     vd_other_expenses := vd_other_expenses vd;
     vd_platform_fees := vd_platform_fees vd |}.

Definition enforce_fuel_cost (db : DB) (u : User) (vd : validated_data) : validated_data :=
  if is_non_fuel db u then set_fuel_cost_0 vd else vd.

(** The instance [objects.create] builds from [validated_data]: fields the request left out take the
    default of their declaration ([0.0] reads as [Decimal('0.0')], [0] as
    [Decimal('0')]); the derived fields, which have none, are shown as
    zero until [save] assigns them.  [date], [start_time] and [end_time]
    have no default and are NOT NULL. *)
Definition new_instance (u : User) (vd : validated_data) : result WorkSession :=
  match vd_date vd, vd_start_time vd, vd_end_time vd with
  | Some d, Some st, Some en =>
      Ok {| pk := None;
            user := u;
            date := d;
            start_time := Some st;
            end_time := Some en;
            duration_hours := None;
            total_orders := Some (default 0 (vd_total_orders vd));
            total_distance_km := default d_0 (vd_total_distance_km vd);
            gross_earnings := default (mkDecimal 0 (-1)) (vd_gross_earnings vd);
            tips := default (mkDecimal 0 (-1)) (vd_tips vd);
            fuel_cost := default (mkDecimal 0 (-1)) (vd_fuel_cost vd);
            vehicle_rent := default float_0_0 (Dec <$> vd_vehicle_rent vd);
            depreciation_cost := default (mkDecimal 0 (-1)) (vd_depreciation_cost vd);
            other_expenses := default (mkDecimal 0 (-1)) (vd_other_expenses vd);
            application_fee := mkDecimal 0 (-1);
            total_earnings := d_0;
            platform_fees := default (mkDecimal 0 (-1)) (vd_platform_fees vd);
            tax_estimate := d_0;
            net_profit := d_0;
            profit_per_hour := d_0;
            profit_per_km := d_0;
            profit_per_order := d_0 |}
  | _, _, _ => Raise IntegrityError
  end.

(** [ModelSerializer.update]: [setattr] for every key present. *)
Definition set_attrs (vd : validated_data) (s : WorkSession) : WorkSession :=
  {| pk := pk s;
     user := user s;
     date := default (date s) (vd_date vd);
     start_time := from_option Some (start_time s) (vd_start_time vd);
     end_time := from_option Some (end_time s) (vd_end_time vd);
     duration_hours := duration_hours s;
     total_orders := from_option Some (total_orders s) (vd_total_orders vd);
     total_distance_km := default (total_distance_km s) (vd_total_distance_km vd);
     gross_earnings := default (gross_earnings s) (vd_gross_earnings vd);
     tips := default (tips s) (vd_tips vd);
     fuel_cost := default (fuel_cost s) (vd_fuel_cost vd);
     vehicle_rent := default (vehicle_rent s) (Dec <$> vd_vehicle_rent vd);
     depreciation_cost := default (depreciation_cost s) (vd_depreciation_cost vd);
     other_expenses := default (other_expenses s) (vd_other_expenses vd);
     application_fee := application_fee s;
     total_earnings := total_earnings s;
     platform_fees := default (platform_fees s) (vd_platform_fees vd);
     tax_estimate := tax_estimate s;
     net_profit := net_profit s;
     profit_per_hour := profit_per_hour s;
     profit_per_km := profit_per_km s;
     profit_per_order := profit_per_order s |}.

(** [WorkSessionSerializer.create] for the request of user [u]. *)
Definition create (db : DB) (u : User) (vd : validated_data) : result (DB * WorkSession) :=
  let validated_data := enforce_fuel_cost db u vd in
  instance <- new_instance u validated_data ;;
  save db instance.

(** [WorkSessionSerializer.update] for the request of user [u]. *)
Definition update (db : DB) (u : User) (instance : WorkSession) (vd : validated_data)
  : result (DB * WorkSession) :=
  let validated_data := enforce_fuel_cost db u vd in
  save db (set_attrs validated_data instance).

End Serializers.

(* ===================================================================== *)
(** * Views ([api/views.py]) *)
(* ===================================================================== *)

Module Views.

Import Models.

(** ** [WorkSessionViewSet.perform_create] *)

Definition set_credits (c : Z) (p : UserProfile) : UserProfile :=
  {| country := country p;
     transport_type := transport_type p;
     courier_type := courier_type p;
     fee_percent := fee_percent p;
     credits := c;
     rent_frequency := rent_frequency p;
     rent_amount := rent_amount p;
     is_pro := is_pro p |}.

(** [if not hasattr(user, 'profile'): UserProfile.objects.create(user=user)]:
    the row is inserted with the defaults, and the user keeps the created
    instance as its profile. *)
Definition ensure_profile (db : DB) (u : User) : DB * User :=
  match get_profile db u with
  | Ok _ => (db, u)
  | Raise _ => (save_profile db (uid u) default_profile, mkUser (uid u) true)
  end.

(** The credit gate: the check on [user.profile], and inside
    [transaction.atomic] the second check on the locked row and the
    decrement. *)
Definition deduct_credits (db : DB) (u : User) : result DB :=
  profile <- get_profile db u ;;
  if negb (is_pro (profile_row profile)) then
    if credits (profile_row profile) <? 10 then Raise CreditsExhausted
    else
      locked <- or_raise RelatedObjectDoesNotExist (profiles db !! uid u) ;;
      if credits locked <? 10 then Raise CreditsExhausted
      else Ok (save_profile db (uid u) (set_credits (credits locked - 10) locked))
  else Ok db.

(** The database after the request, and the created instance or the
    exception that ended the request. *)
Definition perform_create (db : DB) (u : User) (vd : Serializers.validated_data)
  : DB * result WorkSession :=
  let '(db1, user) := ensure_profile db u in
  match deduct_credits db1 user with
  | Raise e => (db1, Raise e)
  | Ok db2 =>
      match Serializers.create db2 user vd with
      | Ok (db3, instance) => (db3, Ok instance)
      | Raise e => (db2, Raise e)
      end
  end.

(** ** [DashboardMetricsView.get] *)

(** What the database answers for [Sum('column')] and for the difference
    of two such sums depends on the engine that [DATABASE_ENGINE]
    selects.  PostgreSQL adds NUMERIC values exactly.  SQLite, the
    default, adds them as binary64 numbers, in an order and by an
    algorithm that depend on the query plan and on the version of the
    library, and Django reads the result back with 15 significant
    digits.  The dashboard is therefore defined over the aggregates of
    the engine, of which this much is common: the sum over no value is
    NULL. *)
Record aggregates : Type := mkAggregates {
  (* [SUM] over the non-null values of a column *)
  SUM : list Decimal -> option Decimal;
  (* [SUM(a) - SUM(b)], evaluated by the database *)
  SUM_minus_SUM : list Decimal -> list Decimal -> option Decimal;
  SUM_no_value : SUM [] = None
}.

(** Arithmetic on NUMERIC values: exact. *)
Definition add_exact (a b : Decimal) : Decimal :=
  let e := Z.min (expo a) (expo b) in
  mkDecimal (coeff a * 10 ^ (expo a - e) + coeff b * 10 ^ (expo b - e)) e.

Definition sub_exact (a b : Decimal) : Decimal := add_exact a (neg b).

(** [SUM] over NUMERIC values: NULL for no value. *)
Definition Sum (column : list Decimal) : option Decimal :=
  match column with
  | [] => None
  | x :: rest => Some (foldl add_exact x rest)
  end.

(** The difference of two sums of NUMERIC values: NULL when one is. *)
Definition Sum_minus_Sum (a b : list Decimal) : option Decimal :=
  match Sum a, Sum b with
  | Some x, Some y => Some (sub_exact x y)
  | _, _ => None
  end.

(** The aggregates of PostgreSQL. *)
Definition numeric : aggregates :=
  {| SUM := Sum; SUM_minus_SUM := Sum_minus_Sum; SUM_no_value := eq_refl |}.

(** The column [vehicle_rent] of a row. *)
Definition vehicle_rent_column (s : WorkSession) : Decimal :=
  match vehicle_rent s with
  | Dec d => d
  | Float f => Flt.to_decimal f
  end.

(** [x or Decimal(0)]: [None] and a zero are both false. *)
Definition or_Decimal_0 (x : option Decimal) : Decimal :=
  match x with
  | Some d => if truthy d then d else d_0
  | None => d_0
  end.

(** [WorkSession.objects.filter(user=user)] *)
Definition filter_user (db : DB) (u : User) : list WorkSession :=
  filter (fun s => uid (user s) = uid u) (map_to_list (sessions db)).*2.

(** The period filter.  Dates are compared through their ordinals; the
    end of the week is a date, so a week that runs past [date.max] raises
    [OverflowError]. *)
Definition filter_period (period : string) (today : Cal.date) (queryset : list WorkSession)
  : result (list WorkSession) :=
  if (period =? "today")%string then
    Ok (filter (fun s => date s = today) queryset)
  else if (period =? "week")%string then
    let start_date := toordinal today - weekday today in
    let end_date := start_date + 6 in
    if (1 <=? start_date) && (end_date <=? MAXORDINAL) then
      Ok (filter (fun s => start_date <= toordinal (date s) <= end_date) queryset)
    else Raise OverflowError
  else if (period =? "month")%string then
    Ok (filter (fun s => year (date s) = year today /\ month (date s) = month today) queryset)
  else Ok queryset.

(** One entry of [chart_data]. *)
Record chart_item : Set := mkChartItem {
  full_date : Cal.date;
  profit : option Decimal;
  earnings : option Decimal;
  costs : option Decimal
}.

Definition date_le (a b : Cal.date) : Prop := toordinal a <= toordinal b.

#[global] Instance date_le_dec (a b : Cal.date) : Decision (date_le a b).
Proof. unfold date_le. apply _. Defined.

(** [queryset.values('date').annotate(...).order_by('date')] *)
Definition chart_data_qs (backend : aggregates) (queryset : list WorkSession)
  : list chart_item :=
  (fun d =>
     let group := filter (fun s => date s = d) queryset in
     {| full_date := d;
        profit := SUM backend (net_profit <$> group);
        earnings := SUM backend (Models.total_earnings <$> group);
        costs := SUM_minus_SUM backend (Models.total_earnings <$> group)
                   (net_profit <$> group) |})
  <$> merge_sort date_le (remove_dups (date <$> queryset)).

(** The order of [order_by('-date', '-start_time')]: [recent_first a b]
    when [a] may come before [b].  A NULL time sorts as the earliest. *)
Definition start_key (s : WorkSession) : Z :=
  match start_time s with
  | Some t => time_us t
  | None => -1
  end.

Definition recent_first (a b : WorkSession) : Prop :=
  toordinal (date b) < toordinal (date a) \/
  (toordinal (date a) = toordinal (date b) /\ start_key b <= start_key a).

#[global] Instance recent_first_dec (a b : WorkSession) : Decision (recent_first a b).
Proof. unfold recent_first. apply _. Defined.

(** The [data] of the response. *)
Record dashboard_data : Set := mkDashboardData {
  total_net_profit : Decimal;
  total_earnings : Decimal;
  total_costs : Decimal;
  avg_profit_per_hour : Decimal;
  total_duration_hours : Decimal;
  total_distance_km : Decimal;
  session_count : nat;
  chart_data : list chart_item;
  recent_sessions : list WorkSession
}.

(** [get] on the engine [backend]: [period] and [local_date] are the
    query parameters ([local_date] is [None] when absent or not a date),
    [server_today] is [date.today()]. *)
Definition get (backend : aggregates) (db : DB) (u : User) (period : option string)
    (local_date : option Cal.date) (server_today : Cal.date) : result dashboard_data :=
  let period := default "today"%string period in
  let today := default server_today local_date in
  queryset <- filter_period period today (filter_user db u) ;;
  let m_total_net_profit := SUM backend (net_profit <$> queryset) in
  let m_total_earnings := SUM backend (Models.total_earnings <$> queryset) in
  let m_total_fuel := SUM backend (fuel_cost <$> queryset) in
  let m_total_rent := SUM backend (vehicle_rent_column <$> queryset) in
  let m_total_depreciation := SUM backend (depreciation_cost <$> queryset) in
  let m_total_other := SUM backend (other_expenses <$> queryset) in
  let m_total_fees := SUM backend (platform_fees <$> queryset) in
  let m_total_duration := SUM backend (omap duration_hours queryset) in
  let m_total_dist := SUM backend (Models.total_distance_km <$> queryset) in
  let m_count := length queryset in
  let total_costs :=
    add (add (add (add (or_Decimal_0 m_total_fuel) (or_Decimal_0 m_total_rent))
                  (or_Decimal_0 m_total_depreciation))
             (or_Decimal_0 m_total_other))
        (or_Decimal_0 m_total_fees) in
  let chart_data := chart_data_qs backend queryset in
  let total_profit := or_Decimal_0 m_total_net_profit in
  let total_duration := or_Decimal_0 m_total_duration in
  let total_dist := or_Decimal_0 m_total_dist in
  let recent_qs := take 5 (merge_sort recent_first (filter_user db u)) in
  avg <- (if is_pos total_duration
          then or_raise DivisionByZero (div total_profit total_duration)
          else Ok d_0) ;;
  Ok {| total_net_profit := total_profit;
        total_earnings := or_Decimal_0 m_total_earnings;
        total_costs := total_costs;
        avg_profit_per_hour := avg;
        total_duration_hours := total_duration;
        total_distance_km := total_dist;
        session_count := m_count;
        chart_data := chart_data;
        recent_sessions := recent_qs |}.

End Views.

(* ===================================================================== *)
(** * Vocabulary of the properties *)
(* ===================================================================== *)

Import Models.

(** The rent the instance carries after the first [try]. *)
Definition rent_after (db : DB) (s : WorkSession) : number :=
  try_except (rent_block db s) (vehicle_rent s).

(** [save] raised [e] in the write: everything had been derived, and the
    database refused the row. *)
Definition raised_by_write (db : DB) (s : WorkSession) (e : exn) : Prop :=
  exists d, derive db s = Ok d /\ persist db d = Raise e.

(** The database takes the row of the instance: every amount fits its
    column, the number of orders is an integer of 64 bits, and the
    required fields are set. *)
Definition row_accepted (s : WorkSession) : Prop :=
  decimals_fit s = true /\
  from_option int64 true (total_orders s) = true /\
  required_set s = true.

(** The engine computes its sums as PostgreSQL does, exactly. *)
Definition numeric_engine (backend : Views.aggregates) : Prop :=
  (forall column, Views.SUM backend column = Views.Sum column) /\
  (forall a b, Views.SUM_minus_SUM backend a b = Views.Sum_minus_Sum a b).

(** The profile of the user is the row [p] of the database (no freshly
    created instance is cached on the user). *)
Definition has_profile (db : DB) (u : User) (p : UserProfile) : Prop :=
  profile_created u = false /\ profiles db !! uid u = Some p.

(** The user has no profile. *)
Definition without_profile (db : DB) (u : User) : Prop :=
  profile_created u = false /\ profiles db !! uid u = None.

(** [v] is [net / divisor] when the divisor is present and positive, and
    [Decimal('0.00')] when it is zero, negative or missing. *)
Definition guarded_quotient (net : Decimal) (divisor : option Decimal) (v : Decimal) : Prop :=
  match divisor with
  | Some d => if is_pos d then div net d = Some v else v = d_0_00
  | None => v = d_0_00
  end.



(** The tax rate of a user: the percentage of the profile's country
    divided by 100, and [Decimal('0.00')] when the profile has no country
    (or the user no profile). *)
Definition tax_rate_of (db : DB) (u : User) : Decimal :=
  match get_profile db u with
  | Ok profile =>
      match country (profile_row profile) with
      | Some c => default d_0_00 (div (tax_rate_percentage c) d_100)
      | None => d_0_00
      end
  | Raise _ => d_0_00
  end.

(** ** The session of [ProfitCalculationTests.test_profit_calculation] *)

Definition test_profile : UserProfile :=
  {| country := Some (mkCountry (mkDecimal 1000 (-2)));    (* 10.00 % *)
     transport_type := "car";
     courier_type := "FLEET_COMPANY";
     fee_percent := d_0_00;
     credits := 300;
     rent_frequency := "daily";
     rent_amount := d_0_00;
     is_pro := false |}.

Definition test_db : DB := mkDB {[ 1%nat := test_profile ]} ∅.

Definition test_session : WorkSession :=
  {| pk := None;
     user := mkUser 1 false;
     date := mkDate 2026 11 3;
     start_time := Some (mkTime 18 0 0 0);
     end_time := Some (mkTime 20 0 0 0);
     duration_hours := None;
     total_orders := Some 0;
     total_distance_km := mkDecimal 200 (-1);
     gross_earnings := mkDecimal 10000 (-2);
     tips := mkDecimal 1000 (-2);
     fuel_cost := mkDecimal 500 (-2);
     vehicle_rent := float_0_0;
     depreciation_cost := mkDecimal 200 (-2);
     other_expenses := mkDecimal 0 (-1);
     application_fee := mkDecimal 0 (-1);
     total_earnings := d_0;
     platform_fees := mkDecimal 0 (-1);
     tax_estimate := d_0;
     net_profit := d_0;
     profit_per_hour := d_0;
     profit_per_km := d_0;
     profit_per_order := d_0 |}.

(** The fields [save] copies from the instance it is given. *)
Definition same_inputs (s s' : WorkSession) : Prop :=
  user s' = user s /\ date s' = date s /\
  start_time s' = start_time s /\ end_time s' = end_time s /\
  total_orders s' = total_orders s /\
  total_distance_km s' = total_distance_km s /\
  gross_earnings s' = gross_earnings s /\ tips s' = tips s /\
  fuel_cost s' = fuel_cost s /\ depreciation_cost s' = depreciation_cost s /\
  other_expenses s' = other_expenses s /\ platform_fees s' = platform_fees s.

(** ** Rent when the profile cannot be resolved *)

(** The reading under test: whenever the owning profile cannot be
    resolved, a save that completes leaves a rent of zero on the saved
    session. *)
Definition rent_defaults_to_zero_without_profile : Prop :=
  forall (db db' : DB) (s s' : WorkSession),
    without_profile db (user s) ->
    save db s = Ok (db', s') ->
    exists r, vehicle_rent s' = Dec r /\ coeff r = 0.

(** A user without profile, and a session that arrives with a rent of
    5.00. *)
Definition db_without_profile : DB := mkDB ∅ ∅.

Definition session_with_rent : WorkSession :=
  {| pk := None;
     user := mkUser 7 false;
     date := mkDate 2026 11 3;
     start_time := Some (mkTime 9 0 0 0);
     end_time := Some (mkTime 17 0 0 0);
     duration_hours := None;
     total_orders := Some 12;
     total_distance_km := mkDecimal 4000 (-2);
     gross_earnings := mkDecimal 12000 (-2);
     tips := mkDecimal 0 (-2);
     fuel_cost := mkDecimal 800 (-2);
     vehicle_rent := Dec (mkDecimal 500 (-2));
     depreciation_cost := mkDecimal 0 (-2);
     other_expenses := mkDecimal 0 (-2);
     application_fee := mkDecimal 0 (-1);
     total_earnings := d_0;
     platform_fees := mkDecimal 0 (-2);
     tax_estimate := d_0;
     net_profit := d_0;
     profit_per_hour := d_0;
     profit_per_km := d_0;
     profit_per_order := d_0 |}.

(** The same session with other gross earnings and tips. *)
Definition set_gross_and_tips (g t : Decimal) (s : WorkSession) : WorkSession :=
  {| pk := pk s;
     user := user s;
     date := date s;
     start_time := start_time s;
     end_time := end_time s;
     duration_hours := duration_hours s;
     total_orders := total_orders s;
     total_distance_km := total_distance_km s;
     gross_earnings := g;
     tips := t;
     fuel_cost := fuel_cost s;
     vehicle_rent := vehicle_rent s;
     depreciation_cost := depreciation_cost s;
     other_expenses := other_expenses s;
     application_fee := application_fee s;
     total_earnings := total_earnings s;
     platform_fees := platform_fees s;
     tax_estimate := tax_estimate s;
     net_profit := net_profit s;
     profit_per_hour := profit_per_hour s;
     profit_per_km := profit_per_km s;
     profit_per_order := profit_per_order s |}.

(** A date the calendar accepts for [monthrange]. *)
Definition valid_month (d : Cal.date) : Prop := 1 <= month d <= 12.

(** The number of calendar days of month [m] of year [y], counted on the
    calendar itself: from the first of the month to the first of the
    next. *)
Definition first_of_next_month (y m : Z) : Cal.date :=
  if m =? 12 then mkDate (y + 1) 1 1 else mkDate y (m + 1) 1.

Definition month_length (y m : Z) : Z :=
  toordinal (first_of_next_month y m) - toordinal (mkDate y m 1).

(** ** Fuel cost through the serializer *)

(** A cyclist who submits a fuel cost of 10.00
    ([FuelCostEnforcementTests]). *)
Definition bicycle_profile : UserProfile :=
  {| country := Some (mkCountry (mkDecimal 1000 (-2)));
     transport_type := "bicycle";
     courier_type := "FLEET_COMPANY";
     fee_percent := d_0_00;
     credits := 300;
     rent_frequency := "daily";
     rent_amount := d_0_00;
     is_pro := false |}.

Definition bicycle_db : DB := mkDB {[ 1%nat := bicycle_profile ]} ∅.

Definition bicycle_request : Serializers.validated_data :=
  {| Serializers.vd_date := Some (mkDate 2026 11 3);
     Serializers.vd_start_time := Some (mkTime 18 0 0 0);
     Serializers.vd_end_time := Some (mkTime 20 0 0 0);
     Serializers.vd_total_orders := None;
     Serializers.vd_total_distance_km := Some (mkDecimal 1000 (-2));
     Serializers.vd_gross_earnings := Some (mkDecimal 5000 (-2));
     Serializers.vd_tips := Some (mkDecimal 500 (-2));
     Serializers.vd_fuel_cost := Some (mkDecimal 1000 (-2));
     Serializers.vd_vehicle_rent := None;
     Serializers.vd_depreciation_cost := None;
     Serializers.vd_other_expenses := None;
     Serializers.vd_platform_fees := None |}.

(** ** The credit gate *)

(** The outcome of the request once the credit gate has let it through
    with the database [db2]. *)
Definition create_after_gate (db2 : DB) (u : User) (vd : Serializers.validated_data)
  : DB * result WorkSession :=
  match Serializers.create db2 u vd with
  | Ok (db3, instance) => (db3, Ok instance)
  | Raise e => (db2, Raise e)
  end.

(** ** Rent allocation *)

(** Another session of the same user on the same date exists in the
    table; the row of the session itself does not count. *)
Definition other_session_exists (db : DB) (s : WorkSession) : Prop :=
  exists k row,
    sessions db !! k = Some row /\
    uid (user row) = uid (user s) /\ date row = date s /\ pk s <> Some k.

(** A row carries a non-zero rent. *)
Definition carries_rent (row : WorkSession) : Prop :=
  coeff (Views.vehicle_rent_column row) <> 0.

#[global] Instance carries_rent_dec (row : WorkSession) : Decision (carries_rent row).
Proof. unfold carries_rent. apply _. Defined.

(** At most one row per user and date carries a non-zero rent. *)
Definition at_most_one_rent (db : DB) : Prop :=
  forall k1 k2 r1 r2,
    sessions db !! k1 = Some r1 -> sessions db !! k2 = Some r2 ->
    uid (user r1) = uid (user r2) -> date r1 = date r2 ->
    carries_rent r1 -> carries_rent r2 -> k1 = k2.

(** Some row of user [u] on date [d] carries a non-zero rent. *)
Definition some_rent (db : DB) (u : nat) (d : Cal.date) : Prop :=
  exists k row,
    sessions db !! k = Some row /\ uid (user row) = u /\ date row = d /\ carries_rent row.

(** The databases the program reaches from an empty session table:
    sessions are saved (created or updated) for users who have a profile,
    sessions are deleted, profiles are edited. *)
Inductive reachable : DB -> Prop :=
  | reach_init (ps : gmap nat UserProfile) : reachable (mkDB ps ∅)
  | reach_save (db db' : DB) (s s' : WorkSession) (p : UserProfile) :
      reachable db ->
      has_profile db (user s) p ->
      valid_month (date s) ->
      save db s = Ok (db', s') ->
      reachable db'
  | reach_delete (db : DB) (k : positive) :
      reachable db -> reachable (delete db k)
  | reach_profile (db : DB) (u : nat) (p : UserProfile) :
      reachable db -> reachable (save_profile db u p).

(** The reading under test: in every reachable database, a user's
    sessions of one date include exactly one with a non-zero rent. *)
Definition rent_allocated_exactly_once : Prop :=
  forall db, reachable db ->
    forall k row, sessions db !! k = Some row ->
      some_rent db (uid (user row)) (date row) /\ at_most_one_rent db.

(** A courier who rents at 30.00 a day logs two shifts on one date and
    then edits the first. *)
Definition renter_profile : UserProfile :=
  {| country := None;
     transport_type := "car";
     courier_type := "SOLOPRENEUR";
     fee_percent := d_0_00;
     credits := 300;
     rent_frequency := "daily";
     rent_amount := mkDecimal 3000 (-2);
     is_pro := true |}.

Definition renter_db : DB := mkDB {[ 1%nat := renter_profile ]} ∅.

Definition morning_shift : WorkSession :=
  {| pk := None;
     user := mkUser 1 false;
     date := mkDate 2026 11 3;
     start_time := Some (mkTime 8 0 0 0);
     end_time := Some (mkTime 12 0 0 0);
     duration_hours := None;
     total_orders := Some 9;
     total_distance_km := mkDecimal 3000 (-2);
     gross_earnings := mkDecimal 8000 (-2);
     tips := mkDecimal 0 (-2);
     fuel_cost := mkDecimal 600 (-2);
     vehicle_rent := float_0_0;
     depreciation_cost := mkDecimal 0 (-2);
     other_expenses := mkDecimal 0 (-2);
     application_fee := mkDecimal 0 (-1);
     total_earnings := d_0;
     platform_fees := mkDecimal 0 (-2);
     tax_estimate := d_0;
     net_profit := d_0;
     profit_per_hour := d_0;
     profit_per_km := d_0;
     profit_per_order := d_0 |}.

Definition evening_shift : WorkSession :=
  {| pk := None;
     user := mkUser 1 false;
     date := mkDate 2026 11 3;
     start_time := Some (mkTime 18 0 0 0);
     end_time := Some (mkTime 22 0 0 0);
     duration_hours := None;
     total_orders := Some 11;
     total_distance_km := mkDecimal 3500 (-2);
     gross_earnings := mkDecimal 9000 (-2);
     tips := mkDecimal 0 (-2);
     fuel_cost := mkDecimal 700 (-2);
     vehicle_rent := float_0_0;
     depreciation_cost := mkDecimal 0 (-2);
     other_expenses := mkDecimal 0 (-2);
     application_fee := mkDecimal 0 (-1);
     total_earnings := d_0;
     platform_fees := mkDecimal 0 (-2);
     tax_estimate := d_0;
     net_profit := d_0;
     profit_per_hour := d_0;
     profit_per_km := d_0;
     profit_per_order := d_0 |}.

(** [save], keeping the database when it raises. *)
Definition run_save (db : DB) (s : WorkSession) : DB * WorkSession :=
  match save db s with
  | Ok r => r
  | Raise _ => (db, s)
  end.

(** The first shift is saved, then the second, then the first again (an
    update: it has its primary key by now). *)
Definition renter_db_1 : DB := fst (run_save renter_db morning_shift).
Definition morning_saved : WorkSession := snd (run_save renter_db morning_shift).
Definition renter_db_2 : DB := fst (run_save renter_db_1 evening_shift).
Definition renter_db_3 : DB := fst (run_save renter_db_2 morning_saved).

(** A third shift, on the next morning, and the table of the three. *)
Definition next_morning_shift : WorkSession :=
  {| pk := None;
     user := mkUser 1 false;
     date := mkDate 2026 11 4;
     start_time := Some (mkTime 9 0 0 0);
     end_time := Some (mkTime 13 0 0 0);
     duration_hours := None;
     total_orders := Some 7;
     total_distance_km := mkDecimal 2500 (-2);
     gross_earnings := mkDecimal 7000 (-2);
     tips := mkDecimal 0 (-2);
     fuel_cost := mkDecimal 500 (-2);
     vehicle_rent := float_0_0;
     depreciation_cost := mkDecimal 0 (-2);
     other_expenses := mkDecimal 0 (-2);
     application_fee := mkDecimal 0 (-1);
     total_earnings := d_0;
     platform_fees := mkDecimal 0 (-2);
     tax_estimate := d_0;
     net_profit := d_0;
     profit_per_hour := d_0;
     profit_per_km := d_0;
     profit_per_order := d_0 |}.

Definition three_shifts_db : DB := fst (run_save renter_db_2 next_morning_shift).

(** ** Report-level costs *)

(** A value as a [DecimalField(max_digits=10, decimal_places=2)] column
    holds it. *)
Definition numeric_10_2 (d : Decimal) : Prop :=
  expo d = -2 /\ Z.abs (coeff d) < 10 ^ 10.








(** ** Duration *)

(** The length of the shift in hours, as a rational number: end minus
    start, the end taken on the next day when it is earlier than the
    start. *)
Definition exact_hours (st en : time) : Q :=
  (if time_us en <? time_us st
   then time_us en + day_us - time_us st
   else time_us en - time_us st) # 3600000000.

(** The shift of [test_cross_day_duration]: 23:00 to 01:00. *)
Definition night_shift : WorkSession :=
  {| pk := None;
     user := mkUser 1 false;
     date := mkDate 2026 11 3;
     start_time := Some (mkTime 23 0 0 0);
     end_time := Some (mkTime 1 0 0 0);
     duration_hours := None;
     total_orders := Some 0;
     total_distance_km := d_0;
     gross_earnings := mkDecimal 0 (-1);
     tips := mkDecimal 0 (-1);
     fuel_cost := mkDecimal 0 (-1);
     vehicle_rent := float_0_0;
     depreciation_cost := mkDecimal 0 (-1);
     other_expenses := mkDecimal 0 (-1);
     application_fee := mkDecimal 0 (-1);
     total_earnings := d_0;
     platform_fees := mkDecimal 0 (-1);
     tax_estimate := d_0;
     net_profit := d_0;
     profit_per_hour := d_0;
     profit_per_km := d_0;
     profit_per_order := d_0 |}.

(** ** A fleet courier *)

(** A fleet courier paying a 5 % application fee and a weekly rent of
    70.00, and one shift. *)
Definition fleet_profile : UserProfile :=
  {| country := Some (mkCountry (mkDecimal 1000 (-2)));
     transport_type := "car";
     courier_type := "FLEET_COMPANY";
     fee_percent := mkDecimal 500 (-2);
     credits := 300;
     rent_frequency := "weekly";
     rent_amount := mkDecimal 7000 (-2);
     is_pro := false |}.

Definition fleet_db : DB := mkDB {[ 1%nat := fleet_profile ]} ∅.

Definition fleet_shift : WorkSession :=
  {| pk := None;
     user := mkUser 1 false;
     date := mkDate 2026 11 3;
     start_time := Some (mkTime 10 0 0 0);
     end_time := Some (mkTime 12 0 0 0);
     duration_hours := None;
     total_orders := Some 5;
     total_distance_km := mkDecimal 100 (-1);
     gross_earnings := mkDecimal 5000 (-2);
     tips := mkDecimal 500 (-2);
     fuel_cost := mkDecimal 800 (-2);
     vehicle_rent := float_0_0;
     depreciation_cost := mkDecimal 0 (-1);
     other_expenses := mkDecimal 0 (-1);
     application_fee := mkDecimal 0 (-1);
     total_earnings := d_0;
     platform_fees := mkDecimal 0 (-1);
     tax_estimate := d_0;
     net_profit := d_0;
     profit_per_hour := d_0;
     profit_per_km := d_0;
     profit_per_order := d_0 |}.

Definition fleet_db_1 : DB := fst (run_save fleet_db fleet_shift).

(* ===================================================================== *)
(** * Requests in sequence *)
(* ===================================================================== *)

(** The requests [POST /api/sessions/] of the user with id [u], one
    after the other.  Each request arrives with the user as the
    authentication loads it: no profile instance is cached on it. *)
Fixpoint post_sessions (db : DB) (u : nat) (requests : list Serializers.validated_data)
  : DB :=
  match requests with
  | [] => db
  | vd :: rest => post_sessions (fst (Views.perform_create db (mkUser u false) vd)) u rest
  end.

(** The number of requests, out of [requested], that the credit gate
    lets through for a profile: all of them for a pro user, and
    otherwise as many as the balance holds tens of credits. *)
Definition requests_let_through (p : UserProfile) (requested : nat) : nat :=
  if is_pro p then requested
  else Nat.min requested (Z.to_nat (credits p / 10)).

(** A request whose amounts pass the validation of the serializer (ten
    digits, two decimal places) and whose total earnings, their sum, do
    not fit the column. *)
Definition overflowing_request : Serializers.validated_data :=
  {| Serializers.vd_date := Some (mkDate 2026 11 3);
     Serializers.vd_start_time := Some (mkTime 18 0 0 0);
     Serializers.vd_end_time := Some (mkTime 20 0 0 0);
     Serializers.vd_total_orders := None;
     Serializers.vd_total_distance_km := Some (mkDecimal 1000 (-2));
     Serializers.vd_gross_earnings := Some (mkDecimal 9999999999 (-2));
     Serializers.vd_tips := Some (mkDecimal 9999999999 (-2));
     Serializers.vd_fuel_cost := None;
     Serializers.vd_vehicle_rent := None;
     Serializers.vd_depreciation_cost := None;
     Serializers.vd_other_expenses := None;
     Serializers.vd_platform_fees := None |}.

(** User [u] has a session on date [d] in the table. *)
Definition has_session_on (db : DB) (u : nat) (d : Cal.date) : Prop :=
  exists k row, sessions db !! k = Some row /\ uid (user row) = u /\ date row = d.

(* ===================================================================== *)
(** * Vocabulary of the report *)
(* ===================================================================== *)

(** The ordinal of a Monday: [weekday] is 0 there. *)
Definition monday_ordinal (n : Z) : Prop := (n + 6) mod 7 = 0.

(** The sum of a list of rational numbers. *)
Definition Qsum (l : list Q) : Q := foldr Qplus 0%Q l.

(** The value of a summed column that may be NULL, NULL counting as
    zero. *)
Definition value_or_0 (x : option Decimal) : Q :=
  match x with
  | Some d => to_Q d
  | None => 0%Q
  end.

(** The sessions of one date among those selected. *)
Definition on_date (d : Cal.date) (queryset : list WorkSession) : list WorkSession :=
  filter (fun s => date s = d) queryset.

(** The durations that are not NULL, as rational numbers. *)
Definition duration_values (queryset : list WorkSession) : list Q :=
  to_Q <$> omap duration_hours queryset.

(* ===================================================================== *)
(** * Profile views ([api/views.py]) *)
(* ===================================================================== *)

Module Profiles.

(** [UserProfile.objects.get_or_create(user=request.user)]: the row of
    the user, inserted with the defaults when there is none; the flag is
    [created]. *)
Definition get_or_create (db : DB) (u : nat) : DB * UserProfile * bool :=
  match profiles db !! u with
  | Some p => (db, p, false)
  | None => (save_profile db u default_profile, default_profile, true)
  end.

(** The answer of [BillingConfigView.get] ([subscription_ends_at], which
    is always [None], is left out). *)
Record billing_config : Set := mkBillingConfig {
  billing_enabled : bool;
  plan : string;
  plan_display : string;
  credits_remaining : Z;
  credits_total : Z;
  config_is_pro : bool;
  subscription_status : string
}.

(** [BillingConfigView.get]; [BILLING_ENABLED] is the setting of that
    name. *)
Definition billing_config_get (BILLING_ENABLED : bool) (db : DB) (u : nat)
  : DB * billing_config :=
  let '(db', profile, _) := get_or_create db u in
  (db',
   {| billing_enabled := BILLING_ENABLED;
      plan := if is_pro profile then "pro" else "starter_beta";
      plan_display := if is_pro profile then "Pro" else "Starter (Free Beta)";
      credits_remaining := credits profile;
      credits_total := 300;
      config_is_pro := is_pro profile;
      subscription_status := if is_pro profile then "active" else "none" |}).

(** The [validated_data] of a [UserProfileSerializer] with
    [partial=True], for the fields of the model above: a value for each
    field the request carried.  All of them are writable
    ([read_only_fields] names only the subscription fields). *)
Record profile_data : Set := mkProfileData {
  pd_country : option (option Country);
  pd_transport_type : option string;
  pd_courier_type : option string;
  pd_fee_percent : option Decimal;
  pd_credits : option Z;
  pd_rent_frequency : option string;
  pd_rent_amount : option Decimal;
  pd_is_pro : option bool
}.

(** [ModelSerializer.update]: [setattr] for every key present. *)
Definition set_profile_attrs (pd : profile_data) (p : UserProfile) : UserProfile :=
  {| country := default (country p) (pd_country pd);
     transport_type := default (transport_type p) (pd_transport_type pd);
     courier_type := default (courier_type p) (pd_courier_type pd);
     fee_percent := default (fee_percent p) (pd_fee_percent pd);
     credits := default (credits p) (pd_credits pd);
     rent_frequency := default (rent_frequency p) (pd_rent_frequency pd);
     rent_amount := default (rent_amount p) (pd_rent_amount pd);
     is_pro := default (is_pro p) (pd_is_pro pd) |}.

(** [UserProfileView.put]: the profile is fetched or created, and saved
    with the submitted fields when the serializer accepts the data
    ([Some]); rejected data ([None]) is answered with 400 and nothing is
    saved. *)
Definition put (db : DB) (u : nat) (data : option profile_data) : DB :=
  let '(db', profile, _) := get_or_create db u in
  match data with
  | Some pd => save_profile db' u (set_profile_attrs pd profile)
  | None => db'
  end.

End Profiles.

(** The profile a user has or is given on first use. *)
Definition profile_or_default (db : DB) (u : nat) : UserProfile :=
  default default_profile (profiles db !! u).

(* ===================================================================== *)
(** * Management command ([api/management/commands/fix_beta_users.py]) *)
(* ===================================================================== *)

Module Commands.

(** A profile row as the command reads it: the columns of [UserProfile]
    above and the subscription status [ls_status]. *)
Record billing_row : Set := mkBillingRow {
  row_profile : UserProfile;
  ls_status : string
}.

Definition set_is_pro (b : bool) (p : UserProfile) : UserProfile :=
  {| country := country p;
     transport_type := transport_type p;
     courier_type := courier_type p;
     fee_percent := fee_percent p;
     credits := credits p;
     rent_frequency := rent_frequency p;
     rent_amount := rent_amount p;
     is_pro := b |}.

(** [profile.is_pro and profile.ls_status != 'active'] *)
Definition needs_fix (r : billing_row) : bool :=
  is_pro (row_profile r) && negb (ls_status r =? "active")%string.

(** [profile.is_pro = False] *)
Definition fix_row (r : billing_row) : billing_row :=
  {| row_profile := set_is_pro false (row_profile r); ls_status := ls_status r |}.

(** The body of the loop for one profile: the table and [fixed_count]
    before and after. *)
Definition step (state : gmap nat billing_row * nat) (item : nat * billing_row)
  : gmap nat billing_row * nat :=
  let '(table, fixed_count) := state in
  let '(u, profile) := item in
  if needs_fix profile
  then (<[u := fix_row profile]> table, S fixed_count)
  else (table, fixed_count).

(** [Command.handle]: the loop over [UserProfile.objects.all()]; the
    result is the table afterwards and [fixed_count]. *)
Definition handle (table : gmap nat billing_row) : gmap nat billing_row * nat :=
  foldl step (table, 0%nat) (map_to_list table).

End Commands.

(** What the command leaves of a row. *)
Definition after_fix (r : Commands.billing_row) : Commands.billing_row :=
  if Commands.needs_fix r then Commands.fix_row r else r.

(** The rows the command changes. *)
Definition rows_to_fix (l : list (nat * Commands.billing_row))
  : list (nat * Commands.billing_row) :=
  filter (fun item => Commands.needs_fix item.2 = true) l.

(* ===================================================================== *)
(** * A weekly rent *)
(* ===================================================================== *)

(** A courier who rents a vehicle for 100.00 a week. *)
Definition weekly_renter_profile : UserProfile :=
  {| country := None;
     transport_type := "car";
     courier_type := "SOLOPRENEUR";
     fee_percent := d_0_00;
     credits := 300;
     rent_frequency := "weekly";
     rent_amount := mkDecimal 10000 (-2);
     is_pro := true |}.

Definition weekly_renter_db : DB := mkDB {[ 1%nat := weekly_renter_profile ]} ∅.
(* ===================================================================== *)
(** * Properties *)
(* ===================================================================== *)

(** ** The number models on known values *)

Example ordinal_max : toordinal (mkDate 9999 12 31) = MAXORDINAL.
Proof. reflexivity. Qed.

Example weekday_2026_11_03 : weekday (mkDate 2026 11 3) = 1.
Proof. reflexivity. Qed.

Example february_2024 : days_in_month 2024 2 = Some 29.
Proof. reflexivity. Qed.

Example div_10_00_by_100 : div (mkDecimal 1000 (-2)) d_100 = Some (mkDecimal 10 (-2)).
Proof. reflexivity. Qed.

Example div_100_by_7 :
  div (mkDecimal 10000 (-2)) d_7_0 = Some (mkDecimal 1428571428571428571428571429 (-26)).
Proof. vm_compute. reflexivity. Qed.

Example div_100_by_31 :
  div (mkDecimal 10000 (-2)) (of_int 31) = Some (mkDecimal 3225806451612903225806451613 (-27)).
Proof. vm_compute. reflexivity. Qed.

Example mul_103_by_0_10 : mul (mkDecimal 10300 (-2)) (mkDecimal 10 (-2)) = mkDecimal 103000 (-4).
Proof. reflexivity. Qed.

Example add_tiny : add (mkDecimal 1 (-100)) (of_int 1) = mkDecimal (10 ^ 27) (-27).
Proof. vm_compute. reflexivity. Qed.

(** Values as Python's [decimal] and [float] compute them. *)
Example add_rounds_1 :
  add (mkDecimal (-33966087412039392689) (-38))
    (mkDecimal (95111114073544459364) (-11))
  = (mkDecimal (9511111407354445936399999997) (-19)).
Proof. vm_compute. reflexivity. Qed.

Example add_rounds_2 :
  add (mkDecimal (7318093156342972317881972532714430883689) (-11))
    (mkDecimal (-999) (-25))
  = (mkDecimal (7318093156342972317881972533) (1)).
Proof. vm_compute. reflexivity. Qed.

Example sub_rounds_3 :
  sub (mkDecimal (930648600000000000000000000000) (-39))
    (mkDecimal (-14058) (-24))
  = (mkDecimal (9306486000140580000000000000) (-37)).
Proof. vm_compute. reflexivity. Qed.

Example mul_rounds_4 :
  mul (mkDecimal (-1000000000000000000000000000) (1))
    (mkDecimal (-626) (-31))
  = (mkDecimal (6260000000000000000000000000) (-28)).
Proof. vm_compute. reflexivity. Qed.

Example mul_rounds_5 :
  mul (mkDecimal (-19514279937732785686628605813) (0))
    (mkDecimal (9999999999999999999999999999) (-34))
  = (mkDecimal (-1951427993773278568662860581) (-5)).
Proof. vm_compute. reflexivity. Qed.

Example div_rounds_6 :
  div (mkDecimal (-449734396931375382273738978984) (-10))
    (mkDecimal (3697257274575001896076503372810828725550) (3))
  = Some (mkDecimal (-1216400059644408040741144100) (-50)).
Proof. vm_compute. reflexivity. Qed.

Example div_rounds_7 :
  div (mkDecimal (-33966087412039392689) (-38))
    (mkDecimal (95111114073544459364) (-11))
  = Some (mkDecimal (-3571200668070735713140549748) (-55)).
Proof. vm_compute. reflexivity. Qed.

Example div_rounds_8 :
  div (mkDecimal (-9999999999999999999999999999999999999998) (-2))
    (mkDecimal (-999999999999999999999999999) (-37))
  = Some (mkDecimal (1000000000000000000000000001) (21)).
Proof. vm_compute. reflexivity. Qed.

Example quantize2_rounds_9 :
  quantize2 (mkDecimal (-4568845282) (5))
  = (mkDecimal (-45688452820000000) (-2)).
Proof. vm_compute. reflexivity. Qed.

Example quantize2_rounds_10 :
  quantize2 (mkDecimal (57753) (-6))
  = (mkDecimal (6) (-2)).
Proof. vm_compute. reflexivity. Qed.

Example duration_of_1 :
  Flt.to_decimal (Flt.div_int (Flt.rn_div 1200000000 1000000) 3600)
  = mkDecimal (333333333333333314829616256247390992939472198486328125) (-54).
Proof. vm_compute. reflexivity. Qed.

Example duration_of_2 :
  Flt.to_decimal (Flt.div_int (Flt.rn_div 18000000 1000000) 3600)
  = mkDecimal (5000000000000000104083408558608425664715468883514404296875) (-60).
Proof. vm_compute. reflexivity. Qed.

Example duration_of_3 :
  Flt.to_decimal (Flt.div_int (Flt.rn_div 74128361028 1000000) 3600)
  = mkDecimal (2059121139666666522316518239676952362060546875) (-44).
Proof. vm_compute. reflexivity. Qed.

(** ** Decimal division and the KPI guard *)

Lemma div_None (a b : Decimal) : coeff b = 0 -> div a b = None.
Proof. intros H. unfold div. now rewrite H. Qed.

Lemma div_Some (a b : Decimal) : coeff b <> 0 -> exists q, div a b = Some q.
Proof.
  intros H. unfold div.
  destruct (coeff b =? 0) eqn:Hb; [apply Z.eqb_eq in Hb; contradiction|].
  destruct (coeff a =? 0); [eauto|].
  cbv zeta.
  destruct (_ mod _ =? 0); [|eauto].
  destruct (strip_zeros _ _ _); eauto.
Qed.

Lemma is_pos_truthy (d : Decimal) : is_pos d = true -> truthy d = true.
Proof.
  unfold is_pos, truthy. intros H. apply Z.ltb_lt in H.
  apply negb_true_iff, Z.eqb_neq. lia.
Qed.

Lemma guard_is_pos (d : Decimal) : truthy d && is_pos d = is_pos d.
Proof.
  destruct (is_pos d) eqn:H; [|apply andb_false_r].
  now rewrite (is_pos_truthy d H).
Qed.

(** The guarded division never raises. *)
Lemma kpi_ok (net : Decimal) (divisor : option Decimal) : exists v, kpi net divisor = Ok v.
Proof.
  destruct divisor as [d|]; simpl; [|eauto].
  rewrite guard_is_pos. destruct (is_pos d) eqn:H; [|eauto].
  destruct (div_Some net d) as [q Hq].
  - unfold is_pos in H. apply Z.ltb_lt in H. lia.
  - rewrite Hq. simpl. eauto.
Qed.

Lemma kpi_Ok_value (net : Decimal) (divisor : option Decimal) (v : Decimal) :
  kpi net divisor = Ok v -> guarded_quotient net divisor v.
Proof.
  destruct divisor as [d|]; simpl; [|congruence].
  rewrite guard_is_pos. destruct (is_pos d); [|congruence].
  destruct (div net d); simpl; congruence.
Qed.

(** ** The shape of [derive] *)

(** [derive] raises exactly when the rent is still the float default
    after the first [try]; the exception is then the [TypeError] of
    line 196. *)
Lemma derive_Raise (db : DB) (s : WorkSession) (e : exn) :
  derive db s = Raise e ->
  e = TypeError /\ exists f, rent_after db s = Float f.
Proof.
  unfold derive. fold (rent_after db s).
  destruct (rent_after db s) as [r|f]; cbn [add_number bind].
  - repeat match goal with
           | |- context [bind (kpi ?n ?d) _] =>
               destruct (kpi_ok n d) as [? ->]; cbn [bind]
           end.
    discriminate.
  - intros [= <-]. eauto.
Qed.

(** Take [H : derive db s = Ok s'] apart: the rent after the first [try]
    is a decimal [r], the three KPIs are the values of [kpi], and [s'] is
    the record [derive] builds. *)
Ltac derive_inv H :=
  lazymatch type of H with
  | derive ?db ?s = Ok _ =>
      unfold derive in H; fold (rent_after db s) in H;
      let r := fresh "r" in
      let Hrent := fresh "Hrent" in
      destruct (rent_after db s) as [r|?] eqn:Hrent;
      cbn [add_number bind] in H; [|discriminate H];
      repeat match type of H with
             | context [bind (kpi ?n ?d) _] =>
                 let v := fresh "v" in
                 let Hk := fresh "Hk" in
                 destruct (kpi n d) as [v|?] eqn:Hk; cbn [bind] in H;
                 [apply kpi_Ok_value in Hk|discriminate H]
             end;
      injection H as <-
  end.

Lemma save_Ok_inv (db db' : DB) (s s' : WorkSession) :
  save db s = Ok (db', s') ->
  exists d, derive db s = Ok d /\ persist db d = Ok (db', s').
Proof.
  unfold save. destruct (derive db s) as [d|e]; cbn [bind]; [|discriminate].
  intros H. exists d. split; [reflexivity|exact H].
Qed.

(** [save] raises in the derivation, or in the write. *)
Lemma save_Raise (db : DB) (s : WorkSession) (e : exn) :
  save db s = Raise e ->
  (e = TypeError /\ exists f, rent_after db s = Float f) \/ raised_by_write db s e.
Proof.
  unfold save. destruct (derive db s) as [d|e'] eqn:Hd; cbn [bind].
  - intros H. right. exists d. split; [exact Hd|exact H].
  - intros [= ->]. left. now apply derive_Raise.
Qed.

(** The write succeeds exactly on the rows the database takes. *)
Lemma persist_accepted (db : DB) (d : WorkSession) :
  row_accepted d -> persist db d = Ok (insert_row db d).
Proof. intros (H1 & H2 & H3). unfold persist. now rewrite H1, H2, H3. Qed.

Lemma persist_Ok_inv (db : DB) (d : WorkSession) (r : DB * WorkSession) :
  persist db d = Ok r -> row_accepted d /\ r = insert_row db d.
Proof.
  unfold persist, row_accepted.
  destruct (decimals_fit d); cbn [negb]; [|discriminate].
  destruct (from_option int64 true (total_orders d)); cbn [negb]; [|discriminate].
  destruct (required_set d); cbn [negb]; [|discriminate].
  intros [= <-]. repeat split.
Qed.

Lemma persist_Raise (db : DB) (d : WorkSession) (e : exn) :
  persist db d = Raise e ->
  ~ row_accepted d /\
  (e = InvalidOperation \/ e = OverflowError \/ e = IntegrityError).
Proof.
  unfold persist, row_accepted.
  destruct (decimals_fit d); cbn [negb];
    [|intros [= <-]; split; [intros (H & _); discriminate|auto]].
  destruct (from_option int64 true (total_orders d)); cbn [negb];
    [|intros [= <-]; split; [intros (_ & H & _); discriminate|auto]].
  destruct (required_set d); cbn [negb]; [discriminate|].
  intros [= <-]. split; [intros (_ & _ & H); discriminate|auto].
Qed.

(** The instance after [save] is the derived instance with its primary
    key filled in. *)
Lemma persist_instance (db db' : DB) (d s' : WorkSession) :
  persist db d = Ok (db', s') ->
  exists k, s' = set_pk k d /\
            (pk d = None -> k = fresh (dom (sessions db))) /\
            (forall k0, pk d = Some k0 -> k = k0) /\
            db' = mkDB (profiles db) (<[k := to_row s']> (sessions db)).
Proof.
  intros H. apply persist_Ok_inv in H as [_ H]. unfold insert_row in H.
  injection H as -> ->.
  destruct (pk d) as [k0|]; eexists; repeat split; try congruence.
Qed.

(** ** C8: the three KPIs *)

(** C8.  On every save the three KPIs of the saved instance are the
    guarded quotients of its net profit: by [duration_hours], by
    [total_distance_km] and by [total_orders]; a divisor that is zero or
    missing gives [Decimal('0.00')].  No save raises from a division:
    [save] raises either the [TypeError] of a float rent that the first
    [try] left in place, or, after everything has been derived, the
    error of the database that refuses the row. *)
Theorem kpis_are_guarded_quotients (db : DB) (s : WorkSession) :
  match save db s with
  | Ok (_, s') =>
      guarded_quotient (net_profit s') (duration_hours s') (profit_per_hour s') /\
      guarded_quotient (net_profit s') (Some (total_distance_km s')) (profit_per_km s') /\
      guarded_quotient (net_profit s') (of_int <$> total_orders s') (profit_per_order s')
  | Raise e =>
      (e = TypeError /\ exists f, rent_after db s = Float f) \/
      (raised_by_write db s e /\ e <> DivisionByZero)
  end.
Proof.
  destruct (save db s) as [[db' s']|e] eqn:Hsave.
  - apply save_Ok_inv in Hsave as (d & Hd & Hp).
    apply persist_instance in Hp as (k & -> & _).
    derive_inv Hd. cbn. auto.
  - apply save_Raise in Hsave as [H|H]; [now left|right].
    split; [exact H|]. destruct H as (d & _ & Hp).
    apply persist_Raise in Hp as [_ [-> | [-> | ->]]]; discriminate.
Qed.

(** ** C4: tax estimate and net profit *)

Lemma div_by_100 (a : Decimal) : exists q, div a d_100 = Some q.
Proof. apply div_Some. discriminate. Qed.

Lemma get_profile_loaded (db : DB) (u : User) (p : UserProfile) :
  has_profile db u p -> get_profile db u = Ok (Loaded p).
Proof. intros [Hc Hp]. unfold get_profile. now rewrite Hc, Hp. Qed.

Lemma get_profile_none (db : DB) (u : User) :
  without_profile db u -> get_profile db u = Raise RelatedObjectDoesNotExist.
Proof. intros [Hc Hp]. unfold get_profile. now rewrite Hc, Hp. Qed.

(** The rate the third [try] leaves in [tax_rate]. *)
Lemma tax_rate_of_block (db : DB) (s : WorkSession) :
  match try_except (tax_block db s) None with
  | Some r => r
  | None => d_0_00
  end = tax_rate_of db (user s).
Proof.
  unfold tax_block, tax_rate_of.
  destruct (get_profile db (user s)) as [o|]; cbn -[div]; [|reflexivity].
  destruct (country (profile_row o)) as [c|]; cbn -[div]; [|reflexivity].
  destruct (div_by_100 (tax_rate_percentage c)) as [q ->]. reflexivity.
Qed.

Lemma mul_zero_rate (a : Decimal) : coeff (mul a d_0_00) = 0.
Proof. unfold mul. cbn. rewrite Z.mul_0_r. reflexivity. Qed.


(** ** C6: the worked example *)

(** C6.  Gross earnings 100.00, tips 10.00, fuel 5.00, maintenance 2.00,
    no other expense or platform fee, a profile whose rent and fee come
    out as zero, a country taxing 10 %, and a shift from 18:00 to 20:00:
    the save succeeds, the duration is 2 hours, and total earnings, net
    profit and profit per hour are 110.00, 92.70 and 46.35, on the
    instance (as decimal values) and in the row (to the digit). *)
Theorem worked_example :
  exists db' s' row,
    save test_db test_session = Ok (db', s') /\
    pk s' = Some 1%positive /\
    sessions db' !! 1%positive = Some row /\
    duration_hours s' = Some (of_int 2) /\
    vehicle_rent s' = Dec d_0_00 /\
    coeff (application_fee s') = 0 /\
    tax_rate_of test_db (user s') = mkDecimal 10 (-2) /\
    eqb (total_earnings s') (mkDecimal 11000 (-2)) = true /\
    eqb (net_profit s') (mkDecimal 9270 (-2)) = true /\
    eqb (profit_per_hour s') (mkDecimal 4635 (-2)) = true /\
    total_earnings row = mkDecimal 11000 (-2) /\
    net_profit row = mkDecimal 9270 (-2) /\
    profit_per_hour row = mkDecimal 4635 (-2).
Proof.
  do 3 eexists. split; [vm_compute; reflexivity|].
  vm_compute. repeat split; reflexivity.
Qed.

(** ** When [save] succeeds *)

Lemma derive_total (db : DB) (s : WorkSession) (r : Decimal) :
  rent_after db s = Dec r -> exists d, derive db s = Ok d.
Proof.
  intros Hr. destruct (derive db s) as [d|e] eqn:Hd; [eauto|].
  apply derive_Raise in Hd as [_ [f Hf]]. congruence.
Qed.

Lemma save_derive (db : DB) (s d : WorkSession) :
  derive db s = Ok d -> save db s = persist db d.
Proof. intros H. unfold save. now rewrite H. Qed.

Lemma rent_after_Raise (db : DB) (s : WorkSession) (e : exn) :
  rent_block db s = Raise e -> rent_after db s = vehicle_rent s.
Proof. unfold rent_after. now intros ->. Qed.

Lemma rent_after_Ok (db : DB) (s : WorkSession) (r : number) :
  rent_block db s = Ok r -> rent_after db s = r.
Proof. unfold rent_after. now intros ->. Qed.

Lemma rent_block_no_profile (db : DB) (s : WorkSession) :
  without_profile db (user s) -> rent_block db s = Raise RelatedObjectDoesNotExist.
Proof. intros H. unfold rent_block. now rewrite (get_profile_none db (user s) H). Qed.

Lemma days_in_month_pos (y m d : Z) : days_in_month y m = Some d -> 28 <= d.
Proof.
  unfold days_in_month. destruct (_ && _) eqn:Hm; [|discriminate].
  apply andb_true_iff in Hm as [H1 H2]. apply Z.leb_le in H1, H2.
  intros [= <-].
  assert (m = 1 \/ m = 2 \/ m = 3 \/ m = 4 \/ m = 5 \/ m = 6 \/ m = 7 \/ m = 8 \/
          m = 9 \/ m = 10 \/ m = 11 \/ m = 12) as Hcases by lia.
  repeat (destruct Hcases as [-> | Hcases]); try subst m;
    destruct (isleap y); vm_compute; discriminate.
Qed.

Lemma div_step (y n : Z) :
  0 < n -> y / n - (y - 1) / n = if y mod n =? 0 then 1 else 0.
Proof.
  intros Hn. destruct (y mod n =? 0) eqn:H; rewrite ?Z.eqb_eq, ?Z.eqb_neq in H.
  - apply Z.div_exact in H; [|lia].
    assert ((y - 1) / n = y / n - 1); [|lia].
    symmetry. apply (Z.div_unique _ _ _ (n - 1)); [lia|]. rewrite H at 1. ring.
  - assert ((y - 1) / n = y / n); [|lia].
    pose proof (Z.div_mod y n ltac:(lia)). pose proof (Z.mod_pos_bound y n Hn).
    symmetry. apply (Z.div_unique _ _ _ (y mod n - 1)); lia.
Qed.

Lemma mod_multiple (y n k : Z) : 0 < n -> 0 < k -> y mod (n * k) = 0 -> y mod n = 0.
Proof.
  intros Hn Hk H. apply Z.mod_divide in H; [|lia]. apply Z.mod_divide; [lia|].
  destruct H as [q ->]. exists (q * k). ring.
Qed.

Lemma days_before_year_succ (y : Z) :
  days_before_year (y + 1) = days_before_year y + 365 + (if isleap y then 1 else 0).
Proof.
  unfold days_before_year, isleap. replace (y + 1 - 1) with y by lia.
  pose proof (div_step y 4 ltac:(lia)) as H4.
  pose proof (div_step y 100 ltac:(lia)) as H100.
  pose proof (div_step y 400 ltac:(lia)) as H400.
  pose proof (mod_multiple y 4 25 ltac:(lia) ltac:(lia)) as M1.
  pose proof (mod_multiple y 100 4 ltac:(lia) ltac:(lia)) as M2.
  change (4 * 25) with 100 in M1. change (100 * 4) with 400 in M2.
  revert H4 H100 H400.
  destruct (y mod 4 =? 0) eqn:E4; destruct (y mod 100 =? 0) eqn:E100;
    destruct (y mod 400 =? 0) eqn:E400; cbn [andb orb negb]; intros H4 H100 H400;
    rewrite ?Z.eqb_eq, ?Z.eqb_neq in E4, E100, E400; lia.
Qed.

(** [calendar.monthrange] agrees with the ordinals of [datetime]: leap
    years included, a month has as many days as lie between its first
    day and the first day of the next month. *)
Lemma days_in_month_is_month_length (y m : Z) :
  1 <= m <= 12 -> days_in_month y m = Some (month_length y m).
Proof.
  intros Hm. unfold days_in_month.
  destruct ((1 <=? m) && (m <=? 12)) eqn:Hb;
    [|apply andb_false_iff in Hb as [Hb|Hb]; apply Z.leb_gt in Hb; lia].
  f_equal.
  assert (m = 1 \/ m = 2 \/ m = 3 \/ m = 4 \/ m = 5 \/ m = 6 \/ m = 7 \/ m = 8 \/
          m = 9 \/ m = 10 \/ m = 11 \/ m = 12) as Hcases by lia.
  unfold month_length, first_of_next_month.
  repeat (destruct Hcases as [-> | Hcases]); try subst m;
    match goal with
    | |- context [if ?k =? 12 then _ else _] =>
        let b := eval vm_compute in (k =? 12) in change (k =? 12) with b
    end;
    cbv iota; unfold toordinal, days_before_month; cbn [year month day];
    repeat match goal with
           | |- context [nth (Z.to_nat ?k) ?l 0] =>
               let v := eval vm_compute in (nth (Z.to_nat k) l 0) in
               change (nth (Z.to_nat k) l 0) with v
           | |- context [?a <? ?b] =>
               let v := eval vm_compute in (a <? b) in change (a <? b) with v
           | |- context [?a =? ?b] =>
               let v := eval vm_compute in (a =? b) in change (a =? b) with v
           end;
    rewrite ?days_before_year_succ; destruct (isleap y); cbn [andb]; lia.
Qed.

Lemma days_in_month_valid (d : Cal.date) :
  valid_month d -> exists n, days_in_month (year d) (month d) = Some n.
Proof.
  intros [H1 H2]. unfold days_in_month.
  apply Z.leb_le in H1, H2. rewrite H1, H2. cbn. eauto.
Qed.

(** With a valid month the daily cost never raises. *)
Lemma daily_cost_ok (p : UserProfile) (d : Cal.date) :
  valid_month d -> exists c, daily_cost (Loaded p) d = Ok (Dec c).
Proof.
  intros Hd. unfold daily_cost. cbn [profile_row rent_amount_of div_number].
  destruct (_ =? "daily")%string; [eauto|].
  destruct (_ =? "weekly")%string.
  { destruct (div_Some (rent_amount p) d_7_0) as [q ->]; [discriminate|]. cbn. eauto. }
  destruct (_ =? "monthly")%string; [|eauto].
  destruct (days_in_month_valid d Hd) as [n Hn]. rewrite Hn. cbn [or_raise bind].
  destruct (div_Some (rent_amount p) (of_int n)) as [q ->].
  - apply days_in_month_pos in Hn. cbn. lia.
  - cbn. eauto.
Qed.

Lemma rent_block_ok (db : DB) (s : WorkSession) (p : UserProfile) :
  has_profile db (user s) p -> valid_month (date s) ->
  exists r, rent_block db s = Ok (Dec r).
Proof.
  intros Hp Hd. unfold rent_block. rewrite (get_profile_loaded db (user s) p Hp).
  cbn [bind].
  destruct (daily_cost_ok p (date s) Hd) as [c ->]. cbn [bind].
  destruct (negb _); eauto.
Qed.

(** ** C5: the rent when the profile cannot be resolved *)

(** C5, as stated, fails: a session that arrives with a rent of 5.00 for
    a user without profile is saved with that rent, not with zero. *)
Lemma rent_not_defaulted_to_zero : ~ rent_defaults_to_zero_without_profile.
Proof.
  intros H.
  destruct (H db_without_profile (fst (run_save db_without_profile session_with_rent))
              session_with_rent (snd (run_save db_without_profile session_with_rent))
              (conj eq_refl eq_refl))
    as (r & Hr & Hz).
  - vm_compute. reflexivity.
  - vm_compute in Hr. injection Hr as <-. discriminate Hz.
Qed.

(** What [derive] returns when the rent after the first [try] is a
    decimal. *)
Lemma derive_result (db : DB) (s : WorkSession) (r : Decimal) :
  rent_after db s = Dec r ->
  exists d,
    derive db s = Ok d /\
    pk d = pk s /\
    vehicle_rent d = Dec r /\
    application_fee d = try_except (fee_block db s) d_0_00 /\
    same_inputs s d.
Proof.
  intros Hr. destruct (derive_total db s r Hr) as [d Hd].
  exists d. split; [exact Hd|].
  derive_inv Hd. clear Hk Hk0 Hk1.
  split; [reflexivity|]. split; [cbn; congruence|]. split; [reflexivity|].
  repeat split.
Qed.

(** C5, amended.  When the first [try] of [save] raises (the user has no
    profile, for one) and the instance carries a decimal rent, nothing
    is raised up to the write and the instance keeps that rent; without
    a profile the application fee is [Decimal('0.00')] and the tax
    estimate zero.  The save completes when the database takes the row,
    and the saved instance and its row then carry the rent; when the
    database refuses the row, the save raises the error of the write. *)
Theorem rent_kept_when_unresolved (db : DB) (s : WorkSession) (r : Decimal) (e : exn) :
  rent_block db s = Raise e ->
  vehicle_rent s = Dec r ->
  exists d,
    derive db s = Ok d /\
    vehicle_rent d = Dec r /\
    (without_profile db (user s) ->
     e = RelatedObjectDoesNotExist /\
     application_fee d = d_0_00 /\
     coeff (tax_estimate d) = 0) /\
    (row_accepted d ->
     exists db' s' k,
       save db s = Ok (db', s') /\
       vehicle_rent s' = Dec r /\
       application_fee s' = application_fee d /\
       tax_estimate s' = tax_estimate d /\
       pk s' = Some k /\
       vehicle_rent <$> sessions db' !! k = Some (Dec (quantize2 r))) /\
    (~ row_accepted d ->
     exists e', save db s = Raise e' /\
                (e' = InvalidOperation \/ e' = OverflowError \/ e' = IntegrityError)).
Proof.
  intros Hblock Hrent.
  assert (rent_after db s = Dec r) as Hafter
    by (rewrite (rent_after_Raise db s e Hblock); exact Hrent).
  destruct (derive_total db s r Hafter) as [d Hd].
  exists d. split; [exact Hd|].
  pose proof (save_derive db s d Hd) as Hsave.
  derive_inv Hd. clear Hk Hk0 Hk1.
  match goal with |- context [row_accepted ?x] => set (d := x) in * end.
  assert (vehicle_rent d = Dec r) as Hr by (cbn; congruence).
  split; [exact Hr|]. split; [|split].
  - intros Hnone. rewrite rent_block_no_profile in Hblock by exact Hnone.
    split; [congruence|].
    cbn [d application_fee tax_estimate]. rewrite tax_rate_of_block.
    assert (tax_rate_of db (user s) = d_0_00) as ->
      by (unfold tax_rate_of; now rewrite (get_profile_none db (user s) Hnone)).
    split.
    + unfold fee_block. now rewrite (get_profile_none db (user s) Hnone).
    + destruct (is_pos _); [apply mul_zero_rate|reflexivity].
  - intros Hacc. rewrite (persist_accepted db d Hacc) in Hsave.
    destruct (insert_row db d) as [db' s'] eqn:Hins.
    pose proof (persist_accepted db d Hacc) as Hp. rewrite Hins in Hp.
    apply persist_instance in Hp as (k & -> & _ & _ & ->).
    exists (mkDB (profiles db) (<[k := to_row (set_pk k d)]> (sessions db))), (set_pk k d), k.
    split; [exact Hsave|]. split; [exact Hr|].
    split; [reflexivity|]. split; [reflexivity|]. split; [reflexivity|].
    cbn [sessions]. rewrite lookup_insert_eq. cbn [fmap option_fmap option_map].
    cbn [to_row vehicle_rent set_pk]. fold d. rewrite Hr. reflexivity.
  - intros Hrej. destruct (persist db d) as [res|e'] eqn:Hp.
    + apply persist_Ok_inv in Hp as [Hacc _]. contradiction.
    + exists e'. split; [exact Hsave|]. now apply persist_Raise in Hp as [_ He].
Qed.

Lemma rent_kept_when_unresolved_witness :
  exists d,
    derive db_without_profile session_with_rent = Ok d /\
    vehicle_rent d = Dec (mkDecimal 500 (-2)) /\
    (without_profile db_without_profile (user session_with_rent) ->
     RelatedObjectDoesNotExist = RelatedObjectDoesNotExist /\
     application_fee d = d_0_00 /\
     coeff (tax_estimate d) = 0) /\
    (row_accepted d ->
     exists db' s' k,
       save db_without_profile session_with_rent = Ok (db', s') /\
       vehicle_rent s' = Dec (mkDecimal 500 (-2)) /\
       application_fee s' = application_fee d /\
       tax_estimate s' = tax_estimate d /\
       pk s' = Some k /\
       vehicle_rent <$> sessions db' !! k = Some (Dec (quantize2 (mkDecimal 500 (-2))))) /\
    (~ row_accepted d ->
     exists e', save db_without_profile session_with_rent = Raise e' /\
                (e' = InvalidOperation \/ e' = OverflowError \/ e' = IntegrityError)).
Proof.
  apply (rent_kept_when_unresolved db_without_profile session_with_rent
           (mkDecimal 500 (-2)) RelatedObjectDoesNotExist); reflexivity.
Defined.

(** The session with a rent of 5.00 of the user without profile is
    saved, and its row carries 5.00. *)
Example save_with_rent_without_profile :
  exists db' s',
    save db_without_profile session_with_rent = Ok (db', s') /\
    vehicle_rent <$> sessions db' !! 1%positive = Some (Dec (mkDecimal 500 (-2))).
Proof. do 2 eexists. split; vm_compute; reflexivity. Qed.

(** Two amounts of eight digits before the point: each fits its column,
    their sum does not fit [total_earnings], and the save raises in the
    write. *)
Example save_overflows_total_earnings :
  let s := set_gross_and_tips (mkDecimal 9999999999 (-2)) (mkDecimal 9999999999 (-2))
             session_with_rent in
  fits 10 (gross_earnings s) = true /\
  fits 10 (tips s) = true /\
  save db_without_profile s = Raise InvalidOperation.
Proof. vm_compute. repeat split. Qed.

(** Without a profile and without a rent on the instance, the float
    default of [vehicle_rent] is still in place at line 196, and the
    save raises. *)
Example save_float_rent_without_profile :
  without_profile db_without_profile (user night_shift) /\
  vehicle_rent night_shift = float_0_0 /\
  save db_without_profile night_shift = Raise TypeError.
Proof. repeat split. Qed.

(** ** What [save] returns *)

Lemma save_result (db db' : DB) (s s' : WorkSession) :
  save db s = Ok (db', s') ->
  exists k r,
    pk s' = Some k /\
    (pk s = None -> k = fresh (dom (sessions db))) /\
    (forall k0, pk s = Some k0 -> k = k0) /\
    db' = mkDB (profiles db) (<[k := to_row s']> (sessions db)) /\
    rent_after db s = Dec r /\
    vehicle_rent s' = Dec r /\
    same_inputs s s'.
Proof.
  intros Hsave.
  apply save_Ok_inv in Hsave as (d & Hd & Hp).
  apply persist_instance in Hp as (k & -> & Hfresh & Hkeep & ->).
  derive_inv Hd. clear Hk Hk0 Hk1. cbn in Hfresh, Hkeep.
  exists k, r.
  split; [reflexivity|].
  split; [exact Hfresh|]. split; [exact Hkeep|]. split; [reflexivity|].
  split; [reflexivity|]. split; [reflexivity|].
  repeat split.
Qed.

Lemma save_row (db db' : DB) (s' : WorkSession) (k : positive) :
  db' = mkDB (profiles db) (<[k := to_row s']> (sessions db)) ->
  sessions db' !! k = Some (to_row s') /\ profiles db' = profiles db.
Proof. intros ->. cbn. split; [apply lookup_insert_eq|reflexivity]. Qed.

(** Once the fields are derived, [save] completes exactly when the
    database takes the row, and raises the error of the write when it
    does not. *)
Lemma save_completes (db : DB) (s d : WorkSession) :
  derive db s = Ok d ->
  (row_accepted d <-> exists db' s', save db s = Ok (db', s')) /\
  (forall e, save db s = Raise e ->
     ~ row_accepted d /\
     (e = InvalidOperation \/ e = OverflowError \/ e = IntegrityError)).
Proof.
  intros Hd. rewrite (save_derive db s d Hd). split; [split|].
  - intros H. rewrite (persist_accepted db d H).
    destruct (insert_row db d) as [db' s']. eauto.
  - intros (db' & s' & H). now apply persist_Ok_inv in H as [H _].
  - intros e H. now apply persist_Raise in H.
Qed.

(** With a profile to read, [save] gets as far as the write. *)
Lemma save_reaches_write (db : DB) (s : WorkSession) (p : UserProfile) :
  has_profile db (user s) p -> valid_month (date s) ->
  exists d,
    derive db s = Ok d /\
    (row_accepted d <-> exists db' s', save db s = Ok (db', s')) /\
    (forall e, save db s = Raise e ->
       ~ row_accepted d /\
       (e = InvalidOperation \/ e = OverflowError \/ e = IntegrityError)).
Proof.
  intros Hp Hv. destruct (rent_block_ok db s p Hp Hv) as [r Hr].
  apply rent_after_Ok in Hr.
  destruct (derive_result db s r Hr) as (d & Hd & _).
  exists d. split; [exact Hd|]. now apply save_completes.
Qed.

(** ** C2: fuel cost of bicycles and scooters *)

Lemma is_non_fuel_true (db : DB) (u : User) (p : UserProfile) :
  has_profile db u p ->
  transport_type p = "bicycle"%string \/ transport_type p = "scooter"%string ->
  Serializers.is_non_fuel db u = true.
Proof.
  intros Hp Ht. unfold Serializers.is_non_fuel.
  rewrite (get_profile_loaded db u p Hp). cbn [profile_row].
  destruct Ht as [-> | ->]; reflexivity.
Qed.

Lemma is_non_fuel_false (db : DB) (u : User) (p : UserProfile) :
  has_profile db u p ->
  transport_type p = "motorcycle"%string \/ transport_type p = "car"%string ->
  Serializers.is_non_fuel db u = false.
Proof.
  intros Hp Ht. unfold Serializers.is_non_fuel.
  rewrite (get_profile_loaded db u p Hp). cbn [profile_row].
  destruct Ht as [-> | ->]; reflexivity.
Qed.

Lemma enforce_keeps_required (db : DB) (u : User) (vd : Serializers.validated_data) :
  Serializers.vd_date (Serializers.enforce_fuel_cost db u vd) = Serializers.vd_date vd /\
  Serializers.vd_start_time (Serializers.enforce_fuel_cost db u vd) = Serializers.vd_start_time vd /\
  Serializers.vd_end_time (Serializers.enforce_fuel_cost db u vd) = Serializers.vd_end_time vd.
Proof.
  unfold Serializers.enforce_fuel_cost.
  destruct (Serializers.is_non_fuel db u); repeat split.
Qed.

(** What a successful [create] returns. *)
Lemma create_result (db db' : DB) (u : User) (vd : Serializers.validated_data)
    (s' : WorkSession) :
  Serializers.create db u vd = Ok (db', s') ->
  exists k,
    pk s' = Some k /\
    k = fresh (dom (sessions db)) /\
    db' = mkDB (profiles db) (<[k := to_row s']> (sessions db)) /\
    user s' = u /\
    Serializers.vd_date vd = Some (date s') /\
    fuel_cost s' =
      default (mkDecimal 0 (-1))
        (Serializers.vd_fuel_cost (Serializers.enforce_fuel_cost db u vd)).
Proof.
  destruct (enforce_keeps_required db u vd) as (E1 & E2 & E3).
  unfold Serializers.create, Serializers.new_instance.
  rewrite E1, E2, E3.
  destruct (Serializers.vd_date vd) as [d|]; [|discriminate].
  destruct (Serializers.vd_start_time vd) as [st|]; [|discriminate].
  destruct (Serializers.vd_end_time vd) as [en|]; [|discriminate].
  cbn [bind]. intros Hsave.
  apply save_result in Hsave as (k & r & Hpk & Hfresh & _ & Hdb & _ & _ & Hin).
  exists k. destruct Hin as (Hu & Hdate & _ & _ & _ & _ & _ & _ & Hfuel & _).
  cbn in Hu, Hdate, Hfuel, Hfresh.
  repeat split; auto. now rewrite Hdate.
Qed.

(** What a successful [update] returns. *)
Lemma update_result (db db' : DB) (u : User) (inst : WorkSession)
    (vd : Serializers.validated_data) (s' : WorkSession) :
  Serializers.update db u inst vd = Ok (db', s') ->
  exists k,
    pk s' = Some k /\
    (forall k0, pk inst = Some k0 -> k = k0) /\
    db' = mkDB (profiles db) (<[k := to_row s']> (sessions db)) /\
    fuel_cost s' =
      default (fuel_cost inst)
        (Serializers.vd_fuel_cost (Serializers.enforce_fuel_cost db u vd)).
Proof.
  unfold Serializers.update. intros Hsave.
  apply save_result in Hsave as (k & r & Hpk & _ & Hkeep & Hdb & _ & _ & Hin).
  exists k. destruct Hin as (_ & _ & _ & _ & _ & _ & _ & _ & Hfuel & _).
  cbn in Hfuel, Hkeep.
  repeat split; auto.
Qed.

Lemma quantize2_zero : quantize2 d_0 = d_0_00.
Proof. reflexivity. Qed.

(** A value with at most two decimal places is stored as it is. *)
Lemma quantize2_two_places (f : Decimal) : -2 <= expo f -> eqb (quantize2 f) f = true.
Proof.
  intros He. unfold quantize2, eqb.
  destruct (expo f <=? -2) eqn:Hle.
  - apply Z.leb_le in Hle. assert (expo f = -2) as Hf by lia.
    rewrite Hf. cbn [expo coeff]. change (-2 - -2) with 0.
    unfold round_half_even. rewrite Z.pow_0_r, Z.div_1_r, Z.mod_1_r.
    cbn. apply Z.eqb_refl.
  - apply Z.leb_gt in Hle. cbn [expo coeff].
    rewrite Z.min_l by lia.
    replace (-2 - -2) with 0 by lia. replace (expo f - -2) with (expo f + 2) by lia.
    rewrite Z.pow_0_r, Z.mul_1_r. apply Z.eqb_refl.
Qed.

(** A request with date, start and end time of a user with a profile
    gets as far as the write. *)
Lemma create_completes (db : DB) (u : User) (p : UserProfile)
    (vd : Serializers.validated_data) (d : Cal.date) (st en : time) :
  has_profile db u p ->
  Serializers.vd_date vd = Some d ->
  Serializers.vd_start_time vd = Some st ->
  Serializers.vd_end_time vd = Some en ->
  valid_month d ->
  exists inst derived,
    Serializers.new_instance u (Serializers.enforce_fuel_cost db u vd) = Ok inst /\
    derive db inst = Ok derived /\
    (row_accepted derived <->
     exists db_c s_c, Serializers.create db u vd = Ok (db_c, s_c)) /\
    (forall e, Serializers.create db u vd = Raise e ->
       e = InvalidOperation \/ e = OverflowError \/ e = IntegrityError).
Proof.
  intros Hp Hd Hst Hen Hv.
  destruct (enforce_keeps_required db u vd) as (E1 & E2 & E3).
  unfold Serializers.create.
  destruct (Serializers.new_instance u (Serializers.enforce_fuel_cost db u vd))
    as [inst|e0] eqn:Hnew;
    unfold Serializers.new_instance in Hnew; rewrite E1, E2, E3, Hd, Hst, Hen in Hnew;
    [|discriminate Hnew].
  assert (user inst = u /\ date inst = d) as [Hu Hdate]
    by (injection Hnew as <-; split; reflexivity).
  cbn [bind].
  destruct (save_reaches_write db inst p) as (derived & Hder & Hiff & Hraise).
  { now rewrite Hu. }
  { now rewrite Hdate. }
  exists inst, derived. split; [reflexivity|]. split; [exact Hder|].
  split; [exact Hiff|]. intros e He. now apply Hraise in He as [_ He].
Qed.

(** C2.  For a user whose profile says bicycle or scooter, a session
    created or updated through the serializer is saved with fuel cost
    zero whatever the request carried; for motorcycle or car it is saved
    with the submitted fuel cost, which the row keeps to two decimal
    places (unchanged when it has no more than two).  This holds for
    every [create] and every [update] that stores the session; and a
    request with date, start and end time, as the serializer requires
    them, is stored exactly when the database takes the row of the
    derived instance: nothing raises before the write. *)
Theorem fuel_cost_enforced (db : DB) (u : User) (p : UserProfile) :
  has_profile db u p ->
  (forall vd d st en,
      Serializers.vd_date vd = Some d ->
      Serializers.vd_start_time vd = Some st ->
      Serializers.vd_end_time vd = Some en ->
      valid_month d ->
      exists inst derived,
        Serializers.new_instance u (Serializers.enforce_fuel_cost db u vd) = Ok inst /\
        derive db inst = Ok derived /\
        (row_accepted derived <->
         exists db_c s_c, Serializers.create db u vd = Ok (db_c, s_c)) /\
        (forall e, Serializers.create db u vd = Raise e ->
           e = InvalidOperation \/ e = OverflowError \/ e = IntegrityError)) /\
  (forall inst vd_u,
      user inst = u ->
      valid_month (default (date inst) (Serializers.vd_date vd_u)) ->
      exists derived,
        derive db (Serializers.set_attrs (Serializers.enforce_fuel_cost db u vd_u) inst)
        = Ok derived /\
        (row_accepted derived <->
         exists db_u s_u, Serializers.update db u inst vd_u = Ok (db_u, s_u)) /\
        (forall e, Serializers.update db u inst vd_u = Raise e ->
           e = InvalidOperation \/ e = OverflowError \/ e = IntegrityError)) /\
  (forall vd db_c s_c,
      Serializers.create db u vd = Ok (db_c, s_c) ->
      exists k_c,
        pk s_c = Some k_c /\ sessions db_c !! k_c = Some (to_row s_c) /\
        (transport_type p = "bicycle"%string \/ transport_type p = "scooter"%string ->
         fuel_cost s_c = d_0 /\ fuel_cost (to_row s_c) = d_0_00) /\
        (transport_type p = "motorcycle"%string \/ transport_type p = "car"%string ->
         forall f, Serializers.vd_fuel_cost vd = Some f ->
           fuel_cost s_c = f /\ fuel_cost (to_row s_c) = quantize2 f /\
           (-2 <= expo f -> eqb (fuel_cost (to_row s_c)) f = true))) /\
  (forall inst vd_u db_u s_u,
      Serializers.update db u inst vd_u = Ok (db_u, s_u) ->
      exists k_u,
        pk s_u = Some k_u /\ sessions db_u !! k_u = Some (to_row s_u) /\
        (transport_type p = "bicycle"%string \/ transport_type p = "scooter"%string ->
         fuel_cost s_u = d_0 /\ fuel_cost (to_row s_u) = d_0_00) /\
        (transport_type p = "motorcycle"%string \/ transport_type p = "car"%string ->
         forall f, Serializers.vd_fuel_cost vd_u = Some f ->
           fuel_cost s_u = f /\ fuel_cost (to_row s_u) = quantize2 f /\
           (-2 <= expo f -> eqb (fuel_cost (to_row s_u)) f = true))).
Proof.
  intros Hp. split; [|split; [|split]].
  - intros vd d st en Hd Hst Hen Hv.
    now apply (create_completes db u p vd d st en).
  - intros inst vd_u Hu Hv. unfold Serializers.update.
    set (inst' := Serializers.set_attrs _ inst).
    destruct (save_reaches_write db inst' p) as (derived & Hder & Hiff & Hraise).
    { subst inst'. cbn [Serializers.set_attrs user]. now rewrite Hu. }
    { subst inst'. cbn [Serializers.set_attrs date].
      destruct (enforce_keeps_required db u vd_u) as (E1 & _). now rewrite E1. }
    exists derived. split; [exact Hder|].
    split; [exact Hiff|]. intros e He. now apply Hraise in He as [_ He].
  - intros vd db_c s_c Hc.
    apply create_result in Hc as (k_c & Hpk_c & _ & Hdb_c & _ & _ & Hfuel_c).
    exists k_c. apply save_row in Hdb_c as [Hrow_c _].
    split; [exact Hpk_c|]. split; [exact Hrow_c|].
    unfold Serializers.enforce_fuel_cost in Hfuel_c. split.
    + intros Ht. rewrite (is_non_fuel_true db u p Hp Ht) in Hfuel_c. cbn in Hfuel_c.
      split; [exact Hfuel_c|]. cbn [to_row fuel_cost]. now rewrite Hfuel_c.
    + intros Ht f Hf. rewrite (is_non_fuel_false db u p Hp Ht), Hf in Hfuel_c.
      cbn in Hfuel_c. cbn [to_row fuel_cost]. rewrite Hfuel_c.
      repeat split. apply quantize2_two_places.
  - intros inst vd_u db_u s_u Hupd.
    apply update_result in Hupd as (k_u & Hpk_u & _ & Hdb_u & Hfuel_u).
    exists k_u. apply save_row in Hdb_u as [Hrow_u _].
    split; [exact Hpk_u|]. split; [exact Hrow_u|].
    unfold Serializers.enforce_fuel_cost in Hfuel_u. split.
    + intros Ht. rewrite (is_non_fuel_true db u p Hp Ht) in Hfuel_u. cbn in Hfuel_u.
      split; [exact Hfuel_u|]. cbn [to_row fuel_cost]. now rewrite Hfuel_u.
    + intros Ht f Hf. rewrite (is_non_fuel_false db u p Hp Ht), Hf in Hfuel_u.
      cbn in Hfuel_u. cbn [to_row fuel_cost]. rewrite Hfuel_u.
      repeat split. apply quantize2_two_places.
Qed.

Lemma fuel_cost_enforced_witness :
  exists db' s' k,
    Serializers.create bicycle_db (mkUser 1 false) bicycle_request = Ok (db', s') /\
    pk s' = Some k /\ sessions db' !! k = Some (to_row s') /\
    Serializers.vd_fuel_cost bicycle_request = Some (mkDecimal 1000 (-2)) /\
    fuel_cost s' = d_0 /\ fuel_cost (to_row s') = d_0_00.
Proof.
  destruct (fuel_cost_enforced bicycle_db (mkUser 1 false) bicycle_profile
              (conj eq_refl eq_refl)) as (_ & _ & Hcreate & _).
  destruct (Serializers.create bicycle_db (mkUser 1 false) bicycle_request)
    as [[db' s']|e] eqn:Hc; [|vm_compute in Hc; discriminate Hc].
  destruct (Hcreate bicycle_request db' s' Hc) as (k & Hpk & Hrow & Hforced & _).
  destruct Hforced as [H1 H2]; [left; reflexivity|].
  exists db', s', k. repeat split; assumption.
Defined.

(** ** C9: the credit gate of [perform_create] *)

Lemma save_profiles (db db' : DB) (s s' : WorkSession) :
  save db s = Ok (db', s') -> profiles db' = profiles db.
Proof.
  intros H. apply save_Ok_inv in H as (d & _ & Hp).
  apply persist_instance in Hp as (k & _ & _ & _ & ->). reflexivity.
Qed.

Lemma create_profiles (db db' : DB) (u : User) (vd : Serializers.validated_data)
    (s' : WorkSession) :
  Serializers.create db u vd = Ok (db', s') -> profiles db' = profiles db.
Proof.
  unfold Serializers.create.
  destruct (Serializers.new_instance u _) as [i|e]; cbn [bind]; [|discriminate].
  apply save_profiles.
Qed.

Lemma create_after_gate_profiles (db2 : DB) (u : User) (vd : Serializers.validated_data) :
  profiles (fst (create_after_gate db2 u vd)) = profiles db2.
Proof.
  unfold create_after_gate.
  destruct (Serializers.create db2 u vd) as [[db3 i]|e] eqn:Hc; cbn; [|reflexivity].
  now apply create_profiles in Hc.
Qed.

(** The outcome of the request once the gate has let it through: a
    session stored under a new key, or an exception and the session
    table as it was. *)
Lemma create_after_gate_sessions (db2 : DB) (u : User) (vd : Serializers.validated_data) :
  match snd (create_after_gate db2 u vd) with
  | Ok s' =>
      exists k,
        pk s' = Some k /\ sessions db2 !! k = None /\ user s' = u /\
        Serializers.vd_date vd = Some (date s') /\
        sessions (fst (create_after_gate db2 u vd)) = <[k := to_row s']> (sessions db2)
  | Raise _ => fst (create_after_gate db2 u vd) = db2
  end.
Proof.
  unfold create_after_gate.
  destruct (Serializers.create db2 u vd) as [[db3 s']|e] eqn:Hc; cbn [fst snd];
    [|reflexivity].
  apply create_result in Hc as (k & Hpk & Hk & -> & Hu & Hdate & _).
  exists k. split; [exact Hpk|]. split; [|repeat split; assumption].
  subst k. apply not_elem_of_dom. apply is_fresh.
Qed.

(** C9.  For a request of a user whose profile is the row [p]: a pro
    user is neither checked nor charged; a non-pro user with fewer than
    10 credits gets [CreditsExhausted] and the database is unchanged;
    otherwise the gate first takes exactly 10 credits (the stored
    balance is [credits p - 10], every other field of the profile and
    every other profile are as before), leaving the sessions as they
    were, and the session is created on the database so obtained: when
    the creation succeeds the instance is stored under a new primary
    key, when it raises no session is stored, and in both cases the
    balance stays 10 lower.  For a user without profile the default
    profile (300 credits, not pro) is inserted first and charged in the
    same way. *)
Theorem credit_gate (db : DB) (u : User) (vd : Serializers.validated_data) :
  profile_created u = false ->
  match profiles db !! uid u with
  | Some p =>
      if is_pro p then
        Views.deduct_credits db u = Ok db /\
        Views.perform_create db u vd = create_after_gate db u vd /\
        profiles (fst (Views.perform_create db u vd)) = profiles db
      else if credits p <? 10 then
        Views.perform_create db u vd = (db, Raise CreditsExhausted)
      else
        exists db2 p2,
          Views.deduct_credits db u = Ok db2 /\
          profiles db2 = <[uid u := p2]> (profiles db) /\
          p2 = Views.set_credits (credits p - 10) p /\
          credits p2 = credits p - 10 /\
          (country p2 = country p /\ transport_type p2 = transport_type p /\
           courier_type p2 = courier_type p /\ fee_percent p2 = fee_percent p /\
           rent_frequency p2 = rent_frequency p /\ rent_amount p2 = rent_amount p /\
           is_pro p2 = is_pro p) /\
          sessions db2 = sessions db /\
          Views.perform_create db u vd = create_after_gate db2 u vd /\
          profiles (fst (Views.perform_create db u vd)) = profiles db2 /\
          credits <$> profiles (fst (Views.perform_create db u vd)) !! uid u
          = Some (credits p - 10) /\
          match snd (Views.perform_create db u vd) with
          | Ok s' =>
              exists k,
                pk s' = Some k /\
                sessions db !! k = None /\
                sessions (fst (Views.perform_create db u vd))
                = <[k := to_row s']> (sessions db)
          | Raise _ => sessions (fst (Views.perform_create db u vd)) = sessions db
          end
  | None =>
      exists db2,
        Views.ensure_profile db u
          = (save_profile db (uid u) default_profile, mkUser (uid u) true) /\
        Views.deduct_credits (save_profile db (uid u) default_profile) (mkUser (uid u) true)
          = Ok db2 /\
        profiles db2 = <[uid u := Views.set_credits 290 default_profile]> (profiles db) /\
        credits <$> profiles db2 !! uid u = Some 290 /\
        sessions db2 = sessions db /\
        Views.perform_create db u vd = create_after_gate db2 (mkUser (uid u) true) vd /\
        profiles (fst (Views.perform_create db u vd)) = profiles db2
  end.
Proof.
  intros Hfresh.
  unfold Views.perform_create, Views.ensure_profile, Views.deduct_credits, get_profile.
  rewrite Hfresh.
  destruct (profiles db !! uid u) as [p|] eqn:Hp; cbn [or_raise bind profile_row].
  - (* the user has a profile *)
    rewrite Hfresh, Hp. cbn [or_raise bind profile_row].
    destruct (is_pro p) eqn:Hpro; cbn [negb].
    + fold (create_after_gate db u vd).
      split; [reflexivity|]. split; [reflexivity|].
      apply create_after_gate_profiles.
    + destruct (credits p <? 10) eqn:Hc; [reflexivity|].
      set (db2 := save_profile db (uid u) (Views.set_credits (credits p - 10) p)).
      exists db2, (Views.set_credits (credits p - 10) p).
      fold (create_after_gate db2 u vd).
      split; [reflexivity|]. split; [reflexivity|]. split; [reflexivity|].
      split; [reflexivity|]. split; [repeat split; cbn; congruence|].
      split; [reflexivity|]. split; [reflexivity|].
      split; [apply create_after_gate_profiles|].
      split.
      * rewrite create_after_gate_profiles. subst db2. cbn [save_profile profiles].
        now rewrite lookup_insert_eq.
      * pose proof (create_after_gate_sessions db2 u vd) as Hs.
        destruct (snd (create_after_gate db2 u vd)) as [s'|e].
        -- destruct Hs as (k & Hpk & Hk & _ & _ & Hs). exists k.
           repeat split; assumption.
        -- now rewrite Hs.
  - (* the user has none: the default profile is inserted first *)
    cbn [profile_created uid save_profile profiles].
    rewrite lookup_insert_eq.
    cbn [or_raise bind is_pro default_profile negb credits profile_row].
    cbn [Z.ltb Z.compare Pos.compare Pos.compare_cont].
    eexists. split; [reflexivity|]. split; [reflexivity|].
    split; [cbn; now rewrite insert_insert_eq|].
    split; [cbn; now rewrite lookup_insert_eq|].
    split; [reflexivity|].
    match goal with |- context [create_after_gate ?d ?x vd] => set (db2 := d) end.
    split; [reflexivity|]. apply create_after_gate_profiles.
Qed.

Lemma credit_gate_witness :
  exists db2 p2,
    Views.deduct_credits bicycle_db (mkUser 1 false) = Ok db2 /\
    profiles db2 = <[1%nat := p2]> (profiles bicycle_db) /\
    p2 = Views.set_credits (300 - 10) bicycle_profile /\
    credits p2 = 300 - 10 /\
    (country p2 = country bicycle_profile /\
     transport_type p2 = transport_type bicycle_profile /\
     courier_type p2 = courier_type bicycle_profile /\
     fee_percent p2 = fee_percent bicycle_profile /\
     rent_frequency p2 = rent_frequency bicycle_profile /\
     rent_amount p2 = rent_amount bicycle_profile /\
     is_pro p2 = is_pro bicycle_profile) /\
    sessions db2 = sessions bicycle_db /\
    Views.perform_create bicycle_db (mkUser 1 false) bicycle_request
    = create_after_gate db2 (mkUser 1 false) bicycle_request /\
    profiles (fst (Views.perform_create bicycle_db (mkUser 1 false) bicycle_request))
    = profiles db2 /\
    credits <$> profiles (fst (Views.perform_create bicycle_db (mkUser 1 false)
                                 bicycle_request)) !! 1%nat
    = Some (300 - 10) /\
    match snd (Views.perform_create bicycle_db (mkUser 1 false) bicycle_request) with
    | Ok s' =>
        exists k,
          pk s' = Some k /\
          sessions bicycle_db !! k = None /\
          sessions (fst (Views.perform_create bicycle_db (mkUser 1 false) bicycle_request))
          = <[k := to_row s']> (sessions bicycle_db)
    | Raise _ =>
        sessions (fst (Views.perform_create bicycle_db (mkUser 1 false) bicycle_request))
        = sessions bicycle_db
    end.
Proof.
  exact (credit_gate bicycle_db (mkUser 1 false) bicycle_request eq_refl).
Defined.

(** The request of the cyclist is let through for 10 credits and
    stored. *)
Example perform_create_bicycle :
  let '(db', r) := Views.perform_create bicycle_db (mkUser 1 false) bicycle_request in
  (exists s', r = Ok s' /\ pk s' = Some 1%positive) /\
  credits <$> profiles db' !! 1%nat = Some 290 /\
  size (sessions db') = 1%nat.
Proof. vm_compute. split; [eexists; split; reflexivity|split; reflexivity]. Qed.

(** A user without profile, on an empty table: the profile is inserted
    and charged, and the creation then fails on the float defaults of
    the instance just created ([Decimal + float], line 196 of
    [models.py]). *)
Example perform_create_without_profile :
  let '(db', r) := Views.perform_create db_without_profile (mkUser 7 false) bicycle_request in
  r = Raise TypeError /\
  credits <$> profiles db' !! 7%nat = Some 290 /\
  sessions db' = ∅.
Proof. vm_compute. repeat split. Qed.

(** ** C1: allocation of the daily rent *)

Lemma existing_sessions_exist_spec (db : DB) (s : WorkSession) :
  existing_sessions_exist db s = true <-> other_session_exists db s.
Proof.
  unfold existing_sessions_exist, other_session_exists.
  rewrite bool_decide_eq_true. unfold map_Exists, is_other_session. reflexivity.
Qed.

(** With a profile and a valid month, the first [try] sets the rent to
    the daily cost, or to zero when another session exists. *)
Lemma rent_block_value (db : DB) (s : WorkSession) (p : UserProfile) :
  has_profile db (user s) p ->
  valid_month (date s) ->
  exists figure,
    daily_cost (Loaded p) (date s) = Ok (Dec figure) /\
    rent_block db s = Ok (Dec (if existing_sessions_exist db s then d_0_00 else figure)).
Proof.
  intros Hp Hv. destruct (daily_cost_ok p (date s) Hv) as [c Hc].
  exists c. split; [exact Hc|].
  unfold rent_block. rewrite (get_profile_loaded db (user s) p Hp). cbn [bind].
  rewrite Hc. cbn [bind]. now destruct (existing_sessions_exist db s).
Qed.

Lemma quantize2_zero_coeff (d : Decimal) : coeff d = 0 -> coeff (quantize2 d) = 0.
Proof.
  intros H. unfold quantize2. destruct (expo d <=? -2) eqn:He; cbn [coeff]; rewrite H.
  - apply Z.leb_le in He. unfold round_half_even.
    assert (0 < 10 ^ (-2 - expo d)) as Hpos by (apply Z.pow_pos_nonneg; lia).
    rewrite Z.div_0_l, Z.mod_0_l by lia.
    destruct (2 * 0 <? 10 ^ (-2 - expo d)) eqn:Hlt; [reflexivity|].
    apply Z.ltb_ge in Hlt. lia.
  - apply Z.mul_0_l.
Qed.

(** A row with a non-zero rent comes from an instance with a non-zero
    (decimal) rent. *)
Lemma carries_rent_to_row (s : WorkSession) (r : Decimal) :
  vehicle_rent s = Dec r -> carries_rent (to_row s) -> coeff r <> 0.
Proof.
  intros Hr Hc Hz. apply Hc. unfold Views.vehicle_rent_column.
  cbn [to_row vehicle_rent]. rewrite Hr. cbn [quantize_number].
  now apply quantize2_zero_coeff.
Qed.

(** One save keeps the invariant. *)
Lemma save_at_most_one_rent (db db' : DB) (s s' : WorkSession) (p : UserProfile) :
  has_profile db (user s) p ->
  valid_month (date s) ->
  save db s = Ok (db', s') ->
  at_most_one_rent db -> at_most_one_rent db'.
Proof.
  intros Hp Hv Hsave Hinv.
  destruct (rent_block_value db s p Hp Hv) as (figure & _ & Hblock).
  apply rent_after_Ok in Hblock.
  destruct (save_result db db' s s' Hsave)
    as (k & r & Hpk & Hfresh & Hkeep & Hdb & Hafter & Hrent & Hin).
  rewrite Hblock in Hafter. injection Hafter as <-.
  destruct Hin as (Hu & Hd & _).
  (* a row that shares user and date with the saved one, under another
     key, is an "other session" of the save *)
  assert (forall k2 r2, k2 <> k -> sessions db !! k2 = Some r2 ->
            uid (user r2) = uid (user s) -> date r2 = date s ->
            carries_rent (to_row s') -> False) as Hother.
  { intros k2 r2 Hne H2 Hu2 Hd2 Hc.
    apply (carries_rent_to_row s' _ Hrent) in Hc.
    destruct (existing_sessions_exist db s) eqn:Hex; [now apply Hc|].
    apply not_true_iff_false in Hex. apply Hex.
    apply existing_sessions_exist_spec. exists k2, r2.
    repeat split; try assumption.
    intros Hs. apply Hne. symmetry. now apply Hkeep. }
  subst db'. intros k1 k2 r1 r2 H1 H2 Huser Hdate Hc1 Hc2. cbn in H1, H2.
  apply lookup_insert_Some in H1 as [[<- <-]|[Hne1 H1]];
    apply lookup_insert_Some in H2 as [[<- <-]|[Hne2 H2]].
  - reflexivity.
  - exfalso. apply (Hother k2 r2); try assumption; try congruence.
    + cbn in Huser. congruence.
    + cbn in Hdate. congruence.
  - exfalso. apply (Hother k1 r1); try assumption; try congruence.
    + cbn in Huser. congruence.
    + cbn in Hdate. congruence.
  - now apply (Hinv k1 k2 r1 r2).
Qed.

(** The invariant of the session table. *)
Lemma reachable_at_most_one_rent (db : DB) : reachable db -> at_most_one_rent db.
Proof.
  induction 1 as [ps|db db' s s' p _ IH Hp Hv Hsave|db k _ IH|db u p _ IH].
  - intros k1 k2 r1 r2 H1. cbn in H1. now rewrite lookup_empty in H1.
  - now apply (save_at_most_one_rent db db' s s' p).
  - intros k1 k2 r1 r2 H1 H2. cbn in H1, H2.
    apply lookup_delete_Some in H1 as [_ H1]. apply lookup_delete_Some in H2 as [_ H2].
    now apply IH.
  - exact IH.
Qed.

(** C1, as stated, fails.  A courier renting at 30.00 a day saves a
    morning shift (rent 30.00), an evening shift on the same date (rent
    0), and then saves the morning shift again: the evening shift now
    exists, the morning shift is given rent 0 as well, and no session of
    that date carries the rent. *)
Lemma rent_not_allocated_exactly_once : ~ rent_allocated_exactly_once.
Proof.
  intros H.
  assert (reachable renter_db_3) as Hreach.
  { apply (reach_save renter_db_2 renter_db_3 morning_saved
             (snd (run_save renter_db_2 morning_saved)) renter_profile);
      [|split; reflexivity|vm_compute; split; discriminate|vm_compute; reflexivity].
    apply (reach_save renter_db_1 renter_db_2 evening_shift
             (snd (run_save renter_db_1 evening_shift)) renter_profile);
      [|split; reflexivity|vm_compute; split; discriminate|vm_compute; reflexivity].
    apply (reach_save renter_db renter_db_1 morning_shift morning_saved renter_profile);
      [|split; reflexivity|vm_compute; split; discriminate|vm_compute; reflexivity].
    apply reach_init. }
  assert (exists row, sessions renter_db_3 !! 1%positive = Some row /\
                      uid (user row) = 1%nat /\ date row = mkDate 2026 11 3)
    as (row & Hrow & Hu & Hd).
  { eexists. split; [vm_compute; reflexivity|]. split; reflexivity. }
  destruct (H renter_db_3 Hreach 1%positive row Hrow) as [(k & r & Hk & _ & _ & Hc) _].
  assert (map_Forall (fun _ r => ~ carries_rent r) (sessions renter_db_3)) as Hnone.
  { apply (bool_decide_eq_true_1
             (map_Forall (fun _ r => ~ carries_rent r) (sessions renter_db_3))).
    vm_compute. reflexivity. }
  exact (Hnone k r Hk Hc).
Qed.

(** C1, amended.  In a reachable database, a session saved for a user
    with a profile is allocated the rent as follows.  The daily figure
    is the rent amount for a daily rent, the amount / 7 for a weekly one
    and the amount / (days of the session's month) for a monthly one.
    The saved session gets this figure when no other session of the user
    exists on its date (its own row apart), and zero when one does.  In
    the database after the save, as in every reachable one, at most one
    session per user and date carries a non-zero rent.  Nothing raises
    before the write: the save completes exactly when the database takes
    the row of the derived instance, and raises the error of the write
    otherwise. *)
Theorem rent_allocation (db : DB) (s : WorkSession) (p : UserProfile) :
  reachable db ->
  has_profile db (user s) p ->
  valid_month (date s) ->
  exists figure d,
    daily_cost (Loaded p) (date s) = Ok (Dec figure) /\
    (rent_frequency p = "daily"%string -> figure = rent_amount p) /\
    (rent_frequency p = "weekly"%string -> div (rent_amount p) d_7_0 = Some figure) /\
    (rent_frequency p = "monthly"%string ->
     exists n, days_in_month (year (date s)) (month (date s)) = Some n /\
               n = month_length (year (date s)) (month (date s)) /\
               div (rent_amount p) (of_int n) = Some figure) /\
    at_most_one_rent db /\
    derive db s = Ok d /\
    (other_session_exists db s -> vehicle_rent d = Dec d_0_00) /\
    (~ other_session_exists db s -> vehicle_rent d = Dec figure) /\
    (row_accepted d <-> exists db' s', save db s = Ok (db', s')) /\
    match save db s with
    | Ok (db', s') =>
        (other_session_exists db s -> vehicle_rent s' = Dec d_0_00) /\
        (~ other_session_exists db s -> vehicle_rent s' = Dec figure) /\
        at_most_one_rent db'
    | Raise e =>
        ~ row_accepted d /\
        (e = InvalidOperation \/ e = OverflowError \/ e = IntegrityError)
    end.
Proof.
  intros Hreach Hp Hv.
  destruct (rent_block_value db s p Hp Hv) as (figure & Hfig & Hblock).
  apply rent_after_Ok in Hblock.
  destruct (derive_result db s (if existing_sessions_exist db s then d_0_00 else figure))
    as (d & Hd & _ & Hrentd & _); [exact Hblock|].
  destruct (save_completes db s d Hd) as [Hiff Hraise].
  assert ((other_session_exists db s ->
           (if existing_sessions_exist db s then d_0_00 else figure) = d_0_00) /\
          (~ other_session_exists db s ->
           (if existing_sessions_exist db s then d_0_00 else figure) = figure))
    as [Hsome Hnone].
  { split.
    - intros Hex. apply existing_sessions_exist_spec in Hex. now rewrite Hex.
    - intros Hex. destruct (existing_sessions_exist db s) eqn:E; [|reflexivity].
      exfalso. apply Hex. now apply existing_sessions_exist_spec. }
  exists figure, d.
  split; [exact Hfig|].
  split; [|split; [|split]].
  - intros Hf. unfold daily_cost in Hfig. cbn [profile_row rent_amount_of] in Hfig.
    rewrite Hf in Hfig. cbn in Hfig. congruence.
  - intros Hf. unfold daily_cost in Hfig.
    cbn [profile_row rent_amount_of div_number] in Hfig. rewrite Hf in Hfig.
    cbn [String.eqb Ascii.eqb Bool.eqb] in Hfig.
    destruct (div (rent_amount p) d_7_0); cbn in Hfig; congruence.
  - intros Hf. unfold daily_cost in Hfig.
    cbn [profile_row rent_amount_of div_number] in Hfig. rewrite Hf in Hfig.
    cbn [String.eqb Ascii.eqb Bool.eqb] in Hfig.
    rewrite (days_in_month_is_month_length _ _ Hv) in *. cbn [or_raise bind] in Hfig.
    eexists. split; [reflexivity|]. split; [reflexivity|].
    destruct (div (rent_amount p) (of_int _)); cbn in Hfig; congruence.
  - split; [now apply reachable_at_most_one_rent|].
    split; [exact Hd|].
    split; [intros Hex; rewrite Hrentd; f_equal; now apply Hsome|].
    split; [intros Hex; rewrite Hrentd; f_equal; now apply Hnone|].
    split; [exact Hiff|].
    destruct (save db s) as [[db' s']|e] eqn:Hsave.
    + destruct (save_result db db' s s' Hsave)
        as (k & r & _ & _ & _ & _ & Hafter & Hrent & _).
      rewrite Hblock in Hafter. injection Hafter as <-.
      split; [intros Hex; rewrite Hrent; f_equal; now apply Hsome|].
      split; [intros Hex; rewrite Hrent; f_equal; now apply Hnone|].
      apply reachable_at_most_one_rent.
      now apply (reach_save db db' s s' p).
    + now apply Hraise.
Qed.

Lemma rent_allocation_witness :
  exists figure,
    daily_cost (Loaded renter_profile) (date morning_shift) = Ok (Dec figure) /\
    figure = rent_amount renter_profile /\
    save renter_db morning_shift = Ok (renter_db_1, morning_saved) /\
    vehicle_rent morning_saved = Dec figure /\
    at_most_one_rent renter_db /\
    at_most_one_rent renter_db_1.
Proof.
  destruct (rent_allocation renter_db morning_shift renter_profile)
    as (figure & d & Hfig & Hdaily & _ & _ & Hinv & _ & _ & _ & _ & Hsave).
  - apply reach_init.
  - split; reflexivity.
  - unfold valid_month. cbn. lia.
  - change (save renter_db morning_shift) with (Ok (renter_db_1, morning_saved)) in Hsave.
    destruct Hsave as (_ & Hrent & Hinv').
    exists figure. split; [exact Hfig|]. split; [now apply Hdaily|].
    split; [reflexivity|]. split; [|split; assumption].
    apply Hrent. intros Hex. apply existing_sessions_exist_spec in Hex. discriminate Hex.
Defined.

(** The three saves of the courier renting at 30.00 a day: the morning
    shift carries the rent, the evening shift none, and after the
    morning shift is saved again no row of the date carries it. *)
Example rent_of_the_three_saves :
  vehicle_rent <$> sessions renter_db_1 !! 1%positive = Some (Dec (mkDecimal 3000 (-2))) /\
  vehicle_rent <$> sessions renter_db_2 !! 1%positive = Some (Dec (mkDecimal 3000 (-2))) /\
  vehicle_rent <$> sessions renter_db_2 !! 2%positive = Some (Dec d_0_00) /\
  vehicle_rent <$> sessions renter_db_3 !! 1%positive = Some (Dec d_0_00) /\
  vehicle_rent <$> sessions renter_db_3 !! 2%positive = Some (Dec d_0_00).
Proof. vm_compute. repeat split. Qed.

(** ** The dashboard: when [get] answers *)

#[global] Instance recent_first_total : Total Views.recent_first.
Proof. intros a b. unfold Views.recent_first. lia. Qed.

#[global] Instance recent_first_trans : Transitive Views.recent_first.
Proof. intros a b c. unfold Views.recent_first. lia. Qed.

(** The period filter raises only for a week that ends after
    [date.max]. *)
Lemma filter_period_Raise (period : string) (today : Cal.date)
    (qs : list WorkSession) (e : exn) :
  Views.filter_period period today qs = Raise e ->
  e = OverflowError /\ period = "week"%string /\
  ~ (1 <= toordinal today - weekday today /\
     toordinal today - weekday today + 6 <= MAXORDINAL).
Proof.
  unfold Views.filter_period.
  destruct (period =? "today")%string; [discriminate|].
  destruct (period =? "week")%string eqn:Hw.
  - apply String.eqb_eq in Hw.
    destruct (_ && _) eqn:Hb; [discriminate|].
    intros [= <-]. repeat split; [exact Hw|].
    intros [H1 H2]. apply Z.leb_le in H1, H2. rewrite H1, H2 in Hb. discriminate.
  - destruct (period =? "month")%string; discriminate.
Qed.

Lemma filter_period_sub (period : string) (today : Cal.date)
    (qs queryset : list WorkSession) :
  Views.filter_period period today qs = Ok queryset ->
  queryset ⊆ qs /\ (length queryset <= length qs)%nat.
Proof.
  unfold Views.filter_period.
  destruct (period =? "today")%string.
  { intros [= <-]. split; [apply list_subseteq_filter|apply length_filter]. }
  destruct (period =? "week")%string.
  { destruct (_ && _); [|discriminate].
    intros [= <-]. split; [apply list_subseteq_filter|apply length_filter]. }
  destruct (period =? "month")%string.
  { intros [= <-]. split; [apply list_subseteq_filter|apply length_filter]. }
  intros [= <-]. split; [reflexivity|lia].
Qed.

(** [get] answers whenever the period filter does, and its answer is the
    record built from the selection. *)
Lemma get_Ok_inv (backend : Views.aggregates) (db : DB) (u : User) (period : option string)
    (local_date : option Cal.date) (server_today : Cal.date) (data : Views.dashboard_data) :
  Views.get backend db u period local_date server_today = Ok data ->
  exists queryset,
    Views.filter_period (default "today"%string period)
      (default server_today local_date) (Views.filter_user db u) = Ok queryset /\
    Views.total_costs data =
      add (add (add (add (Views.or_Decimal_0 (Views.SUM backend (fuel_cost <$> queryset)))
                         (Views.or_Decimal_0
                            (Views.SUM backend (Views.vehicle_rent_column <$> queryset))))
                    (Views.or_Decimal_0 (Views.SUM backend (depreciation_cost <$> queryset))))
               (Views.or_Decimal_0 (Views.SUM backend (other_expenses <$> queryset))))
          (Views.or_Decimal_0 (Views.SUM backend (platform_fees <$> queryset))) /\
    Views.recent_sessions data =
      take 5 (merge_sort Views.recent_first (Views.filter_user db u)).
Proof.
  unfold Views.get.
  destruct (Views.filter_period _ _ _) as [queryset|e]; cbn [bind]; [|discriminate].
  destruct (is_pos _).
  - destruct (div _ _); cbn [or_raise bind]; [|discriminate].
    intros [= <-]. exists queryset. repeat split.
  - cbn [bind]. intros [= <-]. exists queryset. repeat split.
Qed.

Lemma get_Raise (backend : Views.aggregates) (db : DB) (u : User) (period : option string)
    (local_date : option Cal.date) (server_today : Cal.date) (e : exn) :
  Views.get backend db u period local_date server_today = Raise e ->
  Views.filter_period (default "today"%string period)
    (default server_today local_date) (Views.filter_user db u) = Raise e.
Proof.
  unfold Views.get.
  destruct (Views.filter_period _ _ _) as [queryset|e']; cbn [bind]; [|congruence].
  destruct (is_pos _) eqn:Hpos.
  - match goal with |- context [div ?a ?b] => destruct (div_Some a b) as [q ->] end.
    + unfold is_pos in Hpos. apply Z.ltb_lt in Hpos. lia.
    + cbn. discriminate.
  - cbn. discriminate.
Qed.

(** ** C10: the recent sessions *)

(** In a sorted list, an entry is related to every entry that comes
    later. *)
Lemma StronglySorted_lookup {A : Type} (R : relation A) (l : list A) :
  StronglySorted R l ->
  forall i j a b, (i < j)%nat -> l !! i = Some a -> l !! j = Some b -> R a b.
Proof.
  induction 1 as [|x l _ IH Hx]; intros i j a b Hij Ha Hb.
  - now rewrite lookup_nil in Ha.
  - destruct j as [|j]; [lia|]. cbn in Hb. destruct i as [|i].
    + cbn in Ha. injection Ha as <-.
      apply list_elem_of_lookup_2 in Hb.
      rewrite Forall_forall in Hx. now apply Hx.
    + cbn in Ha. apply (IH i j a b); [lia|assumption|assumption].
Qed.



(** Three shifts of one user, two of them on the same date: the later
    date comes first, and of the two the later start. *)
Example recent_sessions_of_three :
  exists data,
    Views.get Views.numeric three_shifts_db (mkUser 1 false) None None (mkDate 2026 11 4)
    = Ok data /\
    (fun s => (date s, start_time s)) <$> Views.recent_sessions data
    = [(mkDate 2026 11 4, Some (mkTime 9 0 0 0));
       (mkDate 2026 11 3, Some (mkTime 18 0 0 0));
       (mkDate 2026 11 3, Some (mkTime 8 0 0 0))].
Proof. eexists. split; vm_compute; reflexivity. Qed.

(** ** C7: the report-level total of costs *)













Lemma numeric_is_numeric : numeric_engine Views.numeric.
Proof. split; reflexivity. Qed.


(** On a shift with fuel 8.00, rent 10.00 (70.00 a week) and an
    application fee of 2.50 (5 % of 50.00), the report shows costs of
    18.00: the fee is in the net profit of the session and not in the
    total. *)
Example total_costs_leaves_application_fee_out :
  exists data row,
    Views.get Views.numeric fleet_db_1 (mkUser 1 false) (Some "all"%string) None
      (mkDate 2026 11 4)
    = Ok data /\
    sessions fleet_db_1 !! 1%positive = Some row /\
    fuel_cost row = mkDecimal 800 (-2) /\
    vehicle_rent row = Dec (mkDecimal 1000 (-2)) /\
    application_fee row = mkDecimal 250 (-2) /\
    Views.total_costs data = mkDecimal 1800 (-2).
Proof. do 2 eexists. vm_compute. repeat split. Qed.

(** ** Rounding *)

(** [round_half_even num den] is within half a unit of [num / den]. *)
Lemma round_half_even_error (num den : Z) :
  0 < den -> 2 * Z.abs (round_half_even num den * den - num) <= den.
Proof.
  intros Hden. unfold round_half_even.
  pose proof (Z.div_mod num den ltac:(lia)) as Hdm.
  pose proof (Z.mod_pos_bound num den Hden) as Hr.
  destruct (2 * (num mod den) <? den) eqn:H1.
  - apply Z.ltb_lt in H1. nia.
  - apply Z.ltb_ge in H1.
    destruct (den <? 2 * (num mod den)) eqn:H2.
    + apply Z.ltb_lt in H2. nia.
    + apply Z.ltb_ge in H2. destruct (Z.even (num / den)); nia.
Qed.

Lemma round_half_even_lower (num den lo : Z) :
  0 < den -> lo * den <= num -> lo <= round_half_even num den.
Proof.
  intros Hden Hlo. unfold round_half_even.
  assert (lo <= num / den) by (apply Z.div_le_lower_bound; lia).
  destruct (_ <? _); [lia|]. destruct (_ <? _); [lia|]. destruct (Z.even _); lia.
Qed.

Lemma round_half_even_upper (num den hi : Z) :
  0 < den -> num <= hi * den -> round_half_even num den <= hi.
Proof.
  intros Hden Hhi.
  pose proof (round_half_even_error num den Hden) as He.
  destruct (Z_le_gt_dec (round_half_even num den) hi) as [|Hgt]; [assumption|].
  exfalso. nia.
Qed.

(** ** The two float divisions of the duration *)

Lemma div_lt_inv (a b c : Z) : 0 < b -> a / b < c -> a < c * b.
Proof.
  intros Hb H. pose proof (Z.div_mod a b ltac:(lia)).
  pose proof (Z.mod_pos_bound a b Hb). nia.
Qed.

Lemma div_ge_inv (a b c : Z) : 0 < b -> c <= a / b -> c * b <= a.
Proof.
  intros Hb H. pose proof (Z.div_mod a b ltac:(lia)).
  pose proof (Z.mod_pos_bound a b Hb). nia.
Qed.

(** A quotient below [2 ^ 52] is rounded to a significand between
    [2 ^ 52] and [2 ^ 53] over a power of two, with a relative error of
    at most [2 ^ -53]. *)
Lemma rn_div_spec (p q : Z) :
  0 < p -> 0 < q -> Z.log2 p + 1 < Z.log2 q + 53 ->
  exists k,
    Flt.fexp (Flt.rn_div p q) = - k /\ 0 < k /\
    2 ^ 52 <= Flt.mant (Flt.rn_div p q) <= 2 ^ 53 /\
    2 ^ 53 * Z.abs (Flt.mant (Flt.rn_div p q) * q - p * 2 ^ k) <= p * 2 ^ k.
Proof.
  intros Hp Hq He. unfold Flt.rn_div.
  destruct (p =? 0) eqn:Hp0; [apply Z.eqb_eq in Hp0; lia|].
  set (e0 := Z.log2 p - Z.log2 q - 53).
  assert (e0 < -1) as He0 by (subst e0; lia).
  destruct (0 <=? e0) eqn:Hs; [apply Z.leb_le in Hs; lia|].
  set (K := - e0). assert (2 <= K) as HK by (subst K; lia).
  destruct (Z.log2_spec p Hp) as [Hp1 Hp2].
  destruct (Z.log2_spec q Hq) as [Hq1 Hq2].
  pose proof (Z.log2_nonneg p) as Ha. pose proof (Z.log2_nonneg q) as Hb.
  assert (2 ^ Z.log2 p * 2 ^ K = 2 ^ 53 * 2 ^ Z.log2 q) as Hpow.
  { rewrite <- !Z.pow_add_r by lia. f_equal. subst K e0. lia. }
  rewrite Z.pow_succ_r in Hp2, Hq2 by lia.
  assert (0 < 2 ^ K) as HW by (apply Z.pow_pos_nonneg; lia).
  assert (0 < 2 ^ Z.log2 p) as HA by (apply Z.pow_pos_nonneg; lia).
  assert (0 < 2 ^ Z.log2 q) as HB by (apply Z.pow_pos_nonneg; lia).
  set (num := p * 2 ^ K) in *.
  assert (2 ^ 52 * q < num) as Hlo by (subst num; nia).
  assert (num < 2 ^ 54 * q) as Hhi by (subst num; nia).
  destruct (num / q <? 2 ^ 53) eqn:Hbr; cbn [Flt.mant Flt.fexp].
  - apply Z.ltb_lt in Hbr. apply div_lt_inv in Hbr; [|exact Hq].
    exists K. split; [subst K; lia|]. split; [lia|].
    pose proof (round_half_even_error num q Hq) as Herr.
    split; [split|].
    + apply round_half_even_lower; lia.
    + apply round_half_even_upper; lia.
    + fold num. lia.
  - apply Z.ltb_ge in Hbr. apply div_ge_inv in Hbr; [|exact Hq].
    exists (K - 1). split; [subst K; lia|]. split; [lia|].
    pose proof (round_half_even_error num (2 * q) ltac:(lia)) as Herr.
    assert (num = 2 * (p * 2 ^ (K - 1))) as Hnum.
    { subst num. replace K with (Z.succ (K - 1)) at 1 by lia.
      rewrite Z.pow_succ_r by lia. lia. }
    split; [split|].
    + apply round_half_even_lower; lia.
    + apply round_half_even_upper; lia.
    + lia.
Qed.

Lemma strip_twos_spec (n : nat) (m e m' e' : Z) :
  Z.of_nat n <= - e ->
  Flt.strip_twos n m e = (m', e') ->
  e <= e' <= 0 /\ m = m' * 2 ^ (e' - e).
Proof.
  revert m e. induction n as [|n IH]; intros m e Hn; cbn [Flt.strip_twos].
  - intros [= <- <-]. rewrite Z.sub_diag. cbn. lia.
  - destruct (Z.even m) eqn:Hev.
    + intros Hs. apply IH in Hs as [He Hm]; [|lia].
      split; [lia|].
      replace (e' - e) with (Z.succ (e' - (e + 1))) by lia.
      rewrite Z.pow_succ_r by lia.
      apply Zeven_bool_iff, Zeven_div2 in Hev. rewrite Zdiv2_div in Hev. nia.
    + intros [= <- <-]. rewrite Z.sub_diag. cbn. lia.
Qed.

(** [Decimal(f)] is exact: for [f = m / 2 ^ k] it is [c / 10 ^ j] with
    [c * 2 ^ k = m * 10 ^ j]. *)
Lemma to_decimal_spec (f : Flt.float) (k : Z) :
  Flt.fexp f = - k -> 0 < k ->
  exists c j,
    Flt.to_decimal f = mkDecimal c (- j) /\ 0 <= j <= k /\
    c * 2 ^ k = Flt.mant f * 10 ^ j.
Proof.
  intros He Hk. unfold Flt.to_decimal, Flt.as_integer_ratio. rewrite He.
  destruct (0 <=? - k) eqn:Hs; [apply Z.leb_le in Hs; lia|].
  rewrite Z.opp_involutive.
  destruct (Flt.strip_twos (Z.to_nat k) (Flt.mant f) (- k)) as [m' e'] eqn:Hstrip.
  apply strip_twos_spec in Hstrip as [He' Hm]; [|lia].
  exists (m' * 5 ^ (- e')), (- e').
  rewrite Z.log2_pow2 by lia.
  split; [reflexivity|]. split; [lia|].
  rewrite Hm. replace (e' - - k) with (k - - e') by lia.
  change 10 with (2 * 5). rewrite Z.pow_mul_l.
  replace (2 ^ k) with (2 ^ (k - - e') * 2 ^ (- e')).
  - ring.
  - rewrite <- Z.pow_add_r by lia. f_equal. lia.
Qed.

(** The duration in memory, for a shift of [diff] microseconds
    ([0 < diff < 24 h]): a decimal [c / 10 ^ j] within [10 ^ -12] of
    [diff / 3.6e9] hours. *)
Lemma duration_error (diff : Z) :
  0 < diff < day_us ->
  exists c j,
    Flt.to_decimal (Flt.div_int (Flt.rn_div diff 1000000) 3600) = mkDecimal c (- j) /\
    0 <= j /\
    10 ^ 12 * Z.abs (c * 3600000000 - diff * 10 ^ j) <= 3600000000 * 10 ^ j.
Proof.
  intros [Hd1 Hd2]. unfold day_us in Hd2.
  (* first division: diff / 10**6 *)
  destruct (rn_div_spec diff 1000000) as (k1 & Hk1 & Hk1pos & [Hm1lo Hm1hi] & Herr1);
    [lia|lia| |].
  { assert (Z.log2 diff < 37) by (apply Z.log2_lt_pow2; lia).
    change (Z.log2 1000000) with 19. lia. }
  set (f1 := Flt.rn_div diff 1000000) in *.
  set (m1 := Flt.mant f1) in *.
  assert (0 < 2 ^ k1) as HP1 by (apply Z.pow_pos_nonneg; lia).
  (* second division: f1 / 3600 *)
  unfold Flt.div_int. rewrite Hk1.
  destruct (0 <=? - k1) eqn:Hs; [apply Z.leb_le in Hs; lia|].
  rewrite Z.opp_involutive. fold m1.
  destruct (rn_div_spec m1 (3600 * 2 ^ k1)) as (k2 & Hk2 & Hk2pos & [Hm2lo Hm2hi] & Herr2);
    [lia|lia| |].
  { assert (Z.log2 m1 < 54) by (apply Z.log2_lt_pow2; lia).
    assert (12 <= Z.log2 (3600 * 2 ^ k1)).
    { apply Z.log2_le_pow2; [lia|].
      replace 12 with (Z.succ 11) by lia. rewrite Z.pow_succ_r by lia.
      assert (2 <= 2 ^ k1).
      { replace k1 with (Z.succ (k1 - 1)) by lia. rewrite Z.pow_succ_r by lia.
        assert (0 < 2 ^ (k1 - 1)) by (apply Z.pow_pos_nonneg; lia). lia. }
      change (2 ^ 11) with 2048. lia. }
    lia. }
  set (f2 := Flt.rn_div m1 (3600 * 2 ^ k1)) in *.
  set (m2 := Flt.mant f2) in *.
  assert (0 < 2 ^ k2) as HP2 by (apply Z.pow_pos_nonneg; lia).
  destruct (to_decimal_spec f2 k2 Hk2 Hk2pos) as (c & j & Hdec & [Hj _] & Hval).
  fold m2 in Hval.
  exists c, j. split; [exact Hdec|]. split; [exact Hj|].
  assert (0 < 10 ^ j) as HPj by (apply Z.pow_pos_nonneg; lia).
  set (P1 := 2 ^ k1) in *. set (P2 := 2 ^ k2) in *. set (Pj := 10 ^ j) in *.
  (* the errors of the two divisions, combined *)
  set (E1 := m1 * 1000000 - diff * P1) in *.
  set (E2 := m2 * (3600 * P1) - m1 * P2) in *.
  set (Tg := m2 * 3600000000 - diff * P2).
  assert (Tg * P1 = 1000000 * E2 + P2 * E1) as Hid by (subst Tg E1 E2; ring).
  assert (2 ^ 53 * (m1 * 1000000) <= (2 ^ 53 + 1) * (diff * P1)) as S1
    by (subst E1; lia).
  assert (2 ^ 53 * Z.abs E2 * (2 ^ 53 * 1000000) <= m1 * P2 * (2 ^ 53 * 1000000)) as S2a
    by (apply Z.mul_le_mono_nonneg_r; lia).
  assert (2 ^ 53 * (m1 * 1000000) * P2 <= (2 ^ 53 + 1) * (diff * P1) * P2) as S2b
    by (apply Z.mul_le_mono_nonneg_r; lia).
  assert (2 ^ 53 * Z.abs E1 * P2 <= diff * P1 * P2) as S3
    by (apply Z.mul_le_mono_nonneg_r; lia).
  assert (Z.abs (Tg * P1) <= 1000000 * Z.abs E2 + P2 * Z.abs E1) as S4.
  { rewrite Hid.
    etransitivity; [apply Z.abs_triangle|].
    rewrite !Z.abs_mul. rewrite (Z.abs_eq 1000000), (Z.abs_eq P2) by lia. lia. }
  rewrite Z.abs_mul, (Z.abs_eq P1) in S4 by lia.
  assert (2 ^ 106 * Z.abs Tg * P1 <= (2 ^ 54 + 1) * (diff * P2) * P1) as S5.
  { change (2 ^ 106) with (2 ^ 53 * 2 ^ 53).
    change (2 ^ 54 + 1) with (2 ^ 53 + 1 + 2 ^ 53).
    transitivity (2 ^ 53 * 2 ^ 53 * (1000000 * Z.abs E2 + P2 * Z.abs E1)).
    - rewrite <- Z.mul_assoc. apply Z.mul_le_mono_nonneg_l; [lia|exact S4].
    - transitivity ((2 ^ 53 + 1) * (diff * P1) * P2 + 2 ^ 53 * (diff * P1 * P2)).
      + apply Z.le_trans with
          (2 ^ 53 * Z.abs E2 * (2 ^ 53 * 1000000) + 2 ^ 53 * (2 ^ 53 * Z.abs E1 * P2)).
        * apply Z.eq_le_incl. ring.
        * apply Z.add_le_mono.
          -- etransitivity; [exact S2a|].
             etransitivity; [|exact S2b]. apply Z.eq_le_incl. ring.
          -- apply Z.mul_le_mono_nonneg_l; [lia|exact S3].
      + apply Z.eq_le_incl. ring. }
  apply Z.mul_le_mono_pos_r in S5; [|exact HP1].
  assert (diff * P2 <= 86400000000 * P2) as S6 by (apply Z.mul_le_mono_nonneg_r; lia).
  assert (10 ^ 12 * Z.abs Tg <= 3600000000 * P2) as S7.
  { change (2 ^ 106) with 81129638414606681695789005144064 in S5.
    change (2 ^ 54 + 1) with 18014398509481985 in S5.
    change (10 ^ 12) with 1000000000000. lia. }
  (* from the float to the decimal *)
  apply (Z.mul_le_mono_pos_r _ _ P2 HP2).
  replace (10 ^ 12 * Z.abs (c * 3600000000 - diff * Pj) * P2)
    with (10 ^ 12 * Z.abs Tg * Pj).
  - transitivity (3600000000 * P2 * Pj).
    + apply Z.mul_le_mono_nonneg_r; [lia|exact S7].
    + apply Z.eq_le_incl. ring.
  - rewrite <- !Z.mul_assoc. f_equal.
    rewrite <- (Z.abs_eq Pj), <- (Z.abs_eq P2) at 1 by lia.
    rewrite <- !Z.abs_mul. f_equal. subst Tg.
    transitivity (m2 * Pj * 3600000000 - diff * P2 * Pj); [ring|].
    rewrite <- Hval. ring.
Qed.

(** The same for every shift of less than a day, the empty one
    included. *)
Lemma duration_spec (diff : Z) :
  0 <= diff < day_us ->
  exists c j,
    Flt.to_decimal (Flt.div_int (Flt.rn_div diff 1000000) 3600) = mkDecimal c (- j) /\
    0 <= j /\
    10 ^ 12 * Z.abs (c * 3600000000 - diff * 10 ^ j) <= 3600000000 * 10 ^ j.
Proof.
  intros [H0 H1]. destruct (Z.eq_dec diff 0) as [->|Hne].
  - exists 0, 0. split; [reflexivity|]. split; [lia|]. cbn. lia.
  - apply duration_error. lia.
Qed.

(** ** From integers to rational numbers *)

Lemma to_Q_close (c j diff : Z) (eps : positive) :
  0 <= j ->
  Z.pos eps * Z.abs (c * 3600000000 - diff * 10 ^ j) <= 3600000000 * 10 ^ j ->
  (Qabs (to_Q (mkDecimal c (- j)) - (diff # 3600000000)) <= 1 # eps)%Q.
Proof.
  intros Hj H. unfold to_Q. cbn [expo coeff].
  assert (0 < 10 ^ j) as HP by (apply Z.pow_pos_nonneg; lia).
  destruct (0 <=? - j) eqn:Hs.
  - apply Z.leb_le in Hs. assert (j = 0) as -> by lia.
    cbn in H |- *. unfold Qle. cbn [Qabs Qminus Qplus Qopp inject_Z Qnum Qden].
    cbn. lia.
  - rewrite Z.opp_involutive.
    unfold Qle, Qabs, Qminus, Qplus, Qopp. cbn [Qnum Qden].
    rewrite Pos2Z.inj_mul, Z2Pos.id by lia.
    replace (c * 3600000000 + - diff * 10 ^ j) with (c * 3600000000 - diff * 10 ^ j) by lia.
    lia.
Qed.

(** ** The duration as the column keeps it *)

Lemma quantize2_close (c j diff : Z) :
  0 <= j ->
  10 ^ 12 * Z.abs (c * 3600000000 - diff * 10 ^ j) <= 3600000000 * 10 ^ j ->
  exists c',
    quantize2 (mkDecimal c (- j)) = mkDecimal c' (-2) /\
    Z.abs (c' * 36000000 - diff) <= 18000000.
Proof.
  intros Hj H. unfold quantize2. cbn [expo coeff].
  destruct (- j <=? -2) eqn:Hs.
  - apply Z.leb_le in Hs.
    set (M := 10 ^ (-2 - - j)).
    assert (0 < M) as HM by (apply Z.pow_pos_nonneg; lia).
    assert (10 ^ j = 100 * M) as Hpow.
    { subst M. change 100 with (10 ^ 2). rewrite <- Z.pow_add_r by lia. f_equal. lia. }
    pose proof (round_half_even_error c M HM) as Herr.
    set (c' := round_half_even c M) in *.
    exists c'. split; [reflexivity|].
    rewrite Hpow in H.
    assert (Z.abs (c' * 36000000 - diff) * (100 * M)
            <= 3600000000 * Z.abs (c' * M - c) + Z.abs (c * 3600000000 - diff * (100 * M)))
      as Htri.
    { rewrite <- (Z.abs_eq (100 * M)) at 1 by lia. rewrite <- Z.abs_mul.
      replace ((c' * 36000000 - diff) * (100 * M))
        with (3600000000 * (c' * M - c) + (c * 3600000000 - diff * (100 * M))) by ring.
      etransitivity; [apply Z.abs_triangle|].
      rewrite Z.abs_mul. change (Z.abs 3600000000) with 3600000000. lia. }
    assert (10 ^ 12 * (Z.abs (c' * 36000000 - diff) * 100) * M
            <= (10 ^ 12 * 1800000000 + 3600000000 * 100) * M) as Hb by nia.
    apply Z.mul_le_mono_pos_r in Hb; [|exact HM]. lia.
  - apply Z.leb_gt in Hs.
    assert (0 < 10 ^ j) as HP by (apply Z.pow_pos_nonneg; lia).
    exists (c * 10 ^ (- j + 2)). split; [reflexivity|].
    assert (10 ^ (- j + 2) * 10 ^ j = 100) as Hpow.
    { rewrite <- Z.pow_add_r by lia. replace (- j + 2 + j) with 2 by lia. reflexivity. }
    assert (Z.abs (c * 10 ^ (- j + 2) * 36000000 - diff) * 10 ^ j
            = Z.abs (c * 3600000000 - diff * 10 ^ j)) as Heq.
    { rewrite <- (Z.abs_eq (10 ^ j)) at 1 by lia. rewrite <- Z.abs_mul. f_equal.
      transitivity (c * 36000000 * (10 ^ (- j + 2) * 10 ^ j) - diff * 10 ^ j); [ring|].
      rewrite Hpow. ring. }
    assert (10 ^ 12 * Z.abs (c * 10 ^ (- j + 2) * 36000000 - diff) * 10 ^ j
            <= 3600000000 * 10 ^ j) as Hb.
    { rewrite <- Z.mul_assoc, Heq. exact H. }
    apply Z.mul_le_mono_pos_r in Hb; [|exact HP]. lia.
Qed.

(** Any hundredth that is nearest to the value in memory, however ties
    are broken, is within half a hundredth of the exact length. *)
Lemma nearest_close (c j diff c' : Z) :
  0 <= j ->
  10 ^ 12 * Z.abs (c * 3600000000 - diff * 10 ^ j) <= 3600000000 * 10 ^ j ->
  2 * Z.abs (c' * 10 ^ j - 100 * c) <= 10 ^ j ->
  Z.abs (c' * 36000000 - diff) <= 18000000.
Proof.
  intros Hj H Hn.
  assert (0 < 10 ^ j) as HP by (apply Z.pow_pos_nonneg; lia).
  set (P := 10 ^ j) in *.
  assert (Z.abs (c' * 36000000 - diff) * (100 * P)
          <= 3600000000 * Z.abs (c' * P - 100 * c)
             + 100 * Z.abs (c * 3600000000 - diff * P)) as Htri.
  { rewrite <- (Z.abs_eq (100 * P)) at 1 by lia. rewrite <- Z.abs_mul.
    replace ((c' * 36000000 - diff) * (100 * P))
      with (3600000000 * (c' * P - 100 * c) + 100 * (c * 3600000000 - diff * P)) by ring.
    etransitivity; [apply Z.abs_triangle|].
    rewrite !Z.abs_mul. change (Z.abs 3600000000) with 3600000000.
    change (Z.abs 100) with 100. lia. }
  assert (10 ^ 12 * (Z.abs (c' * 36000000 - diff) * 100) * P
          <= (10 ^ 12 * 1800000000 + 3600000000 * 100) * P) as Hb.
  { change (10 ^ 12) with 1000000000000 in *. lia. }
  apply Z.mul_le_mono_pos_r in Hb; [|exact HP].
  change (10 ^ 12) with 1000000000000 in *. lia.
Qed.

Lemma Qabs_cents_close (c c' j : Z) :
  0 <= j ->
  (Qabs ((c' # 100) - to_Q (mkDecimal c (- j))) <= 1 # 200)%Q ->
  2 * Z.abs (c' * 10 ^ j - 100 * c) <= 10 ^ j.
Proof.
  intros Hj. unfold to_Q. cbn [expo coeff].
  assert (0 < 10 ^ j) as HP by (apply Z.pow_pos_nonneg; lia).
  destruct (0 <=? - j) eqn:Hs.
  - apply Z.leb_le in Hs. assert (j = 0) as -> by lia.
    unfold Qle. cbn [Qabs Qminus Qplus Qopp inject_Z Qnum Qden]. cbn. lia.
  - rewrite Z.opp_involutive.
    unfold Qle, Qabs, Qminus, Qplus, Qopp. cbn [Qnum Qden].
    rewrite Pos2Z.inj_mul, Z2Pos.id by lia.
    replace (c' * 10 ^ j + - c * 100) with (c' * 10 ^ j - 100 * c) by lia.
    change (Z.pos 100) with 100. change (Z.pos 200) with 200. lia.
Qed.

Lemma time_us_range (t : time) : valid_time t -> 0 <= time_us t < day_us.
Proof. unfold valid_time, time_us, day_us. lia. Qed.

(** ** C3: the duration *)

Lemma compute_duration_diff (s : WorkSession) (st en : time) :
  start_time s = Some st -> end_time s = Some en ->
  exists diff,
    exact_hours st en = diff # 3600000000 /\
    (valid_time st -> valid_time en -> 0 <= diff < day_us) /\
    compute_duration s
    = Some (Flt.to_decimal (Flt.div_int (Flt.rn_div diff 1000000) 3600)).
Proof.
  intros Hst Hen. unfold compute_duration, exact_hours. rewrite Hst, Hen.
  destruct (time_us en <? time_us st) eqn:Hlt.
  - eexists. split; [reflexivity|]. split; [|reflexivity].
    intros H1%time_us_range H2%time_us_range. apply Z.ltb_lt in Hlt. lia.
  - eexists. split; [reflexivity|]. split; [|reflexivity].
    intros H1%time_us_range H2%time_us_range. apply Z.ltb_ge in Hlt. lia.
Qed.

(** C3.  When a session with start and end time is saved, its
    [duration_hours] is the length of the shift in hours (end minus
    start, the end moved to the next day when it is earlier than the
    start) to two decimal places: the value on the instance is within
    [10 ^ -12] of it; the two-decimal value of the row is within half a
    hundredth of it, as is every hundredth nearest to the value on the
    instance, whichever way a database breaks ties; the row equals the
    length whenever that is a whole number of hundredths of an hour; and
    from 23:00 to 01:00 the duration is 2. *)
Theorem duration_two_decimals (db db' : DB) (s s' : WorkSession) (st en : time) :
  save db s = Ok (db', s') ->
  start_time s = Some st -> end_time s = Some en ->
  valid_time st -> valid_time en ->
  exists d,
    duration_hours s' = Some d /\
    duration_hours (to_row s') = Some (quantize2 d) /\
    (Qabs (to_Q d - exact_hours st en) <= 1 # 1000000000000)%Q /\
    (Qabs (to_Q (quantize2 d) - exact_hours st en) <= 1 # 200)%Q /\
    (forall c', (Qabs ((c' # 100) - to_Q d) <= 1 # 200)%Q ->
                (Qabs ((c' # 100) - exact_hours st en) <= 1 # 200)%Q) /\
    (forall c, (exact_hours st en == c # 100)%Q -> quantize2 d = mkDecimal c (-2)) /\
    (st = mkTime 23 0 0 0 -> en = mkTime 1 0 0 0 -> d = of_int 2).
Proof.
  intros Hsave Hst Hen Hvst Hven.
  apply save_Ok_inv in Hsave as (d0 & Hd & Hp).
  apply persist_instance in Hp as (k & -> & _).
  derive_inv Hd. clear Hk Hk0 Hk1.
  cbn [set_pk to_row duration_hours].
  destruct (compute_duration_diff s st en Hst Hen) as (diff & Hexact & Hrange & Hdur).
  specialize (Hrange Hvst Hven).
  destruct (duration_spec diff Hrange) as (c & j & Hdec & Hj & Hclose).
  rewrite Hdur, Hdec, Hexact.
  exists (mkDecimal c (- j)). split; [reflexivity|]. split; [reflexivity|].
  destruct (quantize2_close c j diff Hj Hclose) as (c' & Hq & Hc').
  split; [|split; [|split; [|split]]].
  - apply to_Q_close; [exact Hj|]. exact Hclose.
  - rewrite Hq. apply (to_Q_close c' 2 diff 200); lia.
  - intros c1 Hnear. apply Qabs_cents_close in Hnear; [|exact Hj].
    pose proof (nearest_close c j diff c1 Hj Hclose Hnear) as Hc1.
    apply (to_Q_close c1 2 diff 200); lia.
  - intros c0 Heq. rewrite Hq. f_equal.
    unfold Qeq in Heq. cbn [Qnum Qden] in Heq. lia.
  - intros -> ->. vm_compute in Hexact. injection Hexact as <-.
    rewrite <- Hdec. vm_compute. reflexivity.
Qed.

Lemma duration_two_decimals_witness :
  exists d,
    duration_hours (snd (run_save test_db night_shift)) = Some d /\
    duration_hours (to_row (snd (run_save test_db night_shift))) = Some (quantize2 d) /\
    (Qabs (to_Q d - exact_hours (mkTime 23 0 0 0) (mkTime 1 0 0 0))
     <= 1 # 1000000000000)%Q /\
    (Qabs (to_Q (quantize2 d) - exact_hours (mkTime 23 0 0 0) (mkTime 1 0 0 0))
     <= 1 # 200)%Q /\
    (forall c', (Qabs ((c' # 100) - to_Q d) <= 1 # 200)%Q ->
                (Qabs ((c' # 100) - exact_hours (mkTime 23 0 0 0) (mkTime 1 0 0 0))
                 <= 1 # 200)%Q) /\
    (forall c, (exact_hours (mkTime 23 0 0 0) (mkTime 1 0 0 0) == c # 100)%Q ->
               quantize2 d = mkDecimal c (-2)) /\
    (mkTime 23 0 0 0 = mkTime 23 0 0 0 -> mkTime 1 0 0 0 = mkTime 1 0 0 0 ->
     d = of_int 2).
Proof.
  apply (duration_two_decimals test_db (fst (run_save test_db night_shift)) night_shift
           (snd (run_save test_db night_shift)) (mkTime 23 0 0 0) (mkTime 1 0 0 0)).
  - vm_compute. reflexivity.
  - reflexivity.
  - reflexivity.
  - unfold valid_time. cbn. lia.
  - unfold valid_time. cbn. lia.
Defined.

(* ===================================================================== *)
(** * Further properties of the code *)
(* ===================================================================== *)

(** ** [WorkSession.save]: the application fee *)

Lemma div_by_100_0 (a : Decimal) : exists q, div a d_100_0 = Some q.
Proof. apply div_Some. discriminate. Qed.

(** The application fee of a saved session.  With a profile row: zero
    for a [SOLOPRENEUR], and for every other courier type the gross
    earnings times the profile's fee percentage over [Decimal('100.0')].
    Without a profile, and with a profile instance that has just been
    created (its percentage is the float [0.0], which does not divide by
    a decimal), the fee is [Decimal('0.00')].  ([save] raises only the
    [TypeError] of a float rent, or in the write.) *)
Theorem application_fee_by_courier_type (db : DB) (s : WorkSession) :
  match save db s with
  | Ok (_, s') =>
      (forall p, has_profile db (user s) p ->
         if (courier_type p =? "SOLOPRENEUR")%string
         then application_fee s' = d_0_00
         else exists pct,
             div (fee_percent p) d_100_0 = Some pct /\
             application_fee s' = mul (gross_earnings s) pct) /\
      (without_profile db (user s) -> application_fee s' = d_0_00) /\
      (profile_created (user s) = true -> application_fee s' = d_0_00)
  | Raise e =>
      (e = TypeError /\ exists f, rent_after db s = Float f) \/ raised_by_write db s e
  end.
Proof.
  destruct (save db s) as [[db' s']|e] eqn:Hsave.
  - apply save_Ok_inv in Hsave as (d & Hd & Hp).
    apply persist_instance in Hp as (k & -> & _).
    derive_inv Hd. clear Hk Hk0 Hk1.
    cbn [set_pk application_fee].
    unfold fee_block. split; [|split].
    + intros p Hp. rewrite (get_profile_loaded db (user s) p Hp).
      cbn [bind profile_row fee_percent_of div_number].
      destruct (courier_type p =? "SOLOPRENEUR")%string; [reflexivity|].
      destruct (div_by_100_0 (fee_percent p)) as [q Hq].
      exists q. rewrite Hq. split; reflexivity.
    + intros Hp. now rewrite (get_profile_none db (user s) Hp).
    + intros Hc. unfold get_profile. rewrite Hc. reflexivity.
  - now apply save_Raise.
Qed.

(** ** [WorkSession.save]: what it writes *)

(** A successful [save] writes one row and nothing else: the row of the
    instance's primary key (a key the table did not use when the
    instance had none, so that the table grows by one row; the same key
    when it had one, so that an existing row is replaced).  The row
    keeps the owner, the date and the times of the instance.  Every
    other row, those of the same user and date included, is left as it
    was, and so is every profile. *)
Theorem save_changes_one_row (db db' : DB) (s s' : WorkSession) :
  save db s = Ok (db', s') ->
  exists k,
    pk s' = Some k /\
    sessions db' !! k = Some (to_row s') /\
    uid (user (to_row s')) = uid (user s) /\
    date (to_row s') = date s /\
    start_time (to_row s') = start_time s /\
    end_time (to_row s') = end_time s /\
    (pk s = None ->
       sessions db !! k = None /\ size (sessions db') = S (size (sessions db))) /\
    (forall k0, pk s = Some k0 ->
       k = k0 /\
       (is_Some (sessions db !! k0) -> size (sessions db') = size (sessions db))) /\
    (forall k', k' <> k -> sessions db' !! k' = sessions db !! k') /\
    profiles db' = profiles db.
Proof.
  intros Hsave. apply save_Ok_inv in Hsave as (d & Hd & Hp).
  apply persist_instance in Hp as (k & -> & Hfresh & Hkeep & ->).
  derive_inv Hd. clear Hk Hk0 Hk1. cbn in Hfresh, Hkeep.
  exists k. cbn [sessions profiles].
  split; [reflexivity|]. split; [apply lookup_insert_eq|].
  do 4 (split; [reflexivity|]).
  split; [|split; [|split]].
  - intros Hnone. specialize (Hfresh Hnone).
    assert (sessions db !! k = None) as Hk.
    { subst k. apply not_elem_of_dom. apply is_fresh. }
    split; [exact Hk|]. now apply map_size_insert_None.
  - intros k0 Hk0. specialize (Hkeep k0 Hk0). subst k0.
    split; [reflexivity|]. intros Hsome.
    now apply map_size_insert_Some.
  - intros k' Hne. now apply lookup_insert_ne.
  - reflexivity.
Qed.

Lemma save_changes_one_row_witness :
  exists k,
    pk morning_saved = Some k /\
    sessions renter_db_1 !! k = Some (to_row morning_saved) /\
    uid (user (to_row morning_saved)) = uid (user morning_shift) /\
    date (to_row morning_saved) = date morning_shift /\
    start_time (to_row morning_saved) = start_time morning_shift /\
    end_time (to_row morning_saved) = end_time morning_shift /\
    (pk morning_shift = None ->
       sessions renter_db !! k = None /\
       size (sessions renter_db_1) = S (size (sessions renter_db))) /\
    (forall k0, pk morning_shift = Some k0 ->
       k = k0 /\
       (is_Some (sessions renter_db !! k0) ->
        size (sessions renter_db_1) = size (sessions renter_db))) /\
    (forall k', k' <> k -> sessions renter_db_1 !! k' = sessions renter_db !! k') /\
    profiles renter_db_1 = profiles renter_db.
Proof.
  apply (save_changes_one_row renter_db renter_db_1 morning_shift morning_saved).
  vm_compute. reflexivity.
Defined.

(** ** [WorkSession.save]: when it answers *)

(** For the session of a user whose profile is a row of the database,
    [save] raises nothing before the write, whatever the amounts, the
    distance, the number of orders and the times are: the divisions of
    the KPIs are guarded, the divisors of the rent are 7 and a number of
    days, and the rent is a decimal.  The save then completes exactly
    when the database takes the row of the derived instance, and raises
    the error of the write otherwise: [InvalidOperation] for an amount
    with too many digits for its column (derived amounts such as the
    total earnings included), [OverflowError] or [IntegrityError]. *)
Theorem save_with_profile_fails_only_in_write (db : DB) (s : WorkSession) (p : UserProfile) :
  has_profile db (user s) p ->
  valid_month (date s) ->
  exists d r,
    derive db s = Ok d /\ vehicle_rent d = Dec r /\ same_inputs s d /\
    match save db s with
    | Ok (db', s') =>
        row_accepted d /\ exists k, s' = set_pk k d /\ sessions db' !! k = Some (to_row s')
    | Raise e =>
        ~ row_accepted d /\
        (e = InvalidOperation \/ e = OverflowError \/ e = IntegrityError) /\
        (decimals_fit d = false <-> e = InvalidOperation)
    end.
Proof.
  intros Hp Hv. destruct (rent_block_ok db s p Hp Hv) as [r Hr].
  apply rent_after_Ok in Hr.
  destruct (derive_result db s r Hr) as (d & Hd & _ & Hrent & _ & Hin).
  exists d, r. split; [exact Hd|]. split; [exact Hrent|]. split; [exact Hin|].
  rewrite (save_derive db s d Hd).
  destruct (persist db d) as [[db' s']|e] eqn:Hpersist.
  - pose proof Hpersist as Hacc. apply persist_Ok_inv in Hacc as [Hacc _].
    split; [exact Hacc|].
    apply persist_instance in Hpersist as (k & -> & _ & _ & ->).
    exists k. split; [reflexivity|]. cbn [sessions]. apply lookup_insert_eq.
  - pose proof Hpersist as Hrej. apply persist_Raise in Hrej as [Hrej He].
    split; [exact Hrej|]. split; [exact He|].
    unfold persist in Hpersist.
    destruct (decimals_fit d); cbn [negb] in Hpersist.
    + split; [discriminate|]. intros ->.
      destruct (from_option int64 true (total_orders d)); cbn [negb] in Hpersist;
        [|discriminate].
      destruct (required_set d); discriminate.
    + split; [congruence|reflexivity].
Qed.

Lemma save_with_profile_fails_only_in_write_witness :
  exists d r,
    derive test_db test_session = Ok d /\ vehicle_rent d = Dec r /\
    same_inputs test_session d /\
    match save test_db test_session with
    | Ok (db', s') =>
        row_accepted d /\ exists k, s' = set_pk k d /\ sessions db' !! k = Some (to_row s')
    | Raise e =>
        ~ row_accepted d /\
        (e = InvalidOperation \/ e = OverflowError \/ e = IntegrityError) /\
        (decimals_fit d = false <-> e = InvalidOperation)
    end.
Proof.
  apply (save_with_profile_fails_only_in_write test_db test_session test_profile).
  - split; reflexivity.
  - vm_compute. split; discriminate.
Defined.

(** ** [WorkSession.save]: the range of the duration *)

(** The duration of a saved session with start and end time lies between
    0.00 and 24.00 hours in its row, so that it fits the column
    [DecimalField(max_digits=5, decimal_places=2)].  A session that ends
    at the time it starts lasts 0 hours, not 24 (the end moves to the
    next day only when it is earlier than the start), and its profit per
    hour is [Decimal('0.00')]. *)
Theorem duration_within_a_day (db db' : DB) (s s' : WorkSession) (st en : time) :
  save db s = Ok (db', s') ->
  start_time s = Some st -> end_time s = Some en ->
  valid_time st -> valid_time en ->
  exists d c,
    duration_hours s' = Some d /\
    duration_hours (to_row s') = Some (mkDecimal c (-2)) /\
    0 <= c <= 2400 /\
    (st = en -> d = d_0 /\ c = 0 /\ profit_per_hour s' = d_0_00).
Proof.
  intros Hsave Hst Hen Hvst Hven.
  apply save_Ok_inv in Hsave as (d0 & Hd & Hp).
  apply persist_instance in Hp as (k & -> & _).
  derive_inv Hd. clear Hk0 Hk1.
  cbn [set_pk to_row duration_hours profit_per_hour].
  destruct (compute_duration_diff s st en Hst Hen) as (diff & Hexact & Hrange & Hdur).
  specialize (Hrange Hvst Hven).
  destruct (duration_spec diff Hrange) as (c & j & Hdec & Hj & Hclose).
  destruct (quantize2_close c j diff Hj Hclose) as (c' & Hq & Hc').
  rewrite Hdur in Hk |- *. rewrite Hdec in Hk |- *.
  exists (mkDecimal c (- j)), c'. cbn [fmap option_fmap option_map].
  rewrite Hq. split; [reflexivity|]. split; [reflexivity|].
  unfold day_us in Hrange. split; [lia|].
  intros ->.
  assert (diff = 0) as ->.
  { unfold exact_hours in Hexact. rewrite Z.ltb_irrefl in Hexact.
    injection Hexact as <-. lia. }
  change (Flt.to_decimal (Flt.div_int (Flt.rn_div 0 1000000) 3600)) with d_0 in Hdec.
  rewrite <- Hdec in Hk |- *.
  split; [reflexivity|]. split; [lia|].
  exact Hk.
Qed.

Lemma duration_within_a_day_witness :
  exists d c,
    duration_hours (snd (run_save test_db night_shift)) = Some d /\
    duration_hours (to_row (snd (run_save test_db night_shift))) = Some (mkDecimal c (-2)) /\
    0 <= c <= 2400 /\
    (mkTime 23 0 0 0 = mkTime 1 0 0 0 ->
     d = d_0 /\ c = 0 /\ profit_per_hour (snd (run_save test_db night_shift)) = d_0_00).
Proof.
  apply (duration_within_a_day test_db (fst (run_save test_db night_shift)) night_shift
           (snd (run_save test_db night_shift)) (mkTime 23 0 0 0) (mkTime 1 0 0 0)).
  - vm_compute. reflexivity.
  - reflexivity.
  - reflexivity.
  - unfold valid_time. cbn. lia.
  - unfold valid_time. cbn. lia.
Defined.

(** ** [perform_create]: credits over a sequence of requests *)

Lemma set_credits_same (p : UserProfile) : Views.set_credits (credits p) p = p.
Proof. now destruct p. Qed.

Lemma set_credits_twice (c1 c2 : Z) (p : UserProfile) :
  Views.set_credits c2 (Views.set_credits c1 p) = Views.set_credits c2 p.
Proof. reflexivity. Qed.

(** One request of a user with a profile row: refused by the gate, or
    charged (unless pro); the session is then stored under a new key, or
    the creation raises and the session table is as it was. *)
Lemma perform_create_with_profile (db : DB) (u : User) (p : UserProfile)
    (vd : Serializers.validated_data) :
  has_profile db u p ->
  if negb (is_pro p) && (credits p <? 10)
  then Views.perform_create db u vd = (db, Raise CreditsExhausted)
  else
    profiles (fst (Views.perform_create db u vd))
    = (if is_pro p then profiles db
       else <[uid u := Views.set_credits (credits p - 10) p]> (profiles db)) /\
    match snd (Views.perform_create db u vd) with
    | Ok s' =>
        exists k,
          pk s' = Some k /\ sessions db !! k = None /\ user s' = u /\
          Serializers.vd_date vd = Some (date s') /\
          sessions (fst (Views.perform_create db u vd)) = <[k := to_row s']> (sessions db)
    | Raise _ => sessions (fst (Views.perform_create db u vd)) = sessions db
    end.
Proof.
  intros Hp. pose proof Hp as [Hfresh Hrow].
  unfold Views.perform_create, Views.ensure_profile.
  rewrite (get_profile_loaded db u p Hp).
  unfold Views.deduct_credits. rewrite (get_profile_loaded db u p Hp).
  cbn [bind profile_row]. rewrite Hrow. cbn [or_raise bind].
  destruct (is_pro p) eqn:Hpro; cbn [negb andb].
  - fold (create_after_gate db u vd).
    split; [apply create_after_gate_profiles|].
    pose proof (create_after_gate_sessions db u vd) as Hs.
    destruct (snd (create_after_gate db u vd)) as [s'|e]; [exact Hs|now rewrite Hs].
  - destruct (credits p <? 10) eqn:Hc; [reflexivity|].
    set (db2 := save_profile db (uid u) (Views.set_credits (credits p - 10) p)).
    fold (create_after_gate db2 u vd).
    split; [apply create_after_gate_profiles|].
    pose proof (create_after_gate_sessions db2 u vd) as Hs.
    destruct (snd (create_after_gate db2 u vd)) as [s'|e]; [exact Hs|now rewrite Hs].
Qed.

(** Credits are charged per request that passes the gate.  Of the
    requests a user with a profile row sends one after the other, a pro
    user has all let through and pays nothing; for any other user as
    many are let through as the balance holds tens of credits, in the
    order of arrival, and each of them takes exactly 10 credits from the
    stored balance, whether or not its session is then stored: no more
    sessions are stored than requests were let through.  The balance
    never goes below zero from a balance that was not, nothing else of
    the profile changes, and no other profile changes. *)
Theorem credits_charged_per_request (requests : list Serializers.validated_data)
    (db : DB) (u : nat) (p : UserProfile) :
  profiles db !! u = Some p ->
  let db' := post_sessions db u requests in
  let n := requests_let_through p (length requests) in
  (size (sessions db) <= size (sessions db') <= size (sessions db) + n)%nat /\
  credits <$> profiles db' !! u
  = Some (if is_pro p then credits p else credits p - 10 * Z.of_nat n) /\
  profiles db' !! u
  = Some (if is_pro p then p
          else Views.set_credits (credits p - 10 * Z.of_nat n) p) /\
  (0 <= credits p -> 0 <= credits p - 10 * Z.of_nat n \/ is_pro p = true) /\
  (forall u', u' <> u -> profiles db' !! u' = profiles db !! u').
Proof.
  intros Hrow.
  enough (let db' := post_sessions db u requests in
          let n := requests_let_through p (length requests) in
          (size (sessions db) <= size (sessions db') <= size (sessions db) + n)%nat /\
          profiles db' !! u
          = Some (if is_pro p then p
                  else Views.set_credits (credits p - 10 * Z.of_nat n) p) /\
          (0 <= credits p -> 0 <= credits p - 10 * Z.of_nat n \/ is_pro p = true) /\
          (forall u', u' <> u -> profiles db' !! u' = profiles db !! u')) as Hmain.
  { cbn zeta in *. destruct Hmain as (H1 & H2 & H3 & H4).
    split; [exact H1|]. split; [|split; [exact H2|split; [exact H3|exact H4]]].
    rewrite H2. cbn [fmap option_fmap option_map]. now destruct (is_pro p). }
  revert db p Hrow.
  induction requests as [|vd rest IH]; intros db p Hrow; cbn zeta.
  - cbn [post_sessions length]. unfold requests_let_through.
    destruct (is_pro p) eqn:Hpro.
    + repeat split; auto; lia.
    + rewrite Nat.min_0_l. change (Z.of_nat 0) with 0.
      rewrite Z.mul_0_r, Z.sub_0_r, set_credits_same.
      repeat split; auto; lia.
  - cbn [post_sessions length].
    assert (has_profile db (mkUser u false) p) as Hp by (split; [reflexivity|exact Hrow]).
    pose proof (perform_create_with_profile db (mkUser u false) p vd Hp) as Hstep.
    unfold requests_let_through in *.
    set (db1 := fst (Views.perform_create db (mkUser u false) vd)) in *.
    assert (forall ps, profiles db1 = ps ->
              match snd (Views.perform_create db (mkUser u false) vd) with
              | Ok s' =>
                  exists k, pk s' = Some k /\ sessions db !! k = None /\
                            user s' = mkUser u false /\
                            Serializers.vd_date vd = Some (date s') /\
                            sessions db1 = <[k := to_row s']> (sessions db)
              | Raise _ => sessions db1 = sessions db
              end ->
              (size (sessions db) <= size (sessions db1) <= S (size (sessions db)))%nat)
      as Hsize.
    { intros ps _ Hs. destruct (snd (Views.perform_create db (mkUser u false) vd)).
      - destruct Hs as (k & _ & Hk & _ & _ & ->).
        rewrite map_size_insert_None by exact Hk. lia.
      - rewrite Hs. lia. }
    destruct (is_pro p) eqn:Hpro; cbn [negb andb] in Hstep.
    + destruct Hstep as [Hps Hs]. specialize (Hsize _ Hps Hs).
      assert (profiles db1 !! u = Some p) as Hrow1 by (rewrite Hps; exact Hrow).
      specialize (IH db1 p Hrow1). cbn zeta in IH. rewrite Hpro in IH.
      destruct IH as (IH1 & IH2 & _ & IH4).
      split; [lia|]. split; [exact IH2|]. split; [auto|].
      intros u' Hne. rewrite (IH4 u' Hne). now rewrite Hps.
    + destruct (credits p <? 10) eqn:Hc.
      * assert (db1 = db) as -> by (subst db1; now rewrite Hstep).
        specialize (IH db p Hrow). cbn zeta in IH. rewrite Hpro in IH.
        apply Z.ltb_lt in Hc.
        assert (Z.to_nat (credits p / 10) = 0%nat) as Hz.
        { assert (credits p / 10 < 1) by (apply Z.div_lt_upper_bound; lia). lia. }
        rewrite Hz in *. rewrite Nat.min_0_r in *.
        exact IH.
      * destruct Hstep as [Hps Hs]. specialize (Hsize _ Hps Hs). cbn [uid] in Hps.
        apply Z.ltb_ge in Hc.
        set (p1 := Views.set_credits (credits p - 10) p) in *.
        assert (profiles db1 !! u = Some p1) as Hrow1
          by (rewrite Hps; apply lookup_insert_eq).
        specialize (IH db1 p1 Hrow1). cbn zeta in IH.
        change (is_pro p1) with (is_pro p) in IH. rewrite Hpro in IH.
        change (credits p1) with (credits p - 10) in IH.
        destruct IH as (IH1 & IH2 & IH3 & IH4).
        assert (Z.to_nat (credits p / 10) = S (Z.to_nat ((credits p - 10) / 10))) as Hdiv.
        { replace (credits p) with ((credits p - 10) + 1 * 10) at 1 by lia.
          rewrite Z.div_add by lia.
          assert (0 <= (credits p - 10) / 10) by (apply Z.div_pos; lia).
          lia. }
        rewrite Hdiv. rewrite <- Nat.succ_min_distr.
        set (m := Nat.min (length rest) (Z.to_nat ((credits p - 10) / 10))) in *.
        split; [lia|]. split; [|split].
        -- rewrite IH2. f_equal. unfold p1. rewrite set_credits_twice.
           f_equal. lia.
        -- intros H0. left.
           assert (0 <= (credits p - 10) / 10) by (apply Z.div_pos; lia).
           assert (Z.of_nat m <= (credits p - 10) / 10) by (subst m; lia).
           assert (10 * ((credits p - 10) / 10) <= credits p - 10)
             by (apply Z.mul_div_le; lia).
           lia.
        -- intros u' Hne. rewrite (IH4 u' Hne). rewrite Hps. now apply lookup_insert_ne.
Qed.

Lemma credits_charged_per_request_witness :
  let requests := [bicycle_request; overflowing_request; bicycle_request] in
  let db' := post_sessions bicycle_db 1 requests in
  let n := requests_let_through bicycle_profile (length requests) in
  (size (sessions bicycle_db) <= size (sessions db') <= size (sessions bicycle_db) + n)%nat /\
  credits <$> profiles db' !! 1%nat
  = Some (if is_pro bicycle_profile then credits bicycle_profile
          else credits bicycle_profile - 10 * Z.of_nat n) /\
  profiles db' !! 1%nat
  = Some (if is_pro bicycle_profile then bicycle_profile
          else Views.set_credits (credits bicycle_profile - 10 * Z.of_nat n)
                 bicycle_profile) /\
  (0 <= credits bicycle_profile ->
   0 <= credits bicycle_profile - 10 * Z.of_nat n \/ is_pro bicycle_profile = true) /\
  (forall u', u' <> 1%nat -> profiles db' !! u' = profiles bicycle_db !! u').
Proof.
  apply (credits_charged_per_request [bicycle_request; overflowing_request; bicycle_request]
           bicycle_db 1 bicycle_profile).
  reflexivity.
Defined.

(** Three requests of the cyclist, the second with total earnings that
    do not fit the column: all three are charged, two sessions are
    stored. *)
Example charged_without_session :
  let db' := post_sessions bicycle_db 1
               [bicycle_request; overflowing_request; bicycle_request] in
  snd (Views.perform_create bicycle_db (mkUser 1 false) overflowing_request)
  = Raise InvalidOperation /\
  credits <$> profiles db' !! 1%nat = Some 270 /\
  size (sessions db') = 2%nat.
Proof. vm_compute. repeat split. Qed.

(** ** [perform_create]: the first request of a user without profile *)

(** A user without profile row sends a request with date, start and end,
    and has no session on that date yet.  The profile is inserted with
    the defaults, the gate takes 10 of its 300 credits, and the creation
    then raises [TypeError]: the rent taken from the profile instance
    just created is the float [0.0] of the field's declaration, which the
    sum of the costs cannot add to a decimal.  The request leaves the
    profile with 290 credits and stores no session. *)
Theorem first_session_without_profile (db : DB) (u : User)
    (vd : Serializers.validated_data) (d : Cal.date) (st en : time) :
  without_profile db u ->
  Serializers.vd_date vd = Some d ->
  Serializers.vd_start_time vd = Some st ->
  Serializers.vd_end_time vd = Some en ->
  ~ has_session_on db (uid u) d ->
  Views.perform_create db u vd
  = (save_profile db (uid u) (Views.set_credits 290 default_profile), Raise TypeError) /\
  credits <$> profiles (fst (Views.perform_create db u vd)) !! uid u = Some 290 /\
  sessions (fst (Views.perform_create db u vd)) = sessions db.
Proof.
  intros Hnone Hd Hst Hen Hfirst.
  enough (Views.perform_create db u vd
          = (save_profile db (uid u) (Views.set_credits 290 default_profile),
             Raise TypeError)) as Hmain.
  { split; [exact Hmain|]. rewrite Hmain. cbn [fst save_profile profiles sessions].
    split; [|reflexivity]. now rewrite lookup_insert_eq. }
  unfold Views.perform_create, Views.ensure_profile.
  rewrite (get_profile_none db u Hnone).
  unfold Views.deduct_credits, get_profile.
  cbn [profile_created uid bind profile_row default_profile is_pro credits negb
       save_profile profiles].
  rewrite lookup_insert_eq. cbn [or_raise bind credits default_profile].
  change (300 <? 10) with false. cbn match.
  change (300 - 10) with 290.
  set (db2 := save_profile _ _ _).
  assert (db2 = save_profile db (uid u) (Views.set_credits 290 default_profile)) as Hdb2.
  { subst db2. unfold save_profile. cbn [profiles sessions]. f_equal.
    apply insert_insert_eq. }
  set (user1 := mkUser (uid u) true) in *.
  assert (Serializers.enforce_fuel_cost db2 user1 vd = vd) as Henf by reflexivity.
  unfold Serializers.create. rewrite Henf.
  unfold Serializers.new_instance. rewrite Hd, Hst, Hen. cbn [bind].
  match goal with |- context [save db2 ?i] => set (inst := i) end.
  assert (rent_block db2 inst = Ok float_0_0) as Hrent.
  { unfold rent_block, get_profile. cbn [inst user user1 profile_created bind].
    change (daily_cost Created (date inst)) with (Ok (A := number) float_0_0).
    cbn [bind].
    destruct (existing_sessions_exist db2 inst) eqn:Hex; [|reflexivity].
    exfalso. apply Hfirst.
    unfold existing_sessions_exist in Hex. apply bool_decide_eq_true_1 in Hex.
    destruct Hex as (k & row & Hrow & Hu & Hdate & _).
    exists k, row. repeat split; assumption. }
  assert (derive db2 inst = Raise TypeError) as Hderive.
  { unfold derive. fold (rent_after db2 inst).
    rewrite (rent_after_Ok db2 inst _ Hrent). reflexivity. }
  unfold save. rewrite Hderive. cbn [bind]. now rewrite Hdb2.
Qed.

Lemma first_session_without_profile_witness :
  Views.perform_create db_without_profile (mkUser 7 false) bicycle_request
  = (save_profile db_without_profile 7 (Views.set_credits 290 default_profile),
     Raise TypeError) /\
  credits <$> profiles (fst (Views.perform_create db_without_profile (mkUser 7 false)
                               bicycle_request)) !! 7%nat = Some 290 /\
  sessions (fst (Views.perform_create db_without_profile (mkUser 7 false) bicycle_request))
  = sessions db_without_profile.
Proof.
  apply (first_session_without_profile db_without_profile (mkUser 7 false) bicycle_request
           (mkDate 2026 11 3) (mkTime 18 0 0 0) (mkTime 20 0 0 0)).
  - split; reflexivity.
  - reflexivity.
  - reflexivity.
  - reflexivity.
  - intros (k & row & Hrow & _). cbn in Hrow. rewrite lookup_empty in Hrow. discriminate.
Defined.

(** ** Deleting a session *)

(** The request of a user who pays by credits and has at least 10 of
    them goes on to the creation, in the database with the balance
    lowered. *)
Lemma perform_create_paid (db : DB) (u : User) (p : UserProfile)
    (vd : Serializers.validated_data) :
  has_profile db u p ->
  is_pro p = false ->
  10 <= credits p ->
  let db2 := save_profile db (uid u) (Views.set_credits (credits p - 10) p) in
  Views.perform_create db u vd = create_after_gate db2 u vd /\
  has_profile db2 u (Views.set_credits (credits p - 10) p).
Proof.
  intros Hp Hpro Hc. pose proof Hp as [Hfresh Hrow]. cbn zeta.
  split.
  - unfold Views.perform_create, Views.ensure_profile.
    rewrite (get_profile_loaded db u p Hp).
    unfold Views.deduct_credits. rewrite (get_profile_loaded db u p Hp).
    cbn [bind profile_row]. rewrite Hrow, Hpro. cbn [or_raise bind negb].
    apply Z.ltb_ge in Hc. rewrite Hc. reflexivity.
  - split; [exact Hfresh|]. cbn [save_profile profiles]. apply lookup_insert_eq.
Qed.

(** Credits are not given back.  The create request of a user who pays
    by credits and has at least 10 of them leaves the balance 10 lower,
    whether the session is stored or the creation raises.  When the
    session is stored and then deleted, the session table is as it was
    before the two requests, and the balance stays 10 lower.  (A request
    with date, start and end time is stored exactly when the database
    takes the row of the derived instance.) *)
Theorem delete_gives_no_credits_back (db : DB) (u : User) (p : UserProfile)
    (vd : Serializers.validated_data) :
  has_profile db u p ->
  is_pro p = false ->
  10 <= credits p ->
  let db1 := fst (Views.perform_create db u vd) in
  credits <$> profiles db1 !! uid u = Some (credits p - 10) /\
  match snd (Views.perform_create db u vd) with
  | Ok s' =>
      exists k,
        pk s' = Some k /\
        sessions db1 !! k = Some (to_row s') /\
        let db' := delete db1 k in
        sessions db' = sessions db /\
        credits <$> profiles db' !! uid u = Some (credits p - 10)
  | Raise _ => sessions db1 = sessions db
  end /\
  (forall d st en,
      Serializers.vd_date vd = Some d ->
      Serializers.vd_start_time vd = Some st ->
      Serializers.vd_end_time vd = Some en ->
      valid_month d ->
      let db2 := save_profile db (uid u) (Views.set_credits (credits p - 10) p) in
      exists inst derived,
        Serializers.new_instance u (Serializers.enforce_fuel_cost db2 u vd) = Ok inst /\
        derive db2 inst = Ok derived /\
        (row_accepted derived <-> exists s', snd (Views.perform_create db u vd) = Ok s')).
Proof.
  intros Hp Hpro Hc. cbn zeta.
  pose proof (perform_create_with_profile db u p vd Hp) as Hstep.
  rewrite Hpro in Hstep. cbn [negb andb] in Hstep.
  pose proof Hc as Hc'. apply Z.ltb_ge in Hc'. rewrite Hc' in Hstep.
  destruct Hstep as (Hps & Hs).
  split; [rewrite Hps, lookup_insert_eq; reflexivity|].
  split.
  - destruct (snd (Views.perform_create db u vd)) as [s'|e]; [|exact Hs].
    destruct Hs as (k & Hpk & Hk & _ & _ & Hs).
    exists k. split; [exact Hpk|].
    split; [rewrite Hs; apply lookup_insert_eq|].
    unfold delete. cbn [sessions profiles]. split.
    + rewrite Hs, delete_insert_eq. now apply delete_id.
    + rewrite Hps, lookup_insert_eq. reflexivity.
  - intros d st en Hd Hst Hen Hv.
    destruct (perform_create_paid db u p vd Hp Hpro Hc) as [Hrun Hp2].
    cbn zeta in Hrun, Hp2. rewrite Hrun.
    set (db2 := save_profile db (uid u) (Views.set_credits (credits p - 10) p)) in *.
    destruct (create_completes db2 u _ vd d st en Hp2 Hd Hst Hen Hv)
      as (inst & derived & Hnew & Hder & Hiff & _).
    exists inst, derived. split; [exact Hnew|]. split; [exact Hder|].
    rewrite Hiff. unfold create_after_gate.
    destruct (Serializers.create db2 u vd) as [[db3 i]|e]; cbn [snd].
    + split; eauto.
    + split; [intros (? & ? & H); discriminate H|intros (? & H); discriminate H].
Qed.

Lemma delete_gives_no_credits_back_witness :
  exists s' k,
    snd (Views.perform_create bicycle_db (mkUser 1 false) bicycle_request) = Ok s' /\
    pk s' = Some k /\
    let db1 := fst (Views.perform_create bicycle_db (mkUser 1 false) bicycle_request) in
    sessions db1 !! k = Some (to_row s') /\
    credits <$> profiles db1 !! 1%nat = Some (credits bicycle_profile - 10) /\
    let db' := delete db1 k in
    sessions db' = sessions bicycle_db /\
    credits <$> profiles db' !! 1%nat = Some (credits bicycle_profile - 10).
Proof.
  destruct (delete_gives_no_credits_back bicycle_db (mkUser 1 false) bicycle_profile
              bicycle_request) as (Hcredits & Hcase & _);
    [split; reflexivity|reflexivity|vm_compute; discriminate|].
  destruct (snd (Views.perform_create bicycle_db (mkUser 1 false) bicycle_request))
    as [s'|e] eqn:Hcreate; [|vm_compute in Hcreate; discriminate Hcreate].
  destruct Hcase as (k & Hpk & Hrow & Hdel).
  exists s', k. split; [reflexivity|]. split; [exact Hpk|].
  split; [exact Hrow|]. split; [exact Hcredits|exact Hdel].
Defined.

(** ** The dashboard: its answer, field by field *)

Lemma get_Ok_fields (backend : Views.aggregates) (db : DB) (u : User)
    (period : option string) (local_date : option Cal.date) (server_today : Cal.date)
    (data : Views.dashboard_data) :
  Views.get backend db u period local_date server_today = Ok data ->
  exists queryset,
    Views.filter_period (default "today"%string period)
      (default server_today local_date) (Views.filter_user db u) = Ok queryset /\
    Views.total_net_profit data
    = Views.or_Decimal_0 (Views.SUM backend (net_profit <$> queryset)) /\
    Views.total_earnings data
    = Views.or_Decimal_0 (Views.SUM backend (Models.total_earnings <$> queryset)) /\
    Views.total_duration_hours data
    = Views.or_Decimal_0 (Views.SUM backend (omap duration_hours queryset)) /\
    Views.total_distance_km data
    = Views.or_Decimal_0 (Views.SUM backend (Models.total_distance_km <$> queryset)) /\
    Views.session_count data = length queryset /\
    Views.chart_data data = Views.chart_data_qs backend queryset /\
    (if is_pos (Views.total_duration_hours data)
     then div (Views.total_net_profit data) (Views.total_duration_hours data)
          = Some (Views.avg_profit_per_hour data)
     else Views.avg_profit_per_hour data = d_0).
Proof.
  unfold Views.get.
  destruct (Views.filter_period _ _ _) as [queryset|e]; cbn [bind]; [|discriminate].
  destruct (is_pos _) eqn:Hpos.
  - destruct (div _ _) eqn:Hdiv; cbn [or_raise bind]; [|discriminate].
    intros [= <-]. exists queryset.
    cbn [Views.total_net_profit Views.total_earnings Views.total_duration_hours
         Views.total_distance_km Views.session_count Views.chart_data
         Views.avg_profit_per_hour].
    rewrite Hpos. repeat split. exact Hdiv.
  - cbn [bind]. intros [= <-]. exists queryset.
    cbn [Views.total_net_profit Views.total_earnings Views.total_duration_hours
         Views.total_distance_km Views.session_count Views.chart_data
         Views.avg_profit_per_hour].
    rewrite Hpos. repeat split.
Qed.

Lemma filter_user_none (db : DB) (u : User) :
  (forall k row, sessions db !! k = Some row -> uid (user row) <> uid u) ->
  Views.filter_user db u = [].
Proof.
  intros Hnone. apply elem_of_nil_inv. intros s Hs.
  unfold Views.filter_user in Hs. apply list_elem_of_filter in Hs as [Hu Hs].
  apply list_elem_of_fmap in Hs as ([k s0] & -> & Hs).
  apply elem_of_map_to_list in Hs. now apply (Hnone k s0).
Qed.

(** The dashboard of a period without sessions: every total is
    [Decimal(0)], the average profit per hour is 0 (no division is
    attempted), and the chart is empty.  For a user none of whose
    sessions is in the table, whatever other users have stored, the
    count is 0 and the list of recent sessions is empty as well.  This
    holds on every engine: the sum over no row is NULL.  ([get] answers
    unless the period is the week and the week of the reference date
    ends after [date.max].) *)
Theorem dashboard_without_sessions (backend : Views.aggregates) (db : DB) (u : User)
    (period : option string) (local_date : option Cal.date) (server_today : Cal.date) :
  match Views.get backend db u period local_date server_today with
  | Ok data =>
      (Views.session_count data = 0%nat ->
       Views.total_net_profit data = d_0 /\
       Views.total_earnings data = d_0 /\
       Views.total_costs data = d_0 /\
       Views.avg_profit_per_hour data = d_0 /\
       Views.total_duration_hours data = d_0 /\
       Views.total_distance_km data = d_0 /\
       Views.chart_data data = []) /\
      ((forall k row, sessions db !! k = Some row -> uid (user row) <> uid u) ->
       Views.session_count data = 0%nat /\ Views.recent_sessions data = [])
  | Raise e =>
      e = OverflowError /\ period = Some "week"%string /\
      let today := default server_today local_date in
      ~ (1 <= toordinal today - weekday today /\
         toordinal today - weekday today + 6 <= MAXORDINAL)
  end.
Proof.
  destruct (Views.get backend db u period local_date server_today) as [data|e] eqn:Hget.
  - pose proof Hget as Hget'.
    apply get_Ok_fields in Hget as (queryset & Hq & H1 & H2 & H3 & H4 & H5 & H6 & H7).
    apply get_Ok_inv in Hget' as (queryset' & Hq' & Hcosts & Hrecent).
    assert (queryset' = queryset) as -> by congruence.
    split.
    + intros Hcount. rewrite H5 in Hcount. apply nil_length_inv in Hcount. subst queryset.
      rewrite H3 in H7.
      cbn [fmap list_fmap omap list_omap] in H1, H2, H3, H4, H7, Hcosts.
      rewrite !(Views.SUM_no_value backend) in H1, H2, H3, H4, H7, Hcosts.
      cbn in H1, H2, H3, H4, H6, H7, Hcosts.
      repeat split; assumption.
    + intros Hnone. apply filter_user_none in Hnone.
      rewrite Hnone in Hq, Hrecent. split.
      * rewrite H5. apply filter_period_sub in Hq as [_ Hlen]. cbn in Hlen. lia.
      * exact Hrecent.
  - apply get_Raise in Hget. apply filter_period_Raise in Hget as (-> & Hp & Hw).
    repeat split; [|exact Hw].
    destruct period as [p|]; cbn in Hp; [now subst p|discriminate].
Qed.

(** ** The dashboard: the periods *)

Lemma weekday_range (d : Cal.date) : 0 <= weekday d <= 6.
Proof. unfold weekday. pose proof (Z.mod_pos_bound (toordinal d + 6) 7). lia. Qed.

Lemma week_starts_on_monday (d : Cal.date) : monday_ordinal (toordinal d - weekday d).
Proof.
  unfold monday_ordinal, weekday.
  replace (toordinal d - (toordinal d + 6) mod 7 + 6)
    with (toordinal d + 6 - (toordinal d + 6) mod 7) by lia.
  rewrite Zminus_mod, Zmod_mod, Z.sub_diag. reflexivity.
Qed.

Lemma length_filter_impl {A : Type} (P Q : A -> Prop)
    `{!forall x, Decision (P x)} `{!forall x, Decision (Q x)} (l : list A) :
  (forall x, P x -> Q x) -> (length (filter P l) <= length (filter Q l))%nat.
Proof.
  intros HPQ. induction l as [|x l IH]; [reflexivity|].
  rewrite !filter_cons. destruct (decide (P x)) as [HP|HP], (decide (Q x)) as [HQ|HQ];
    cbn [length]; try lia.
  exfalso. auto.
Qed.

(** The period [week] is the week of the reference date from Monday to
    Sunday: the sessions selected are the user's sessions whose date
    lies in the seven days that start on the Monday on or before the
    reference date, days after the reference date included. *)
Theorem week_is_monday_to_sunday (backend : Views.aggregates) (db : DB) (u : User)
    (local_date : option Cal.date) (server_today : Cal.date) (data : Views.dashboard_data) :
  Views.get backend db u (Some "week"%string) local_date server_today = Ok data ->
  let today := default server_today local_date in
  exists monday queryset,
    monday_ordinal monday /\
    monday <= toordinal today <= monday + 6 /\
    Views.filter_period "week" today (Views.filter_user db u) = Ok queryset /\
    (forall s, s ∈ queryset <->
               s ∈ Views.filter_user db u /\ monday <= toordinal (date s) <= monday + 6) /\
    Views.session_count data = length queryset.
Proof.
  intros Hget. cbn zeta.
  apply get_Ok_fields in Hget as (queryset & Hq & _ & _ & _ & _ & Hcount & _).
  cbn [default from_option] in Hq. unfold id in Hq.
  set (today := default server_today local_date) in *.
  exists (toordinal today - weekday today), queryset.
  split; [apply week_starts_on_monday|].
  split; [pose proof (weekday_range today); lia|].
  split; [exact Hq|]. split; [|exact Hcount].
  unfold Views.filter_period in Hq.
  change ("week" =? "today")%string with false in Hq.
  change ("week" =? "week")%string with true in Hq. cbn match in Hq.
  destruct (_ && _); [|discriminate]. injection Hq as <-.
  intros s. rewrite list_elem_of_filter. tauto.
Qed.

Lemma week_is_monday_to_sunday_witness :
  exists data,
    Views.get Views.numeric renter_db_2 (mkUser 1 false) (Some "week"%string) None
      (mkDate 2026 11 4)
    = Ok data /\
    let today := default (mkDate 2026 11 4) None in
    exists monday queryset,
      monday_ordinal monday /\
      monday <= toordinal today <= monday + 6 /\
      Views.filter_period "week" today (Views.filter_user renter_db_2 (mkUser 1 false))
      = Ok queryset /\
      (forall s, s ∈ queryset <->
                 s ∈ Views.filter_user renter_db_2 (mkUser 1 false) /\
                 monday <= toordinal (date s) <= monday + 6) /\
      Views.session_count data = length queryset.
Proof.
  eexists. split; [vm_compute; reflexivity|].
  eapply (week_is_monday_to_sunday Views.numeric renter_db_2 (mkUser 1 false) None
            (mkDate 2026 11 4)).
  vm_compute. reflexivity.
Defined.

(** The periods nest.  For one user and one reference date, the
    sessions counted for [today] are counted for [week] and for [month],
    and those of any period are counted for a period that is none of
    the three ([all], or any other word), which selects every session of
    the user. *)
Theorem periods_nest (backend : Views.aggregates) (db : DB) (u : User)
    (local_date : option Cal.date) (server_today : Cal.date) (other : string)
    (d_today d_week d_month d_all : Views.dashboard_data) :
  Views.get backend db u (Some "today"%string) local_date server_today = Ok d_today ->
  Views.get backend db u (Some "week"%string) local_date server_today = Ok d_week ->
  Views.get backend db u (Some "month"%string) local_date server_today = Ok d_month ->
  other <> "today"%string -> other <> "week"%string -> other <> "month"%string ->
  Views.get backend db u (Some other) local_date server_today = Ok d_all ->
  (Views.session_count d_today <= Views.session_count d_week)%nat /\
  (Views.session_count d_today <= Views.session_count d_month)%nat /\
  (Views.session_count d_week <= Views.session_count d_all)%nat /\
  (Views.session_count d_month <= Views.session_count d_all)%nat /\
  Views.session_count d_all = length (Views.filter_user db u).
Proof.
  intros Ht Hw Hm Ho1 Ho2 Ho3 Ha.
  apply get_Ok_fields in Ht as (qt & Hqt & _ & _ & _ & _ & -> & _).
  apply get_Ok_fields in Hw as (qw & Hqw & _ & _ & _ & _ & -> & _).
  apply get_Ok_fields in Hm as (qm & Hqm & _ & _ & _ & _ & -> & _).
  apply get_Ok_fields in Ha as (qa & Hqa & _ & _ & _ & _ & -> & _).
  remember (default server_today local_date) as today eqn:Htoday. clear Htoday.
  cbn [default from_option] in Hqt, Hqw, Hqm, Hqa. unfold id in Hqt, Hqw, Hqm, Hqa.
  set (all := Views.filter_user db u) in *.
  unfold Views.filter_period in Hqa.
  apply String.eqb_neq in Ho1, Ho2, Ho3. rewrite Ho1, Ho2, Ho3 in Hqa.
  injection Hqa as <-.
  pose proof (filter_period_sub _ _ _ _ Hqw) as [_ Hlw].
  pose proof (filter_period_sub _ _ _ _ Hqm) as [_ Hlm].
  unfold Views.filter_period in Hqt, Hqw, Hqm.
  change ("today" =? "today")%string with true in Hqt. cbn match in Hqt.
  change ("week" =? "today")%string with false in Hqw.
  change ("week" =? "week")%string with true in Hqw. cbn match in Hqw.
  change ("month" =? "today")%string with false in Hqm.
  change ("month" =? "week")%string with false in Hqm.
  change ("month" =? "month")%string with true in Hqm. cbn match in Hqm.
  destruct (_ && _); [|discriminate].
  injection Hqt as <-. injection Hqw as <-. injection Hqm as <-.
  split; [|split; [|split; [|split]]]; try assumption; try reflexivity.
  - apply length_filter_impl. intros s ->. pose proof (weekday_range today). lia.
  - apply length_filter_impl. intros s ->. split; reflexivity.
Qed.

Lemma periods_nest_witness :
  exists d_today d_week d_month d_all,
    (Views.session_count d_today <= Views.session_count d_week)%nat /\
    (Views.session_count d_today <= Views.session_count d_month)%nat /\
    (Views.session_count d_week <= Views.session_count d_all)%nat /\
    (Views.session_count d_month <= Views.session_count d_all)%nat /\
    Views.session_count d_all = length (Views.filter_user renter_db_2 (mkUser 1 false)).
Proof.
  do 4 eexists.
  eapply (periods_nest Views.numeric renter_db_2 (mkUser 1 false) None (mkDate 2026 11 4)
            "all").
  - vm_compute. reflexivity.
  - vm_compute. reflexivity.
  - vm_compute. reflexivity.
  - discriminate.
  - discriminate.
  - discriminate.
  - vm_compute. reflexivity.
Defined.

(** ** Sums of decimals as rational numbers *)

Lemma Qsame_den (x y : Z) (P : positive) : ((x # P) + (y # P) == (x + y) # P)%Q.
Proof. unfold Qeq, Qplus. cbn [Qnum Qden]. rewrite Pos2Z.inj_mul. ring. Qed.

(** The value of a decimal over a common denominator [10 ^ n]. *)
Lemma to_Q_scaled (c e n : Z) :
  0 <= n -> 0 <= e + n ->
  (to_Q (mkDecimal c e) == (c * 10 ^ (e + n)) # Z.to_pos (10 ^ n))%Q.
Proof.
  intros Hn Hen. unfold to_Q. cbn [coeff expo].
  assert (0 < 10 ^ n) as HP by (apply Z.pow_pos_nonneg; lia).
  destruct (0 <=? e) eqn:He.
  - apply Z.leb_le in He. unfold Qeq, inject_Z. cbn [Qnum Qden].
    rewrite Z2Pos.id by lia. rewrite Z.pow_add_r by lia. ring.
  - apply Z.leb_gt in He. unfold Qeq. cbn [Qnum Qden].
    assert (0 < 10 ^ (- e)) as HQ by (apply Z.pow_pos_nonneg; lia).
    rewrite !Z2Pos.id by lia.
    rewrite <- Z.mul_assoc, <- Z.pow_add_r by lia.
    replace (e + n + - e) with n by lia. reflexivity.
Qed.

Lemma to_Q_zero (d : Decimal) : coeff d = 0 -> (to_Q d == 0)%Q.
Proof.
  destruct d as [c e]. cbn. intros ->. unfold to_Q. cbn [coeff expo].
  destruct (0 <=? e); reflexivity.
Qed.

Lemma to_Q_neg (a : Decimal) : (to_Q (neg a) == - to_Q a)%Q.
Proof.
  destruct a as [c e]. unfold neg, to_Q. cbn [coeff expo].
  destruct (0 <=? e).
  - unfold Qeq, Qopp, inject_Z. cbn [Qnum Qden]. ring.
  - reflexivity.
Qed.

(** The addition of the database is exact. *)
Lemma to_Q_add_exact (a b : Decimal) :
  (to_Q (Views.add_exact a b) == to_Q a + to_Q b)%Q.
Proof.
  destruct a as [ca ea], b as [cb eb]. unfold Views.add_exact. cbn [coeff expo].
  set (m := Z.min ea eb). set (n := Z.max 0 (- m)).
  rewrite (to_Q_scaled _ m n), (to_Q_scaled ca ea n), (to_Q_scaled cb eb n) by lia.
  rewrite Qsame_den.
  assert ((ca * 10 ^ (ea - m) + cb * 10 ^ (eb - m)) * 10 ^ (m + n)
          = ca * 10 ^ (ea + n) + cb * 10 ^ (eb + n)) as ->; [|reflexivity].
  rewrite Z.mul_add_distr_r, <- !Z.mul_assoc, <- !Z.pow_add_r by lia.
  replace (ea - m + (m + n)) with (ea + n) by lia.
  replace (eb - m + (m + n)) with (eb + n) by lia. reflexivity.
Qed.

Lemma to_Q_sub_exact (a b : Decimal) :
  (to_Q (Views.sub_exact a b) == to_Q a - to_Q b)%Q.
Proof. unfold Views.sub_exact. rewrite to_Q_add_exact, to_Q_neg. reflexivity. Qed.

Lemma Qsum_nil : Qsum [] = 0%Q.
Proof. reflexivity. Qed.

Lemma Qsum_cons (x : Q) (l : list Q) : Qsum (x :: l) = (x + Qsum l)%Q.
Proof. reflexivity. Qed.

Lemma to_Q_foldl_add_exact (rest : list Decimal) (x : Decimal) :
  (to_Q (foldl Views.add_exact x rest) == to_Q x + Qsum (to_Q <$> rest))%Q.
Proof.
  revert x. induction rest as [|y rest IH]; intros x; cbn [foldl fmap list_fmap].
  - rewrite Qsum_nil. ring.
  - rewrite Qsum_cons, IH, to_Q_add_exact. ring.
Qed.

(** SQL [SUM] as a rational number, NULL counting as zero. *)
Lemma value_of_Sum (col : list Decimal) :
  (value_or_0 (Views.Sum col) == Qsum (to_Q <$> col))%Q.
Proof.
  destruct col as [|x rest]; cbn [Views.Sum value_or_0 fmap list_fmap].
  - reflexivity.
  - rewrite Qsum_cons. apply to_Q_foldl_add_exact.
Qed.

(** The same after [or Decimal(0)]. *)
Lemma to_Q_or_Decimal_0 (x : option Decimal) :
  (to_Q (Views.or_Decimal_0 x) == value_or_0 x)%Q.
Proof.
  destruct x as [d|]; cbn [Views.or_Decimal_0 value_or_0]; [|reflexivity].
  unfold truthy. destruct (coeff d =? 0) eqn:Hz; cbn [negb]; [|reflexivity].
  apply Z.eqb_eq in Hz. now rewrite (to_Q_zero d Hz).
Qed.

Lemma to_Q_Sum (col : list Decimal) :
  (to_Q (Views.or_Decimal_0 (Views.Sum col)) == Qsum (to_Q <$> col))%Q.
Proof. rewrite to_Q_or_Decimal_0. apply value_of_Sum. Qed.

Lemma Qsum_Permutation (l1 l2 : list Q) : l1 ≡ₚ l2 -> (Qsum l1 == Qsum l2)%Q.
Proof.
  induction 1 as [|x l1 l2 _ IH|x y l|l1 l2 l3 _ IH1 _ IH2]; rewrite ?Qsum_cons.
  - reflexivity.
  - now rewrite IH.
  - ring.
  - now rewrite IH1.
Qed.

Lemma Qsum_plus {A : Type} (f g : A -> Q) (l : list A) :
  (Qsum ((fun x => f x + g x) <$> l) == Qsum (f <$> l) + Qsum (g <$> l))%Q.
Proof.
  induction l as [|x l IH]; cbn [fmap list_fmap]; rewrite ?Qsum_cons, ?Qsum_nil.
  - ring.
  - rewrite IH. ring.
Qed.

Lemma Qsum_ext {A : Type} (f g : A -> Q) (l : list A) :
  (forall x, x ∈ l -> (f x == g x)%Q) -> (Qsum (f <$> l) == Qsum (g <$> l))%Q.
Proof.
  induction l as [|x l IH]; intros H; cbn [fmap list_fmap]; rewrite ?Qsum_cons.
  - reflexivity.
  - rewrite (H x) by apply list_elem_of_here.
    rewrite IH; [reflexivity|]. intros y Hy. apply H. now apply list_elem_of_further.
Qed.

Lemma Qsum_zero {A : Type} (l : list A) : (Qsum ((fun _ => 0) <$> l) == 0)%Q.
Proof.
  induction l as [|x l IH]; cbn [fmap list_fmap]; rewrite ?Qsum_cons, ?Qsum_nil.
  - reflexivity.
  - rewrite IH. ring.
Qed.

(** A term that is [x] at the key [k] and zero elsewhere adds up to [x]
    over keys that hold [k] once. *)
Lemma Qsum_at_key (k : Cal.date) (x : Q) (keys : list Cal.date) :
  NoDup keys ->
  (Qsum ((fun d => if decide (k = d) then x else 0) <$> keys)
   == if decide (k ∈ keys) then x else 0)%Q.
Proof.
  induction 1 as [|d keys Hd _ IH]; cbn [fmap list_fmap]; rewrite ?Qsum_cons, ?Qsum_nil.
  - destruct (decide (k ∈ [])) as [Hin|_]; [|reflexivity].
    now apply elem_of_nil in Hin.
  - rewrite IH.
    destruct (decide (k = d)) as [->|Hne].
    + destruct (decide (d ∈ keys)) as [Hin|_]; [contradiction|].
      destruct (decide (d ∈ d :: keys)) as [_|Hout]; [ring|].
      exfalso. apply Hout. apply list_elem_of_here.
    + destruct (decide (k ∈ keys)) as [Hin|Hout].
      * destruct (decide (k ∈ d :: keys)) as [_|Hout]; [ring|].
        exfalso. apply Hout. now apply list_elem_of_further.
      * destruct (decide (k ∈ d :: keys)) as [Hin|_]; [|ring].
        apply elem_of_cons in Hin as [->|Hin]; contradiction.
Qed.

(** A sum over sessions is the sum, over the dates, of the sums over the
    sessions of each date. *)
Lemma Qsum_by_date (f : WorkSession -> Q) (keys : list Cal.date) (l : list WorkSession) :
  NoDup keys ->
  (forall s, s ∈ l -> date s ∈ keys) ->
  (Qsum ((fun d => Qsum (f <$> on_date d l)) <$> keys) == Qsum (f <$> l))%Q.
Proof.
  intros Hnd. induction l as [|s l IH]; intros Hin.
  - apply Qsum_zero.
  - rewrite (Qsum_ext _ (fun d => (if decide (date s = d) then f s else 0)
                                  + Qsum (f <$> on_date d l))%Q).
    + rewrite Qsum_plus, (Qsum_at_key (date s) (f s) keys Hnd).
      destruct (decide (date s ∈ keys)) as [_|Hout].
      * rewrite IH; [cbn [fmap list_fmap]; rewrite Qsum_cons; reflexivity|].
        intros s0 Hs0. apply Hin. now apply list_elem_of_further.
      * exfalso. apply Hout, Hin. apply list_elem_of_here.
    + intros d _. unfold on_date. rewrite filter_cons.
      destruct (decide (date s = d)); cbn [fmap list_fmap]; rewrite ?Qsum_cons;
        [reflexivity|ring].
Qed.

(** ** The dashboard: totals and chart *)

#[global] Instance date_le_total : Total Views.date_le.
Proof. intros a b. unfold Views.date_le. lia. Qed.

#[global] Instance date_le_trans : Transitive Views.date_le.
Proof. intros a b c. unfold Views.date_le. lia. Qed.

Lemma chart_dates (backend : Views.aggregates) (queryset : list WorkSession) :
  Views.full_date <$> Views.chart_data_qs backend queryset
  = merge_sort Views.date_le (remove_dups (date <$> queryset)).
Proof.
  unfold Views.chart_data_qs. rewrite <- list_fmap_compose.
  apply list_fmap_id.
Qed.

Lemma Sum_nonempty (col : list Decimal) : col <> [] -> exists d, Views.Sum col = Some d.
Proof. destruct col as [|x rest]; [congruence|]. cbn. eauto. Qed.

(** The chart has one entry for each date on which the period has a
    session, in ascending order of date, on every engine.  An entry
    holds what the engine answers for the sum of the net profits and for
    the sum of the earnings of that date's sessions, and as costs what
    it answers for the difference of the two sums.  On an engine that
    adds exactly, these are the sums as rational numbers, and the costs
    are the earnings minus the profit. *)
Theorem chart_data_by_date (backend : Views.aggregates) (db : DB) (u : User)
    (period : option string) (local_date : option Cal.date) (server_today : Cal.date) :
  match Views.get backend db u period local_date server_today with
  | Ok data =>
      exists queryset,
        Views.filter_period (default "today"%string period)
          (default server_today local_date) (Views.filter_user db u) = Ok queryset /\
        let chart := Views.chart_data data in
        (forall i j a b,
            (i < j)%nat -> chart !! i = Some a -> chart !! j = Some b ->
            toordinal (Views.full_date a) <= toordinal (Views.full_date b) /\
            Views.full_date a <> Views.full_date b) /\
        (forall d, (exists item, item ∈ chart /\ Views.full_date item = d)
                   <-> exists s, s ∈ queryset /\ date s = d) /\
        (forall item, item ∈ chart ->
           let group := on_date (Views.full_date item) queryset in
           group <> [] /\
           Views.profit item = Views.SUM backend (net_profit <$> group) /\
           Views.earnings item = Views.SUM backend (Models.total_earnings <$> group) /\
           Views.costs item
           = Views.SUM_minus_SUM backend (Models.total_earnings <$> group)
               (net_profit <$> group)) /\
        (numeric_engine backend ->
         forall item, item ∈ chart ->
           exists p e c,
             Views.profit item = Some p /\
             Views.earnings item = Some e /\
             Views.costs item = Some c /\
             (to_Q p == Qsum ((fun s => to_Q (net_profit s))
                              <$> on_date (Views.full_date item) queryset))%Q /\
             (to_Q e == Qsum ((fun s => to_Q (Models.total_earnings s))
                              <$> on_date (Views.full_date item) queryset))%Q /\
             (to_Q c == to_Q e - to_Q p)%Q)
  | Raise e =>
      e = OverflowError /\ period = Some "week"%string /\
      let today := default server_today local_date in
      ~ (1 <= toordinal today - weekday today /\
         toordinal today - weekday today + 6 <= MAXORDINAL)
  end.
Proof.
  destruct (Views.get backend db u period local_date server_today) as [data|e] eqn:Hget.
  - apply get_Ok_fields in Hget as (queryset & Hq & _ & _ & _ & _ & _ & Hchart & _).
    exists queryset. split; [exact Hq|]. cbn zeta. rewrite Hchart.
    pose proof (chart_dates backend queryset) as Hdates_eq.
    set (chart := Views.chart_data_qs backend queryset) in *.
    set (keys := remove_dups (date <$> queryset)) in *.
    assert (merge_sort Views.date_le keys ≡ₚ keys) as Hperm
      by apply merge_sort_Permutation.
    assert (forall d, d ∈ merge_sort Views.date_le keys
                      <-> exists s, s ∈ queryset /\ date s = d) as Hdates.
    { intros d. rewrite Hperm. subst keys. rewrite elem_of_remove_dups, list_elem_of_fmap.
      split; intros (s & H1 & H2); exists s; auto. }
    assert (forall item, item ∈ chart ->
              on_date (Views.full_date item) queryset <> [] /\
              Views.profit item
              = Views.SUM backend (net_profit <$> on_date (Views.full_date item) queryset) /\
              Views.earnings item
              = Views.SUM backend
                  (Models.total_earnings <$> on_date (Views.full_date item) queryset) /\
              Views.costs item
              = Views.SUM_minus_SUM backend
                  (Models.total_earnings <$> on_date (Views.full_date item) queryset)
                  (net_profit <$> on_date (Views.full_date item) queryset)) as Hitems.
    { intros item Hitem. subst chart. unfold Views.chart_data_qs in Hitem.
      apply list_elem_of_fmap in Hitem as (d & -> & Hd).
      apply Hdates in Hd as (s & Hs & Hsd).
      cbn [Views.full_date Views.profit Views.earnings Views.costs].
      fold (on_date d queryset).
      split; [|repeat split].
      intros Hnil. assert (s ∈ on_date d queryset) as Hin
        by (apply list_elem_of_filter; auto).
      rewrite Hnil in Hin. now apply elem_of_nil in Hin. }
    split; [|split; [|split]].
    + intros i j a b Hij Ha Hb.
      assert ((Views.full_date <$> chart) !! i = Some (Views.full_date a)) as Ha'
        by (rewrite list_lookup_fmap, Ha; reflexivity).
      assert ((Views.full_date <$> chart) !! j = Some (Views.full_date b)) as Hb'
        by (rewrite list_lookup_fmap, Hb; reflexivity).
      rewrite Hdates_eq in Ha', Hb'. split.
      * apply (StronglySorted_lookup Views.date_le (merge_sort Views.date_le keys)
                 (StronglySorted_merge_sort _ _) i j _ _ Hij Ha' Hb').
      * intros Heq. rewrite Heq in Ha'.
        assert (NoDup (merge_sort Views.date_le keys)) as Hnd
          by (rewrite Hperm; apply NoDup_remove_dups).
        pose proof (NoDup_lookup _ i j _ Hnd Ha' Hb'). lia.
    + intros d. rewrite <- Hdates, <- Hdates_eq, list_elem_of_fmap.
      split; intros (item & H1 & H2); exists item; auto.
    + exact Hitems.
    + intros [Hsum Hdiff] item Hitem.
      destruct (Hitems item Hitem) as (Hne & Hp & He & Hc).
      rewrite Hsum in Hp, He. rewrite Hdiff in Hc. unfold Views.Sum_minus_Sum in Hc.
      destruct (Sum_nonempty (net_profit <$> on_date (Views.full_date item) queryset))
        as [p Hp'].
      { intros Hnil. apply fmap_nil_inv in Hnil. contradiction. }
      destruct (Sum_nonempty
                  (Models.total_earnings <$> on_date (Views.full_date item) queryset))
        as [e He'].
      { intros Hnil. apply fmap_nil_inv in Hnil. contradiction. }
      rewrite He', Hp' in Hc.
      exists p, e, (Views.sub_exact e p).
      split; [congruence|]. split; [congruence|]. split; [exact Hc|].
      split; [|split].
      * change (to_Q p) with (value_or_0 (Some p)). rewrite <- Hp', value_of_Sum.
        now rewrite <- list_fmap_compose.
      * change (to_Q e) with (value_or_0 (Some e)). rewrite <- He', value_of_Sum.
        now rewrite <- list_fmap_compose.
      * apply to_Q_sub_exact.
  - apply get_Raise in Hget. apply filter_period_Raise in Hget as (-> & Hp & Hw).
    repeat split; [|exact Hw].
    destruct period as [p|]; cbn in Hp; [now subst p|discriminate].
Qed.

Lemma chart_column (backend : Views.aggregates) (f : WorkSession -> Decimal)
    (g : Views.chart_item -> option Decimal) (queryset : list WorkSession) :
  (forall item, item ∈ Views.chart_data_qs backend queryset ->
     g item = Views.Sum (f <$> on_date (Views.full_date item) queryset)) ->
  (Qsum ((fun item => value_or_0 (g item)) <$> Views.chart_data_qs backend queryset)
   == Qsum ((fun s => to_Q (f s)) <$> queryset))%Q.
Proof.
  intros Hg.
  rewrite (Qsum_ext _ (fun item => Qsum ((fun s => to_Q (f s))
                                         <$> on_date (Views.full_date item) queryset))).
  - assert ((fun item => Qsum ((fun s => to_Q (f s))
                                <$> on_date (Views.full_date item) queryset))
            <$> Views.chart_data_qs backend queryset
            = (fun d => Qsum ((fun s => to_Q (f s)) <$> on_date d queryset))
              <$> (Views.full_date <$> Views.chart_data_qs backend queryset)) as ->
      by (now rewrite <- list_fmap_compose).
    rewrite chart_dates.
    set (keys := remove_dups (date <$> queryset)).
    rewrite (Qsum_Permutation _ ((fun d => Qsum ((fun s => to_Q (f s)) <$> on_date d queryset))
                                 <$> keys)).
    + apply Qsum_by_date; [apply NoDup_remove_dups|].
      intros s Hs. subst keys. apply elem_of_remove_dups, list_elem_of_fmap. eauto.
    + apply fmap_Permutation, merge_sort_Permutation.
  - intros item Hitem. rewrite (Hg item Hitem), value_of_Sum.
    now rewrite <- list_fmap_compose.
Qed.

(** The chart adds up to the totals on an engine that adds exactly: over
    its entries the profits sum to the total net profit of the dashboard
    and the earnings to the total earnings.  The costs of the chart
    therefore sum to total earnings minus total net profit, which counts
    application fee and tax estimate as costs; [total_costs] counts
    neither.  ([get] answers unless the period is a week that runs past
    [date.max].) *)
Theorem chart_adds_up_to_totals (backend : Views.aggregates) (db : DB) (u : User)
    (period : option string) (local_date : option Cal.date) (server_today : Cal.date) :
  numeric_engine backend ->
  match Views.get backend db u period local_date server_today with
  | Ok data =>
      let chart := Views.chart_data data in
      (Qsum ((fun item => value_or_0 (Views.profit item)) <$> chart)
       == to_Q (Views.total_net_profit data))%Q /\
      (Qsum ((fun item => value_or_0 (Views.earnings item)) <$> chart)
       == to_Q (Views.total_earnings data))%Q /\
      (Qsum ((fun item => value_or_0 (Views.costs item)) <$> chart)
       == to_Q (Views.total_earnings data) - to_Q (Views.total_net_profit data))%Q
  | Raise e => e = OverflowError /\ period = Some "week"%string
  end.
Proof.
  intros [Hsum Hdiff].
  destruct (Views.get backend db u period local_date server_today) as [data|e] eqn:Hget.
  2:{ apply get_Raise in Hget. apply filter_period_Raise in Hget as (-> & Hp & _).
      split; [reflexivity|].
      destruct period as [p|]; cbn in Hp; [now subst p|discriminate]. }
  cbn zeta.
  apply get_Ok_fields in Hget as (queryset & _ & H1 & H2 & _ & _ & _ & Hchart & _).
  rewrite Hchart, H1, H2, !Hsum, !to_Q_Sum, <- !list_fmap_compose.
  assert (Qsum ((fun item => value_or_0 (Views.profit item))
                <$> Views.chart_data_qs backend queryset)
          == Qsum ((fun s => to_Q (net_profit s)) <$> queryset))%Q as Hp.
  { apply chart_column. intros item Hitem. unfold Views.chart_data_qs in Hitem.
    apply list_elem_of_fmap in Hitem as (d & -> & _). apply Hsum. }
  assert (Qsum ((fun item => value_or_0 (Views.earnings item))
                <$> Views.chart_data_qs backend queryset)
          == Qsum ((fun s => to_Q (Models.total_earnings s)) <$> queryset))%Q as He.
  { apply chart_column. intros item Hitem. unfold Views.chart_data_qs in Hitem.
    apply list_elem_of_fmap in Hitem as (d & -> & _). apply Hsum. }
  split; [exact Hp|]. split; [exact He|].
  rewrite <- Hp, <- He.
  rewrite (Qsum_ext _ (fun item => value_or_0 (Views.earnings item)
                                   + (- value_or_0 (Views.profit item)))%Q).
  - rewrite Qsum_plus.
    assert (forall l : list Views.chart_item,
               Qsum ((fun item => - value_or_0 (Views.profit item)) <$> l)
               == - Qsum ((fun item => value_or_0 (Views.profit item)) <$> l))%Q as Hneg.
    { induction l as [|x l IH]; cbn [fmap list_fmap]; rewrite ?Qsum_cons, ?Qsum_nil.
      - reflexivity.
      - rewrite IH. ring. }
    rewrite Hneg. reflexivity.
  - intros item Hitem. unfold Views.chart_data_qs in Hitem.
    apply list_elem_of_fmap in Hitem as (d & -> & _).
    cbn [Views.profit Views.earnings Views.costs].
    rewrite !Hsum, Hdiff. unfold Views.Sum_minus_Sum.
    destruct (filter (fun s => date s = d) queryset) as [|x g];
      cbn [fmap list_fmap Views.Sum value_or_0].
    + ring.
    + rewrite to_Q_sub_exact. reflexivity.
Qed.

Lemma chart_adds_up_to_totals_witness :
  exists data,
    Views.get Views.numeric renter_db_2 (mkUser 1 false) (Some "all"%string) None
      (mkDate 2026 11 4)
    = Ok data /\
    let chart := Views.chart_data data in
    (Qsum ((fun item => value_or_0 (Views.profit item)) <$> chart)
     == to_Q (Views.total_net_profit data))%Q /\
    (Qsum ((fun item => value_or_0 (Views.earnings item)) <$> chart)
     == to_Q (Views.total_earnings data))%Q /\
    (Qsum ((fun item => value_or_0 (Views.costs item)) <$> chart)
     == to_Q (Views.total_earnings data) - to_Q (Views.total_net_profit data))%Q.
Proof.
  pose proof (chart_adds_up_to_totals Views.numeric renter_db_2 (mkUser 1 false)
                (Some "all"%string) None (mkDate 2026 11 4) numeric_is_numeric) as H.
  destruct (Views.get Views.numeric renter_db_2 (mkUser 1 false) (Some "all"%string) None
              (mkDate 2026 11 4)) as [data|e] eqn:Hget;
    [|vm_compute in Hget; discriminate Hget].
  exists data. split; [reflexivity|exact H].
Defined.

(** ** A created session in the dashboard *)

Lemma filter_user_insert (ps : gmap nat UserProfile) (m : gmap positive WorkSession)
    (k : positive) (row : WorkSession) (u : User) :
  m !! k = None ->
  Views.filter_user (mkDB ps (<[k := row]> m)) u
  ≡ₚ (if decide (uid (user row) = uid u) then [row] else [])
     ++ Views.filter_user (mkDB ps m) u.
Proof.
  intros Hk. unfold Views.filter_user. cbn [sessions].
  rewrite (map_to_list_insert m k row Hk). cbn [fmap list_fmap snd].
  rewrite filter_cons. destruct (decide (uid (user row) = uid u)); reflexivity.
Qed.

Lemma get_all (backend : Views.aggregates) (db : DB) (u : User) (other : string)
    (local_date : option Cal.date) (server_today : Cal.date) (data : Views.dashboard_data) :
  other <> "today"%string -> other <> "week"%string -> other <> "month"%string ->
  Views.get backend db u (Some other) local_date server_today = Ok data ->
  Views.session_count data = length (Views.filter_user db u) /\
  (numeric_engine backend ->
   (to_Q (Views.total_earnings data)
    == Qsum ((fun s => to_Q (Models.total_earnings s)) <$> Views.filter_user db u))%Q /\
   (to_Q (Views.total_net_profit data)
    == Qsum ((fun s => to_Q (net_profit s)) <$> Views.filter_user db u))%Q).
Proof.
  intros H1 H2 H3 Hget.
  apply get_Ok_fields in Hget as (queryset & Hq & E1 & E2 & _ & _ & E5 & _).
  cbn [default from_option] in Hq. unfold id in Hq.
  unfold Views.filter_period in Hq.
  apply String.eqb_neq in H1, H2, H3. rewrite H1, H2, H3 in Hq.
  injection Hq as <-.
  split; [exact E5|]. intros [Hsum _]. split.
  - rewrite E2, Hsum, to_Q_Sum, <- list_fmap_compose. reflexivity.
  - rewrite E1, Hsum, to_Q_Sum, <- list_fmap_compose. reflexivity.
Qed.

(** For a period that selects every session the dashboard answers. *)
Lemma get_all_answers (backend : Views.aggregates) (db : DB) (u : User)
    (local_date : option Cal.date) (server_today : Cal.date) :
  exists data,
    Views.get backend db u (Some "all"%string) local_date server_today = Ok data.
Proof.
  destruct (Views.get backend db u (Some "all"%string) local_date server_today)
    as [data|e] eqn:Hget; [eauto|].
  apply get_Raise in Hget. apply filter_period_Raise in Hget as (_ & Hw & _).
  discriminate Hw.
Qed.

(** The dashboard reads the session table only. *)
Lemma get_same_sessions (backend : Views.aggregates) (db db' : DB) (u : User)
    (period : option string) (local_date : option Cal.date) (server_today : Cal.date) :
  sessions db' = sessions db ->
  Views.get backend db' u period local_date server_today
  = Views.get backend db u period local_date server_today.
Proof.
  intros Hs. unfold Views.get, Views.filter_user. now rewrite Hs.
Qed.

(** A session created through the API shows in the dashboard of its
    owner and in no other.  The dashboard answers for a period that
    selects every session (such as [all]), before and after the request
    of a user with a profile row.  When the request ends with a session
    stored, the answer counts one session more than before, on every
    engine, and the count for every other user is unchanged; on an
    engine that adds exactly, the total earnings and the total net
    profit grow by the earnings and the net profit of the stored row.
    When the request raises, be it at the credit gate or in the
    creation, every dashboard answers as before. *)
Theorem created_session_in_dashboard (backend : Views.aggregates) (db : DB) (u : User)
    (p : UserProfile) (vd : Serializers.validated_data) :
  has_profile db u p ->
  let db' := fst (Views.perform_create db u vd) in
  (forall u0 local_date server_today,
      exists data data',
        Views.get backend db u0 (Some "all"%string) local_date server_today = Ok data /\
        Views.get backend db' u0 (Some "all"%string) local_date server_today = Ok data') /\
  match snd (Views.perform_create db u vd) with
  | Ok s' =>
      exists k row,
        pk s' = Some k /\
        sessions db !! k = None /\
        sessions db' !! k = Some row /\
        uid (user row) = uid u /\
        (forall local_date server_today data data',
            Views.get backend db u (Some "all"%string) local_date server_today = Ok data ->
            Views.get backend db' u (Some "all"%string) local_date server_today = Ok data' ->
            Views.session_count data' = S (Views.session_count data) /\
            (numeric_engine backend ->
             (to_Q (Views.total_earnings data')
              == to_Q (Views.total_earnings data) + to_Q (Models.total_earnings row))%Q /\
             (to_Q (Views.total_net_profit data')
              == to_Q (Views.total_net_profit data) + to_Q (net_profit row))%Q)) /\
        (forall u2 local_date server_today data data',
            uid u2 <> uid u ->
            Views.get backend db u2 (Some "all"%string) local_date server_today = Ok data ->
            Views.get backend db' u2 (Some "all"%string) local_date server_today = Ok data' ->
            Views.session_count data' = Views.session_count data)
  | Raise _ =>
      forall u0 period local_date server_today,
        Views.get backend db' u0 period local_date server_today
        = Views.get backend db u0 period local_date server_today
  end.
Proof.
  intros Hp. cbn zeta.
  split.
  { intros u0 local_date server_today.
    destruct (get_all_answers backend db u0 local_date server_today) as [data Hd].
    destruct (get_all_answers backend (fst (Views.perform_create db u vd)) u0
                local_date server_today) as [data' Hd'].
    eauto. }
  pose proof (perform_create_with_profile db u p vd Hp) as Hstep.
  destruct (negb (is_pro p) && (credits p <? 10)).
  { rewrite Hstep. cbn [fst snd]. reflexivity. }
  destruct Hstep as (Hps & Hstep).
  set (db' := fst (Views.perform_create db u vd)) in *.
  destruct (snd (Views.perform_create db u vd)) as [s'|e];
    [|intros u0 period local_date server_today; now apply get_same_sessions].
  destruct Hstep as (k & Hpk & Hk & Hu & _ & Hs).
  assert (forall u0, Views.filter_user db' u0
                     ≡ₚ (if decide (uid (user (to_row s')) = uid u0)
                         then [to_row s'] else [])
                        ++ Views.filter_user db u0) as Hins.
  { intros u0.
    assert (Views.filter_user db' u0
            = Views.filter_user (mkDB (profiles db) (<[k := to_row s']> (sessions db))) u0)
      as -> by (unfold Views.filter_user; cbn [sessions]; now rewrite Hs).
    rewrite (filter_user_insert (profiles db) (sessions db) k (to_row s') u0 Hk).
    reflexivity. }
  assert (uid (user (to_row s')) = uid u) as Hown by (cbn; now rewrite Hu).
  exists k, (to_row s').
  split; [exact Hpk|]. split; [exact Hk|].
  split; [rewrite Hs; apply lookup_insert_eq|]. split; [exact Hown|].
  split.
  - intros local_date server_today data data' Hget Hget'.
    apply get_all in Hget as (C & T); try discriminate.
    apply get_all in Hget' as (C' & T'); try discriminate.
    specialize (Hins u). destruct (decide _) as [_|Hne]; [|contradiction].
    cbn [app] in Hins.
    split; [rewrite C', C, Hins; reflexivity|].
    intros Hnum. destruct (T Hnum) as [E N]. destruct (T' Hnum) as [E' N']. split.
    + rewrite E', E.
      rewrite (Qsum_Permutation _ _ (fmap_Permutation _ _ _ Hins)).
      cbn [fmap list_fmap]. rewrite Qsum_cons. ring.
    + rewrite N', N.
      rewrite (Qsum_Permutation _ _ (fmap_Permutation _ _ _ Hins)).
      cbn [fmap list_fmap]. rewrite Qsum_cons. ring.
  - intros u2 local_date server_today data data' Hne Hget Hget'.
    apply get_all in Hget as (C & _); try discriminate.
    apply get_all in Hget' as (C' & _); try discriminate.
    specialize (Hins u2). destruct (decide _) as [Heq|_]; [congruence|].
    cbn [app] in Hins. rewrite C', C, Hins. reflexivity.
Qed.

Lemma created_session_in_dashboard_witness :
  exists s' k row data data',
    snd (Views.perform_create bicycle_db (mkUser 1 false) bicycle_request) = Ok s' /\
    pk s' = Some k /\
    sessions (fst (Views.perform_create bicycle_db (mkUser 1 false) bicycle_request)) !! k
    = Some row /\
    Views.get Views.numeric bicycle_db (mkUser 1 false) (Some "all"%string) None
      (mkDate 2026 11 4) = Ok data /\
    Views.get Views.numeric
      (fst (Views.perform_create bicycle_db (mkUser 1 false) bicycle_request))
      (mkUser 1 false) (Some "all"%string) None (mkDate 2026 11 4) = Ok data' /\
    Views.session_count data' = S (Views.session_count data) /\
    (to_Q (Views.total_earnings data')
     == to_Q (Views.total_earnings data) + to_Q (Models.total_earnings row))%Q /\
    (to_Q (Views.total_net_profit data')
     == to_Q (Views.total_net_profit data) + to_Q (net_profit row))%Q.
Proof.
  destruct (created_session_in_dashboard Views.numeric bicycle_db (mkUser 1 false)
              bicycle_profile bicycle_request) as [Hanswers Hcase];
    [split; reflexivity|].
  destruct (Hanswers (mkUser 1 false) None (mkDate 2026 11 4))
    as (data & data' & Hget & Hget').
  destruct (snd (Views.perform_create bicycle_db (mkUser 1 false) bicycle_request))
    as [s'|e] eqn:Hcreate; [|vm_compute in Hcreate; discriminate Hcreate].
  destruct Hcase as (k & row & Hpk & _ & Hrow & _ & Hown & _).
  destruct (Hown None (mkDate 2026 11 4) data data' Hget Hget') as [Hcount Hsums].
  destruct (Hsums numeric_is_numeric) as [He Hn].
  exists s', k, row, data, data'.
  split; [reflexivity|]. split; [exact Hpk|]. split; [exact Hrow|].
  split; [exact Hget|]. split; [exact Hget'|].
  split; [exact Hcount|]. split; [exact He|exact Hn].
Defined.

(** ** The profile views *)

Lemma get_or_create_spec (db : DB) (u : nat) :
  Profiles.get_or_create db u
  = (mkDB (<[u := profile_or_default db u]> (profiles db)) (sessions db),
     profile_or_default db u,
     bool_decide (profiles db !! u = None)).
Proof.
  unfold Profiles.get_or_create, profile_or_default.
  destruct (profiles db !! u) as [p|] eqn:Hp; cbn [default from_option].
  - rewrite insert_id by exact Hp. now destruct db.
  - reflexivity.
Qed.

(** [PUT /api/profile/] writes what it is given and nothing else: every
    submitted field is stored as submitted, every other field keeps its
    value (the declared default for a user who had no profile), no other
    profile and no session changes.  The balance and the pro flag are
    among the fields it writes, and they are what the credit gate reads:
    after a request that submits [is_pro = true] the gate lets the user
    through without charge, and after one that submits a balance [c]
    (and does not make the user pro) the gate charges against [c].
    Rejected data creates the missing profile and changes nothing
    else. *)
Theorem profile_put_is_what_the_gate_reads (db : DB) (u : nat)
    (pd : Profiles.profile_data) :
  let p0 := profile_or_default db u in
  let db' := Profiles.put db u (Some pd) in
  profiles db' !! u = Some (Profiles.set_profile_attrs pd p0) /\
  (forall u', u' <> u -> profiles db' !! u' = profiles db !! u') /\
  sessions db' = sessions db /\
  (Profiles.pd_is_pro pd = Some true ->
   Views.deduct_credits db' (mkUser u false) = Ok db') /\
  (forall c, Profiles.pd_credits pd = Some c ->
     default (is_pro p0) (Profiles.pd_is_pro pd) = false ->
     Views.deduct_credits db' (mkUser u false)
     = (if c <? 10 then Raise CreditsExhausted
        else Ok (save_profile db' u
                   (Views.set_credits (c - 10) (Profiles.set_profile_attrs pd p0)))) /\
     (10 <= c ->
      exists db2, Views.deduct_credits db' (mkUser u false) = Ok db2 /\
                  credits <$> profiles db2 !! u = Some (c - 10))) /\
  credits <$> profiles db' !! u = Some (default (credits p0) (Profiles.pd_credits pd)) /\
  is_pro <$> profiles db' !! u = Some (default (is_pro p0) (Profiles.pd_is_pro pd)) /\
  Profiles.put db u None
  = mkDB (<[u := p0]> (profiles db)) (sessions db).
Proof.
  cbn zeta.
  set (p0 := profile_or_default db u).
  set (p1 := Profiles.set_profile_attrs pd p0).
  assert (Profiles.put db u (Some pd) = mkDB (<[u := p1]> (profiles db)) (sessions db))
    as Hput.
  { unfold Profiles.put. rewrite get_or_create_spec. unfold save_profile.
    cbn [profiles sessions]. now rewrite insert_insert_eq. }
  rewrite Hput.
  assert (<[u := p1]> (profiles db) !! u = Some p1) as Hrow by apply lookup_insert_eq.
  cbn [profiles sessions].
  split; [exact Hrow|].
  split; [intros u' Hne; now apply lookup_insert_ne|].
  split; [reflexivity|].
  unfold Views.deduct_credits, get_profile.
  cbn [profile_created uid profiles]. rewrite Hrow.
  cbn [or_raise bind profile_row].
  split; [|split; [|split; [|split]]].
  - intros Hpro. subst p1. cbn [Profiles.set_profile_attrs is_pro].
    rewrite Hpro. reflexivity.
  - intros c Hc Hnot. subst p1. cbn [Profiles.set_profile_attrs is_pro credits].
    rewrite Hnot, Hc. cbn [default from_option negb]. unfold id.
    split; [destruct (c <? 10); reflexivity|].
    intros Hten. apply Z.ltb_ge in Hten. rewrite Hten.
    eexists. split; [reflexivity|].
    cbn [save_profile profiles]. rewrite lookup_insert_eq. reflexivity.
  - reflexivity.
  - reflexivity.
  - unfold Profiles.put. rewrite get_or_create_spec. reflexivity.
Qed.

(** [GET /api/me/billing/] reports the profile as stored: the balance of
    the row, the plan [pro] with status [active] exactly for a pro
    profile and [starter_beta] with status [none] otherwise.  For a user
    without profile it inserts the default one and reports 300 credits
    on the starter plan; for a user with a profile it changes nothing,
    so that asking twice gives the same answer and the same database as
    asking once. *)
Theorem billing_config_reports_profile (enabled : bool) (db : DB) (u : nat) :
  let '(db', cfg) := Profiles.billing_config_get enabled db u in
  let p := profile_or_default db u in
  Profiles.credits_remaining cfg = credits p /\
  Profiles.config_is_pro cfg = is_pro p /\
  (Profiles.plan cfg = "pro"%string <-> is_pro p = true) /\
  (Profiles.subscription_status cfg = "active"%string <-> is_pro p = true) /\
  (profiles db !! u = None ->
   Profiles.credits_remaining cfg = 300 /\ Profiles.plan cfg = "starter_beta"%string /\
   profiles db' !! u = Some default_profile) /\
  (is_Some (profiles db !! u) -> db' = db) /\
  sessions db' = sessions db /\
  Profiles.billing_config_get enabled db' u = (db', cfg).
Proof.
  unfold Profiles.billing_config_get. rewrite get_or_create_spec.
  set (p := profile_or_default db u). cbn zeta.
  set (db' := mkDB _ _).
  assert (profile_or_default db' u = p) as Hp'.
  { unfold profile_or_default at 1. subst db'. cbn [profiles].
    now rewrite lookup_insert_eq. }
  assert (mkDB (<[u := p]> (profiles db')) (sessions db') = db') as Hdb'.
  { subst db'. cbn [profiles sessions]. now rewrite insert_insert_eq. }
  cbn [Profiles.credits_remaining Profiles.config_is_pro Profiles.plan
       Profiles.subscription_status].
  split; [reflexivity|]. split; [reflexivity|].
  split; [destruct (is_pro p); split; (reflexivity || discriminate)|].
  split; [destruct (is_pro p); split; (reflexivity || discriminate)|].
  split; [|split; [|split]].
  - intros Hnone. subst p db'. unfold profile_or_default. rewrite Hnone.
    cbn [default from_option profiles]. rewrite lookup_insert_eq. repeat split.
  - intros [p1 Hsome]. subst p db'. unfold profile_or_default. rewrite Hsome.
    cbn [default from_option]. unfold id. rewrite insert_id by exact Hsome.
    now destruct db.
  - reflexivity.
  - rewrite get_or_create_spec, Hp', Hdb'. reflexivity.
Qed.

(** ** The command [fix_beta_users] *)

Lemma after_fix_done (r : Commands.billing_row) :
  Commands.needs_fix (after_fix r) = false.
Proof.
  unfold after_fix. destruct (Commands.needs_fix r) eqn:H; [reflexivity|exact H].
Qed.

Lemma foldl_step_spec (l : list (nat * Commands.billing_row)) :
  forall (table : gmap nat Commands.billing_row) (n : nat),
    NoDup l.*1 ->
    (forall u r, (u, r) ∈ l -> table !! u = Some r) ->
    (forall u r, (u, r) ∈ l ->
                 (foldl Commands.step (table, n) l).1 !! u = Some (after_fix r)) /\
    (forall u, u ∉ l.*1 -> (foldl Commands.step (table, n) l).1 !! u = table !! u) /\
    (foldl Commands.step (table, n) l).2 = (n + length (rows_to_fix l))%nat.
Proof.
  induction l as [|[u0 r0] l IH]; intros table n Hnd Hin.
  - cbn. repeat split; [|lia].
    intros u r H. now apply elem_of_nil in H.
  - cbn [fmap list_fmap fst] in Hnd. apply NoDup_cons in Hnd as [Hu0 Hnd].
    cbn [foldl].
    assert (Commands.step (table, n) (u0, r0)
            = (<[u0 := after_fix r0]> table,
               (n + (if Commands.needs_fix r0 then 1 else 0))%nat)) as ->.
    { unfold Commands.step, after_fix. destruct (Commands.needs_fix r0).
      - f_equal. lia.
      - rewrite insert_id; [f_equal; lia|]. apply Hin. apply list_elem_of_here. }
    destruct (IH (<[u0 := after_fix r0]> table)
                 (n + (if Commands.needs_fix r0 then 1 else 0))%nat Hnd)
      as (IH1 & IH2 & IH3).
    { intros u r Hur. rewrite lookup_insert_ne.
      - apply Hin. now apply list_elem_of_further.
      - intros <-. apply Hu0. apply list_elem_of_fmap. exists (u0, r). auto. }
    split; [|split].
    + intros u r Hur. apply elem_of_cons in Hur as [[= -> ->]|Hur].
      * rewrite IH2 by exact Hu0. apply lookup_insert_eq.
      * now apply IH1.
    + intros u Hu. cbn [fmap list_fmap fst] in Hu. apply not_elem_of_cons in Hu as [Hne Hu].
      rewrite IH2 by exact Hu. now apply lookup_insert_ne.
    + rewrite IH3. unfold rows_to_fix. rewrite filter_cons. cbn [snd].
      destruct (decide (Commands.needs_fix r0 = true)) as [->|Hno]; cbn [length]; [lia|].
      apply not_true_is_false in Hno. rewrite Hno. lia.
Qed.

Lemma handle_table (table : gmap nat Commands.billing_row) :
  (Commands.handle table).1 = after_fix <$> table.
Proof.
  apply map_eq. intros u. rewrite lookup_fmap. unfold Commands.handle.
  destruct (foldl_step_spec (map_to_list table) table 0 (NoDup_fst_map_to_list table))
    as (H1 & H2 & _).
  { intros u0 r Hur. now apply elem_of_map_to_list. }
  destruct (table !! u) as [r|] eqn:Hu; cbn [fmap option_fmap option_map].
  - apply H1. now apply elem_of_map_to_list.
  - rewrite H2; [exact Hu|].
    intros Hin. apply list_elem_of_fmap in Hin as ([u1 r1] & -> & Hin).
    apply elem_of_map_to_list in Hin. cbn in Hu. congruence.
Qed.

Lemma handle_count (table : gmap nat Commands.billing_row) :
  (Commands.handle table).2 = length (rows_to_fix (map_to_list table)).
Proof.
  unfold Commands.handle.
  destruct (foldl_step_spec (map_to_list table) table 0 (NoDup_fst_map_to_list table))
    as (_ & _ & H3).
  { intros u0 r Hur. now apply elem_of_map_to_list. }
  exact H3.
Qed.

(** The command revokes the pro flag of exactly the profiles that are
    pro with a subscription status other than [active] ([on_trial] and
    [past_due] among them), and reports how many they were.  Afterwards
    every pro profile has the status [active]; the balance, the status
    and every other field of every profile are as before, and no profile
    is added or removed.  Running the command again changes nothing and
    reports 0. *)
Theorem fix_beta_users_revokes_inactive_pro (table : gmap nat Commands.billing_row) :
  let table' := (Commands.handle table).1 in
  let fixed_count := (Commands.handle table).2 in
  (forall u, table' !! u = after_fix <$> table !! u) /\
  (forall u r', table' !! u = Some r' ->
     is_pro (Commands.row_profile r') = true -> Commands.ls_status r' = "active"%string) /\
  (forall u r r', table !! u = Some r -> table' !! u = Some r' ->
     Commands.ls_status r' = Commands.ls_status r /\
     Commands.row_profile r'
     = Commands.set_is_pro (is_pro (Commands.row_profile r')) (Commands.row_profile r) /\
     (is_pro (Commands.row_profile r') = true -> r' = r)) /\
  fixed_count = length (rows_to_fix (map_to_list table)) /\
  Commands.handle table' = (table', 0%nat).
Proof.
  cbn zeta. rewrite handle_count, handle_table.
  split; [intros u; apply lookup_fmap|].
  split; [|split; [|split]].
  - intros u r' Hr' Hpro. rewrite lookup_fmap in Hr'.
    destruct (table !! u) as [r|]; [|discriminate]. injection Hr' as <-.
    pose proof (after_fix_done r) as Hdone. unfold Commands.needs_fix in Hdone.
    rewrite Hpro in Hdone. cbn [andb] in Hdone.
    apply negb_false_iff, String.eqb_eq in Hdone. exact Hdone.
  - intros u r r' Hr Hr'. rewrite lookup_fmap, Hr in Hr'. injection Hr' as <-.
    unfold after_fix. destruct (Commands.needs_fix r) eqn:Hfix.
    + cbn. repeat split. discriminate.
    + repeat split. now destruct r as [[] ?].
  - reflexivity.
  - assert (after_fix <$> (after_fix <$> table) = after_fix <$> table) as Hidem.
    { rewrite <- map_fmap_compose. apply map_fmap_ext. intros u r _.
      cbn. unfold after_fix at 1. now rewrite after_fix_done. }
    apply injective_projections; cbn [fst snd].
    + rewrite handle_table. exact Hidem.
    + rewrite handle_count. unfold rows_to_fix.
      apply length_zero_iff_nil, elem_of_nil_inv. intros [u r] Hin.
      apply list_elem_of_filter in Hin as [Hfix Hin]. cbn in Hfix.
      apply elem_of_map_to_list in Hin. rewrite lookup_fmap in Hin.
      destruct (table !! u) as [r0|]; [|discriminate]. injection Hin as <-.
      rewrite after_fix_done in Hfix. discriminate.
Qed.

(** ** The accuracy of the decimal division *)

Lemma ndigits_aux_spec (fuel : nat) :
  forall n, 0 < n -> n < 2 ^ (Z.of_nat fuel + 1) ->
            1 <= ndigits_aux fuel n /\
            10 ^ (ndigits_aux fuel n - 1) <= n < 10 ^ ndigits_aux fuel n.
Proof.
  induction fuel as [|f IH]; intros n Hn Hlog.
  - change (2 ^ (Z.of_nat 0 + 1)) with 2 in Hlog.
    assert (n = 1) as -> by lia. cbn. lia.
  - cbn [ndigits_aux]. destruct (n <? 10) eqn:Hlt.
    + apply Z.ltb_lt in Hlt. cbn. lia.
    + apply Z.ltb_ge in Hlt.
      assert (0 < n / 10) as Hq by (apply Z.div_str_pos; lia).
      assert (n / 10 < 2 ^ (Z.of_nat f + 1)) as Hlog'.
      { apply Z.div_lt_upper_bound; [lia|].
        replace (Z.of_nat (S f) + 1) with (1 + (Z.of_nat f + 1)) in Hlog by lia.
        rewrite Z.pow_add_r in Hlog by lia. change (2 ^ 1) with 2 in Hlog.
        assert (0 < 2 ^ (Z.of_nat f + 1)) by (apply Z.pow_pos_nonneg; lia).
        lia. }
      destruct (IH (n / 10) Hq Hlog') as (H1 & Hlo & Hhi).
      set (d := ndigits_aux f (n / 10)) in *.
      split; [lia|].
      replace d with (1 + (d - 1)) in Hhi |- * at 2 by lia.
      replace (1 + d - 1) with (1 + (d - 1)) by lia.
      rewrite !Z.pow_add_r in * by lia. change (10 ^ 1) with 10 in *.
      pose proof (Z.div_mod n 10 ltac:(lia)) as Hdm.
      pose proof (Z.mod_pos_bound n 10 ltac:(lia)) as Hr.
      split; lia.
Qed.

(** A non-zero coefficient has [ndigits] decimal digits. *)
Lemma ndigits_spec (c : Z) :
  c <> 0 ->
  1 <= ndigits c /\ 10 ^ (ndigits c - 1) <= Z.abs c < 10 ^ ndigits c.
Proof.
  intros Hc. unfold ndigits. apply ndigits_aux_spec; [lia|].
  rewrite Z2Nat.id by apply Z.log2_nonneg.
  pose proof (Z.log2_spec (Z.abs c) ltac:(lia)) as [_ H].
  replace (Z.log2 (Z.abs c) + 1) with (Z.succ (Z.log2 (Z.abs c))) by lia. exact H.
Qed.

(** Rounding to the precision of the context moves the exponent up by
    some [k] and the value by at most half a unit of the 28th digit. *)
Lemma fix_accuracy (d : Decimal) :
  exists k, 0 <= k /\ expo (fix_ d) = expo d + k /\
            2 * 10 ^ 27 * Z.abs (coeff (fix_ d) * 10 ^ k - coeff d) <= Z.abs (coeff d).
Proof.
  unfold fix_. destruct (Z.abs (coeff d) <? 10 ^ prec) eqn:Hsmall.
  - exists 0. rewrite Z.pow_0_r, Z.mul_1_r, Z.sub_diag, Z.add_0_r. cbn [Z.abs]. lia.
  - apply Z.ltb_ge in Hsmall. unfold prec in *.
    assert (coeff d <> 0) as Hnz by (assert (0 < 10 ^ 28) by reflexivity; lia).
    destruct (ndigits_spec (coeff d) Hnz) as (_ & Hlo & Hhi).
    set (c := coeff d) in *. set (nd := ndigits c) in *.
    assert (28 < nd) as Hnd.
    { destruct (Z_lt_le_dec 28 nd) as [|Hle]; [assumption|].
      assert (10 ^ nd <= 10 ^ 28) by (apply Z.pow_le_mono_r; lia). lia. }
    set (sh := nd - 28).
    assert (0 < 10 ^ sh) as Hpos by (apply Z.pow_pos_nonneg; lia).
    assert (10 ^ (nd - 1) = 10 ^ 27 * 10 ^ sh) as Hlo_eq.
    { rewrite <- Z.pow_add_r by lia. f_equal. lia. }
    assert (10 ^ nd = 10 ^ 28 * 10 ^ sh) as Hhi_eq.
    { rewrite <- Z.pow_add_r by lia. f_equal. lia. }
    pose proof (round_half_even_error c (10 ^ sh) Hpos) as Herr.
    set (c' := round_half_even c (10 ^ sh)) in *.
    assert (2 * 10 ^ 27 * Z.abs (c' * 10 ^ sh - c) <= Z.abs c) as Hrel.
    { rewrite Hlo_eq in Hlo.
      transitivity (10 ^ 27 * 10 ^ sh); [|exact Hlo].
      transitivity (10 ^ 27 * (2 * Z.abs (c' * 10 ^ sh - c))).
      - apply Z.eq_le_incl. ring.
      - apply Z.mul_le_mono_nonneg_l; [apply Z.pow_nonneg; lia|exact Herr]. }
    destruct (Z.abs c' <? 10 ^ 28) eqn:Hc'; cbn [coeff expo].
    + exists sh. repeat split; [lia|exact Hrel].
    + apply Z.ltb_ge in Hc'.
      assert (c' <= 10 ^ 28) as Hup
        by (apply round_half_even_upper; [exact Hpos|lia]).
      assert (- 10 ^ 28 <= c') as Hdown
        by (apply round_half_even_lower; [exact Hpos|lia]).
      exists (sh + 1). split; [lia|]. split; [lia|].
      assert (c' / 10 * 10 ^ (sh + 1) = c' * 10 ^ sh) as ->; [|exact Hrel].
      rewrite Z.pow_add_r by lia. change (10 ^ 1) with 10.
      assert (c' = 10 ^ 28 \/ c' = - 10 ^ 28) as [-> | ->] by lia.
      * change (10 ^ 28 / 10) with (10 ^ 27). change (10 ^ 28) with (10 ^ 27 * 10). ring.
      * change (- 10 ^ 28 / 10) with (- 10 ^ 27). change (10 ^ 28) with (10 ^ 27 * 10). ring.
Qed.

(** The trailing zeros that an exact quotient loses. *)
Lemma strip_zeros_spec (n : nat) :
  forall c e c' e', strip_zeros n c e = (c', e') ->
                    exists j, 0 <= j /\ e' = e + j /\ c = c' * 10 ^ j.
Proof.
  induction n as [|n IH]; intros c e c' e'; cbn [strip_zeros].
  - intros [= <- <-]. exists 0. rewrite Z.pow_0_r. lia.
  - destruct (c mod 10 =? 0) eqn:Hm.
    + intros H. apply IH in H as (j & Hj & -> & Hc).
      apply Z.eqb_eq in Hm. exists (j + 1). split; [lia|]. split; [lia|].
      rewrite Z.pow_add_r by lia. change (10 ^ 1) with 10.
      pose proof (Z.div_mod c 10 ltac:(lia)) as Hdm. rewrite Hm in Hdm.
      rewrite Z.mul_assoc, <- Hc. lia.
    + intros [= <- <-]. exists 0. rewrite Z.pow_0_r. lia.
Qed.

(** The scaled numerator and denominator of [__truediv__] are at least
    28 digits apart. *)
Lemma div_operands_apart (A B : Z) :
  A <> 0 -> B <> 0 ->
  let shift := ndigits B - ndigits A + prec + 1 in
  let num := if 0 <=? shift then Z.abs A * 10 ^ shift else Z.abs A in
  let den := if 0 <=? shift then Z.abs B else Z.abs B * 10 ^ (- shift) in
  0 < den /\ 10 ^ 28 * den <= num.
Proof.
  intros HA HB shift num den.
  destruct (ndigits_spec A HA) as (Hna & HAlo & HAhi).
  destruct (ndigits_spec B HB) as (Hnb & HBlo & HBhi).
  unfold prec in shift. subst num den.
  destruct (0 <=? shift) eqn:Hs.
  - apply Z.leb_le in Hs. split; [lia|].
    assert (10 ^ 28 * 10 ^ ndigits B = 10 ^ (ndigits A - 1) * 10 ^ shift) as Heq.
    { rewrite <- !Z.pow_add_r by lia. f_equal. unfold shift. lia. }
    transitivity (10 ^ 28 * 10 ^ ndigits B).
    + apply Z.mul_le_mono_nonneg_l; [apply Z.pow_nonneg|]; lia.
    + rewrite Heq. apply Z.mul_le_mono_nonneg_r; [apply Z.pow_nonneg|]; lia.
  - apply Z.leb_gt in Hs.
    assert (0 < 10 ^ (- shift)) as Hpos by (apply Z.pow_pos_nonneg; lia).
    split; [apply Z.mul_pos_pos; lia|].
    assert (10 ^ 28 * (10 ^ ndigits B * 10 ^ (- shift)) = 10 ^ (ndigits A - 1)) as Heq.
    { rewrite <- !Z.pow_add_r by lia. f_equal. unfold shift. lia. }
    transitivity (10 ^ (ndigits A - 1)); [|lia]. rewrite <- Heq.
    apply Z.mul_le_mono_nonneg_l; [apply Z.pow_nonneg; lia|].
    apply Z.mul_le_mono_nonneg_r; lia.
Qed.

(** [a / b] for non-zero operands: the quotient of the scaled integers
    [num] and [den], with the sign of the operands, at an exponent [k]
    above that of the integer division and within [10 ^ -27] of the
    exact quotient, relatively. *)
Lemma div_accuracy (a b : Decimal) :
  coeff a <> 0 -> coeff b <> 0 ->
  let sgn := Z.sgn (coeff a) * Z.sgn (coeff b) in
  let shift := ndigits (coeff b) - ndigits (coeff a) + prec + 1 in
  let num := if 0 <=? shift then Z.abs (coeff a) * 10 ^ shift else Z.abs (coeff a) in
  let den := if 0 <=? shift then Z.abs (coeff b) else Z.abs (coeff b) * 10 ^ (- shift) in
  exists q k,
    div a b = Some q /\ 0 <= k /\
    expo q = expo a - expo b - shift + k /\
    10 ^ 27 * Z.abs (coeff q * 10 ^ k * den - sgn * num) <= num.
Proof.
  intros HA HB sgn shift num den.
  destruct (div_operands_apart (coeff a) (coeff b) HA HB) as [Hden Hapart].
  fold shift in Hden, Hapart. fold num den in Hden, Hapart.
  assert (sgn = 1 \/ sgn = -1) as Hsgn by (unfold sgn; lia).
  unfold div. apply Z.eqb_neq in HA, HB. rewrite HA, HB.
  fold sgn. fold shift. fold num. fold den.
  pose proof (Z.div_mod num den ltac:(lia)) as Hdm.
  pose proof (Z.mod_pos_bound num den Hden) as Hr.
  set (q0 := num / den) in *. set (r := num mod den) in *.
  assert (0 < 10 ^ 27) as HP by reflexivity.
  change (10 ^ 28) with (10 * 10 ^ 27) in Hapart.
  set (P := 10 ^ 27) in *.
  destruct (r =? 0) eqn:Hr0.
  - apply Z.eqb_eq in Hr0.
    destruct (strip_zeros _ q0 _) as [q' e'] eqn:Hstrip.
    apply strip_zeros_spec in Hstrip as (j & Hj & -> & Hq0).
    destruct (fix_accuracy (mkDecimal (sgn * q') (expo a - expo b - shift + j)))
      as (k & Hk & He & Hacc).
    cbn [coeff expo] in He, Hacc. fold P in Hacc.
    set (f := fix_ _) in *.
    exists f, (j + k). split; [reflexivity|]. split; [lia|]. split; [lia|].
    assert (0 < 10 ^ j) as Hpj by (apply Z.pow_pos_nonneg; lia).
    assert (num = q' * 10 ^ j * den) as HN by (rewrite <- Hq0; lia).
    assert (0 <= q') as Hq'.
    { assert (0 <= q0) by (apply Z.div_pos; lia). nia. }
    rewrite (Z.add_comm j k), Z.pow_add_r by lia.
    set (X := coeff f * 10 ^ k) in *.
    replace (coeff f * (10 ^ k * 10 ^ j) * den - sgn * num)
      with ((X - sgn * q') * (10 ^ j * den)) by (rewrite HN; unfold X; ring).
    rewrite Z.abs_mul, (Z.abs_eq (10 ^ j * den)) by nia.
    assert (Z.abs (sgn * q') = q') as Habs by (destruct Hsgn as [-> | ->]; lia).
    rewrite Habs in Hacc.
    set (u := Z.abs (X - sgn * q')) in *.
    assert (0 < 10 ^ j * den) as Hjd by nia.
    set (w := 10 ^ j * den) in *.
    assert (num = q' * w) as -> by (rewrite HN; unfold w; ring).
    assert (2 * (P * u * w) <= q' * w) by nia.
    assert (0 <= P * u * w) by (unfold u; nia).
    replace (P * (u * w)) with (P * u * w) by ring. nia.
  - apply Z.eqb_neq in Hr0.
    set (q' := if q0 mod 5 =? 0 then q0 + 1 else q0).
    assert (q0 <= q' <= q0 + 1) as Hq' by (unfold q'; destruct (Z.eqb (q0 mod 5) 0); lia).
    assert (0 <= q0) as Hq0 by (apply Z.div_pos; lia).
    destruct (fix_accuracy (mkDecimal (sgn * q') (expo a - expo b - shift)))
      as (k & Hk & He & Hacc).
    cbn [coeff expo] in He, Hacc. fold P in Hacc.
    set (f := fix_ _) in *.
    exists f, k. split; [reflexivity|]. split; [lia|]. split; [lia|].
    set (X := coeff f * 10 ^ k) in *.
    assert (Z.abs (sgn * q') = q') as Habs by (destruct Hsgn as [-> | ->]; lia).
    rewrite Habs in Hacc.
    replace (X * den - sgn * num)
      with ((X - sgn * q') * den + sgn * (q' * den - num)) by ring.
    set (u := Z.abs (X - sgn * q')) in *.
    assert (Z.abs ((X - sgn * q') * den + sgn * (q' * den - num))
            <= u * den + Z.abs (q' * den - num)) as Htri.
    { etransitivity; [apply Z.abs_triangle|].
      rewrite !Z.abs_mul, (Z.abs_eq den) by lia. fold u.
      assert (Z.abs sgn = 1) as -> by (destruct Hsgn as [-> | ->]; reflexivity). lia. }
    assert (Z.abs (q' * den - num) <= den) as Hrem by nia.
    assert (2 * (P * u * den) <= q' * den) as H1 by nia.
    assert (q' * den <= num + den) as H2 by nia.
    assert (0 <= u) as Hu by (unfold u; lia).
    set (t := Z.abs (q' * den - num)) in *.
    set (lhs := Z.abs ((X - sgn * q') * den + sgn * (q' * den - num))) in *.
    assert (P * lhs <= P * (u * den + t)) as H3
      by (apply Z.mul_le_mono_nonneg_l; lia).
    assert (P * t <= P * den) as H4
      by (apply Z.mul_le_mono_nonneg_l; lia).
    assert (10 * (P * den) <= num) as H5 by lia.
    replace (P * (u * den + t)) with (P * u * den + P * t) in H3 by ring.
    set (a1 := P * u * den) in *. set (a2 := P * den) in *.
    set (a3 := q' * den) in *. set (a4 := P * t) in *. set (a5 := P * lhs) in *.
    assert (den <= a2) by (unfold a2; nia).
    lia.
Qed.

(** What the column keeps of a value whose exponent is [k] above
    [E <= -2]: the hundredths nearest to it. *)
Lemma quantize2_accuracy (q : Decimal) (E k : Z) :
  expo q = E + k -> 0 <= k -> E <= -2 ->
  expo (quantize2 q) = -2 /\
  2 * Z.abs (coeff (quantize2 q) * 10 ^ (-2 - E) - coeff q * 10 ^ k) <= 10 ^ (-2 - E).
Proof.
  intros He Hk HE. unfold quantize2. destruct (expo q <=? -2) eqn:Hle; cbn [coeff expo].
  - apply Z.leb_le in Hle. split; [reflexivity|].
    assert (0 < 10 ^ (-2 - expo q)) as Hpos by (apply Z.pow_pos_nonneg; lia).
    pose proof (round_half_even_error (coeff q) _ Hpos) as Herr.
    set (s := round_half_even _ _) in *.
    assert (10 ^ (-2 - E) = 10 ^ (-2 - expo q) * 10 ^ k) as ->.
    { rewrite <- Z.pow_add_r by lia. f_equal. lia. }
    set (M := 10 ^ (-2 - expo q)) in *.
    assert (0 < 10 ^ k) as Hpk by (apply Z.pow_pos_nonneg; lia).
    replace (s * (M * 10 ^ k) - coeff q * 10 ^ k) with ((s * M - coeff q) * 10 ^ k) by ring.
    rewrite Z.abs_mul, (Z.abs_eq (10 ^ k)) by lia.
    rewrite Z.mul_assoc. apply Z.mul_le_mono_nonneg_r; lia.
  - apply Z.leb_gt in Hle. split; [reflexivity|].
    assert (10 ^ k = 10 ^ (expo q + 2) * 10 ^ (-2 - E)) as ->.
    { rewrite <- Z.pow_add_r by lia. f_equal. lia. }
    assert (0 < 10 ^ (-2 - E)) as Hpos by (apply Z.pow_pos_nonneg; lia).
    replace (coeff q * 10 ^ (expo q + 2) * 10 ^ (-2 - E) -
             coeff q * (10 ^ (expo q + 2) * 10 ^ (-2 - E))) with 0 by ring.
    cbn [Z.abs]. lia.
Qed.

(** An amount of the column divided by a positive decimal, as it is
    stored: [b] times the stored hundredths are within half of [b] of
    the hundredths of the amount. *)
Lemma stored_quotient (c B eb : Z) :
  Z.abs c < 10 ^ 10 -> 0 < B -> -16 <= eb <= 0 ->
  exists q,
    div (mkDecimal c (-2)) (mkDecimal B eb) = Some q /\
    expo (quantize2 q) = -2 /\
    2 * Z.abs (coeff (quantize2 q) * B - c * 10 ^ (- eb)) <= B.
Proof.
  intros Hc HB Heb.
  destruct (Z.eq_dec c 0) as [-> | Hnz].
  - exists (mkDecimal 0 (-2 - eb)). unfold div. cbn [coeff expo].
    assert ((B =? 0) = false) as -> by (apply Z.eqb_neq; lia).
    split; [reflexivity|]. split.
    + unfold quantize2. destruct (_ <=? _); reflexivity.
    + rewrite quantize2_zero_coeff by reflexivity. cbn. lia.
  - pose proof (div_accuracy (mkDecimal c (-2)) (mkDecimal B eb)) as Hdiv.
    cbn [coeff expo] in Hdiv. specialize (Hdiv Hnz ltac:(lia)).
    destruct (ndigits_spec c Hnz) as (Hna & Hclo & _).
    destruct (ndigits_spec B ltac:(lia)) as (Hnb & _ & _).
    assert (ndigits c <= 10) as Hna10.
    { destruct (Z_le_gt_dec (ndigits c) 10) as [|Hgt]; [assumption|].
      assert (10 ^ 10 <= 10 ^ (ndigits c - 1)) by (apply Z.pow_le_mono_r; lia). lia. }
    unfold prec in Hdiv.
    set (shift := ndigits B - ndigits c + 28 + 1) in *.
    assert (20 <= shift) as Hshift by (unfold shift; lia).
    assert ((0 <=? shift) = true) as Hpos by (apply Z.leb_le; lia).
    rewrite Hpos in Hdiv.
    destruct Hdiv as (q & k & Hq & Hk & He & Hacc).
    exists q. split; [exact Hq|].
    destruct (quantize2_accuracy q (-2 - eb - shift) k He Hk ltac:(lia)) as [Hexp Hquant].
    split; [exact Hexp|].
    set (s := coeff (quantize2 q)) in *.
    replace (-2 - (-2 - eb - shift)) with (eb + shift) in Hquant by lia.
    assert (10 ^ shift = 10 ^ (- eb) * 10 ^ (eb + shift)) as HS.
    { rewrite <- Z.pow_add_r by lia. f_equal. lia. }
    assert (0 < 10 ^ (eb + shift)) as HM by (apply Z.pow_pos_nonneg; lia).
    assert (1 <= 10 ^ (- eb) <= 10 ^ 16) as HT.
    { split; [assert (0 < 10 ^ (- eb)) by (apply Z.pow_pos_nonneg; lia); lia|].
      apply Z.pow_le_mono_r; lia. }
    rewrite HS in Hacc.
    set (M := 10 ^ (eb + shift)) in *. set (T := 10 ^ (- eb)) in *.
    assert (Z.sgn c * Z.sgn B * (Z.abs c * (T * M)) = c * T * M) as Hsg.
    { assert (Z.sgn B = 1) as -> by lia. rewrite Z.mul_1_r.
      destruct (Z_lt_le_dec c 0) as [Hneg | Hnn].
      - rewrite Z.sgn_neg, Z.abs_neq by lia. ring.
      - rewrite Z.sgn_pos, Z.abs_eq by lia. ring. }
    rewrite (Z.abs_eq B) in Hacc by lia. rewrite Hsg in Hacc.
    set (X := coeff q * 10 ^ k) in *.
    set (Y := Z.abs (s * B - c * T)).
    assert (Y * M <= Z.abs (s * M - X) * B + Z.abs (X * B - c * T * M)) as Htri.
    { unfold Y. rewrite <- (Z.abs_eq M) at 1 by lia. rewrite <- Z.abs_mul.
      replace ((s * B - c * T) * M) with ((s * M - X) * B + (X * B - c * T * M)) by ring.
      etransitivity; [apply Z.abs_triangle|].
      rewrite Z.abs_mul, (Z.abs_eq B) by lia. lia. }
    set (e1 := Z.abs (s * M - X)) in *. set (e2 := Z.abs (X * B - c * T * M)) in *.
    assert (0 < 10 ^ 27) as HP by reflexivity.
    assert (10 ^ 10 * 10 ^ 16 * 2 < 10 ^ 27) as Hsmall by reflexivity.
    set (P := 10 ^ 27) in *.
    assert (2 * (e1 * B) <= M * B) as H1 by (apply Z.mul_le_mono_nonneg_r with (p := B) in Hquant; lia).
    assert (Z.abs c * T < 10 ^ 10 * 10 ^ 16) as HcT.
    { apply Z.le_lt_trans with (Z.abs c * 10 ^ 16).
      - apply Z.mul_le_mono_nonneg_l; lia.
      - apply Z.mul_lt_mono_pos_r; [reflexivity|lia]. }
    set (W := Z.abs c * T) in *.
    replace (Z.abs c * (T * M)) with (W * M) in Hacc by (unfold W; ring).
    assert (2 * P * (Y * M) <= (P * B + 2 * W) * M) as Hall by nia.
    assert (2 * P * Y <= P * B + 2 * W) as Hdivd.
    { apply Z.mul_le_mono_pos_r with (p := M); [exact HM|]. lia. }
    assert (2 * P * Y < P * (B + 1)) as Hlt by lia.
    assert (2 * Y < B + 1); [|lia].
    apply Z.mul_lt_mono_pos_l with (p := P); [exact HP|]. lia.
Qed.

(** ** [WorkSession.save]: the shares of a rent add up *)

(** The daily share of a rent as its row keeps it.  For the first
    session of a day of a user whose rent amount is a value of its column
    (two decimal places, ten digits), the rent of the saved row is in
    hundredths; it is the amount itself for a daily rent; seven times
    the stored rent differ from a weekly amount by at most 0.03; and for
    a monthly rent, as many stored rents as the month has days differ
    from the amount by at most half a hundredth per day.  The save gets
    as far as the write, and completes exactly when the database takes
    the row of the derived instance. *)
Theorem stored_rent_shares_add_up (db : DB) (s : WorkSession) (p : UserProfile) :
  has_profile db (user s) p ->
  valid_month (date s) ->
  numeric_10_2 (rent_amount p) ->
  ~ other_session_exists db s ->
  exists d r,
    derive db s = Ok d /\
    quantize_number (vehicle_rent d) = Dec (mkDecimal r (-2)) /\
    (row_accepted d <-> exists db' s', save db s = Ok (db', s')) /\
    (forall db' s',
        save db s = Ok (db', s') ->
        exists k row,
          pk s' = Some k /\
          sessions db' !! k = Some row /\
          vehicle_rent row = Dec (mkDecimal r (-2))) /\
    (rent_frequency p = "daily"%string -> r = coeff (rent_amount p)) /\
    (rent_frequency p = "weekly"%string -> Z.abs (7 * r - coeff (rent_amount p)) <= 3) /\
    (rent_frequency p = "monthly"%string ->
     exists n, days_in_month (year (date s)) (month (date s)) = Some n /\
               2 * Z.abs (n * r - coeff (rent_amount p)) <= n).
Proof.
  intros Hp Hv [Hexp Hdigits] Hfirst.
  destruct (rent_block_value db s p Hp Hv) as (figure & Hfig & Hblock).
  assert (existing_sessions_exist db s = false) as Hnone.
  { destruct (existing_sessions_exist db s) eqn:E; [|reflexivity].
    exfalso. apply Hfirst. now apply existing_sessions_exist_spec. }
  rewrite Hnone in Hblock. apply rent_after_Ok in Hblock.
  destruct (derive_result db s figure Hblock) as (d & Hd & _ & Hrentd & _).
  destruct (save_completes db s d Hd) as [Hiff _].
  destruct (rent_amount p) as [c e] eqn:Hamount. cbn [coeff expo] in *. subst e.
  assert (exists r, quantize2 figure = mkDecimal r (-2)) as [r Hr].
  { unfold quantize2. destruct (_ <=? _); eauto. }
  exists d, r.
  split; [exact Hd|].
  split; [rewrite Hrentd; cbn [quantize_number]; now rewrite Hr|].
  split; [exact Hiff|].
  split.
  { intros db' s' Hsave.
    destruct (save_result db db' s s' Hsave)
      as (k & r0 & Hpk & _ & _ & Hdb & Hafter & Hrent & _).
    rewrite Hblock in Hafter. injection Hafter as <-.
    destruct (save_row db db' s' k Hdb) as [Hrow _].
    exists k, (to_row s'). split; [exact Hpk|]. split; [exact Hrow|].
    cbn [to_row vehicle_rent]. rewrite Hrent. cbn [quantize_number]. now rewrite Hr. }
  unfold daily_cost in Hfig. cbn [profile_row rent_amount_of div_number] in Hfig.
  rewrite Hamount in Hfig.
  split; [|split].
  - intros Hf. rewrite Hf in Hfig. cbn [String.eqb Ascii.eqb Bool.eqb] in Hfig.
    injection Hfig as <-.
    unfold quantize2 in Hr. cbn [expo coeff] in Hr. change (-2 <=? -2) with true in Hr.
    cbn iota in Hr. change (10 ^ (-2 - -2)) with 1 in Hr.
    pose proof (round_half_even_error c 1 ltac:(lia)) as Herr.
    injection Hr as <-. lia.
  - intros Hf. rewrite Hf in Hfig. cbn [String.eqb Ascii.eqb Bool.eqb] in Hfig.
    destruct (stored_quotient c 70 (-1) Hdigits ltac:(lia) ltac:(lia))
      as (q & Hq & _ & Hclose).
    change (mkDecimal 70 (-1)) with d_7_0 in Hq. rewrite Hq in Hfig.
    cbn [or_raise bind] in Hfig. injection Hfig as <-.
    rewrite Hr in Hclose. cbn [coeff] in Hclose.
    change (10 ^ (- -1)) with 10 in Hclose. lia.
  - intros Hf. rewrite Hf in Hfig. cbn [String.eqb Ascii.eqb Bool.eqb] in Hfig.
    destruct (days_in_month_valid _ Hv) as [n Hn]. rewrite Hn in Hfig.
    cbn [or_raise bind] in Hfig.
    pose proof (days_in_month_pos _ _ _ Hn) as Hn28.
    destruct (stored_quotient c n 0 Hdigits ltac:(lia) ltac:(lia))
      as (q & Hq & _ & Hclose).
    change (mkDecimal n 0) with (of_int n) in Hq. rewrite Hq in Hfig.
    cbn [or_raise bind] in Hfig. injection Hfig as <-.
    rewrite Hr in Hclose. cbn [coeff] in Hclose.
    change (10 ^ (- 0)) with 1 in Hclose.
    exists n. split; [exact Hn|]. lia.
Qed.

Lemma stored_rent_shares_add_up_witness :
  exists k row r,
    save weekly_renter_db morning_shift = Ok (run_save weekly_renter_db morning_shift) /\
    pk (snd (run_save weekly_renter_db morning_shift)) = Some k /\
    sessions (fst (run_save weekly_renter_db morning_shift)) !! k = Some row /\
    vehicle_rent row = Dec (mkDecimal r (-2)) /\
    Z.abs (7 * r - coeff (rent_amount weekly_renter_profile)) <= 3.
Proof.
  destruct (stored_rent_shares_add_up weekly_renter_db morning_shift weekly_renter_profile)
    as (d & r & _ & _ & _ & Hstored & _ & Hweekly & _).
  - split; reflexivity.
  - unfold valid_month. cbn. lia.
  - split; [reflexivity|]. cbn. lia.
  - intros (k & row & Hk & _). cbn in Hk. rewrite lookup_empty in Hk. discriminate.
  - assert (save weekly_renter_db morning_shift
            = Ok (run_save weekly_renter_db morning_shift)) as Hsave
      by (vm_compute; reflexivity).
    destruct (run_save weekly_renter_db morning_shift) as [db' s'] eqn:Hrun.
    destruct (Hstored db' s' Hsave) as (k & row & Hpk & Hrow & Hrent).
    exists k, row, r. cbn [fst snd].
    split; [exact Hsave|]. split; [exact Hpk|]. split; [exact Hrow|].
    split; [exact Hrent|]. now apply Hweekly.
Defined.

(** A rent of 100.00 a week: the first session of a day is stored with
    14.29, and seven of them make 100.03. *)
Example weekly_rent_of_100 :
  vehicle_rent <$> sessions (fst (run_save weekly_renter_db morning_shift)) !! 1%positive
  = Some (Dec (mkDecimal 1429 (-2))).
Proof. vm_compute. reflexivity. Qed.
